(** * Cattel_Backend: the cattle verification, identification and transfer workflow

  A shallow embedding of the Mongoose models and Express controllers of the
  livestock registry, with the properties of the workflow proved over it.

  Conventions of the embedding.
  - A Mongo [ObjectId] is a natural number; a collection is a finite map
    ([gmap]) from ids to documents.
  - A JavaScript [Date] is its millisecond timestamp, an integer; every
    [new Date()] / [Date.now()] reads an explicit [now] argument.
  - Status fields are strings, exactly as in the schemas, so that a value
    outside a schema [enum] can be written down and rejected by the
    validator.
  - A field that may be [undefined] or [null] is an [option].
  - A controller either sends a response or throws; the error middleware
    turns a throw into a response as well, so a handler is a state
    transformer over the database that ends in a [Response]. *)

From Stdlib Require Import ZArith Lia Bool Ascii String DecimalString.
From Stdlib Require Import Floats.SpecFloat.
From stdpp Require Import base option list strings gmap fin_maps.

Local Open Scope Z_scope.

Abbreviation ObjectId := nat (only parsing).
Abbreviation Date := Z (only parsing).

(** JavaScript [===] on strings. *)
Notation "a === b" := (String.eqb a b) (at level 70, no associativity).
Notation "a !== b" := (negb (String.eqb a b)) (at level 70, no associativity).

(** ** Uploaded image metadata (the sub-documents of [images.*]) *)

Module Image.

Record t := mk {
  filename : string;
  path : string;
  uploadedAt : Date;
  size : Z;
  mimetype : string
}.

End Image.

(** ** models/Cattle.js (the schema with the regional / M_Admin workflow) *)

Module Cattle.

Record Images := mkImages {
  muzzle : list Image.t;
  face : list Image.t;
  left : list Image.t;
  right : list Image.t;
  fullBodyLeft : list Image.t;
  fullBodyRight : list Image.t
}.

Record Verification := mkVerification {
  v_status : string;
  reviewedByRegionalAdmin : option ObjectId;
  regionalReviewedAt : option Date;
  regionalAdminAction : option string;
  regionalDenialReason : option string;
  verifiedBy : option ObjectId;
  verifiedAt : option Date;
  rejectionReason : option string;
  submittedAt : Date;
  turnaroundDeadline : option Date;
  forwardedToMAdminAt : option Date
}.

Record Location := mkLocation {
  state : string;
  district : string;
  pinCode : option string
}.

Record IdentificationEntry := mkIdentificationEntry {
  identifiedAt : Date;
  identifiedBy : ObjectId;
  method : string
}.

(** [breed] is the text as the schema's [trim] leaves it, and [age], a
    [Number], a whole number of years. *)
Record t := mk {
  cattleId : option string;
  owner : ObjectId;
  breed : string;
  age : option Z;
  images : Images;
  status : string;
  verification : Verification;
  temporaryId : option string;
  location : Location;
  transferHistory : list ObjectId;
  archivedAt : option Date;
  archivedBy : option ObjectId;
  identificationHistory : list IdentificationEntry
}.

(** [enum] of [status] and of [verification.status]. *)
Definition status_enum : list string := ["active"; "archive"; "transit"].

Definition verification_status_enum : list string :=
  ["pending_regional_review"; "denied_by_regional"; "forwarded_to_m_admin";
   "pending_m_admin_review"; "approved"; "rejected"].

(** Field assignments [this.f = v]. *)
Definition set_status (s : string) (c : t) : t :=
  mk (cattleId c) (owner c) (breed c) (age c) (images c) s (verification c)
     (temporaryId c) (location c) (transferHistory c) (archivedAt c)
     (archivedBy c) (identificationHistory c).

Definition set_verification (v : Verification) (c : t) : t :=
  mk (cattleId c) (owner c) (breed c) (age c) (images c) (status c) v
     (temporaryId c) (location c) (transferHistory c) (archivedAt c)
     (archivedBy c) (identificationHistory c).

Definition set_temporaryId (x : option string) (c : t) : t :=
  mk (cattleId c) (owner c) (breed c) (age c) (images c) (status c) (verification c)
     x (location c) (transferHistory c) (archivedAt c)
     (archivedBy c) (identificationHistory c).

Definition set_cattleId (x : option string) (c : t) : t :=
  mk x (owner c) (breed c) (age c) (images c) (status c) (verification c)
     (temporaryId c) (location c) (transferHistory c) (archivedAt c)
     (archivedBy c) (identificationHistory c).

Definition set_owner (o : ObjectId) (c : t) : t :=
  mk (cattleId c) o (breed c) (age c) (images c) (status c) (verification c)
     (temporaryId c) (location c) (transferHistory c) (archivedAt c)
     (archivedBy c) (identificationHistory c).

Definition set_transferHistory (h : list ObjectId) (c : t) : t :=
  mk (cattleId c) (owner c) (breed c) (age c) (images c) (status c) (verification c)
     (temporaryId c) (location c) h (archivedAt c)
     (archivedBy c) (identificationHistory c).

Definition set_archived (at_ : option Date) (by_ : option ObjectId) (c : t) : t :=
  mk (cattleId c) (owner c) (breed c) (age c) (images c) (status c) (verification c)
     (temporaryId c) (location c) (transferHistory c) at_ by_
     (identificationHistory c).

Definition set_identificationHistory (h : list IdentificationEntry) (c : t) : t :=
  mk (cattleId c) (owner c) (breed c) (age c) (images c) (status c) (verification c)
     (temporaryId c) (location c) (transferHistory c) (archivedAt c)
     (archivedBy c) h.

(** [cattleSchema.methods.forwardToMAdmin]: the in-memory assignments; the
    trailing [await this.save()] is the caller's write to the collection. *)
Definition forwardToMAdmin (regionalAdminId : ObjectId) (now : Date) (this : t) : t :=
  let v := verification this in
  set_verification
    (mkVerification "forwarded_to_m_admin" (Some regionalAdminId) (Some now)
       (Some "forwarded") (regionalDenialReason v) (verifiedBy v) (verifiedAt v)
       (rejectionReason v) (submittedAt v) (turnaroundDeadline v) (Some now))
    this.

(** [cattleSchema.methods.denyByRegionalAdmin] *)
Definition denyByRegionalAdmin (regionalAdminId : ObjectId) (reason : string)
    (now : Date) (this : t) : t :=
  let v := verification this in
  set_verification
    (mkVerification "denied_by_regional" (Some regionalAdminId) (Some now)
       (Some "denied") (Some reason) (verifiedBy v) (verifiedAt v)
       (rejectionReason v) (submittedAt v) (turnaroundDeadline v)
       (forwardedToMAdminAt v))
    this.

(** [cattleSchema.methods.approve] *)
Definition approve (mAdminId : ObjectId) (now : Date) (this : t) : t :=
  let v := verification this in
  set_temporaryId None
    (set_status "active"
       (set_verification
          (mkVerification "approved" (reviewedByRegionalAdmin v)
             (regionalReviewedAt v) (regionalAdminAction v)
             (regionalDenialReason v) (Some mAdminId) (Some now)
             (rejectionReason v) (submittedAt v) (turnaroundDeadline v)
             (forwardedToMAdminAt v))
          this)).

(** [cattleSchema.methods.reject] *)
Definition reject (mAdminId : ObjectId) (reason : string) (now : Date) (this : t) : t :=
  let v := verification this in
  set_verification
    (mkVerification "rejected" (reviewedByRegionalAdmin v)
       (regionalReviewedAt v) (regionalAdminAction v)
       (regionalDenialReason v) (Some mAdminId) (Some now)
       (Some reason) (submittedAt v) (turnaroundDeadline v)
       (forwardedToMAdminAt v))
    this.

(** [cattleSchema.methods.archive] *)
Definition archive (userId : ObjectId) (now : Date) (this : t) : t :=
  set_archived (Some now) (Some userId) (set_status "archive" this).

(** [cattleSchema.methods.restore] *)
Definition restore (this : t) : t :=
  let this :=
    if v_status (verification this) === "approved"
    then set_status "active" this
    else set_status "transit" this in
  set_archived None None this.

(** [cattleSchema.methods.isVerificationOverdue] *)
Definition isVerificationOverdue (now : Date) (this : t) : bool :=
  match turnaroundDeadline (verification this) with
  | Some deadline =>
      (v_status (verification this) === "pending_regional_review")
      && (deadline <? now)
  | None => false
  end.

(** The virtual [totalImages]. *)
Definition totalImages (this : t) : nat :=
  (length (muzzle (images this)) + length (face (images this))
   + length (left (images this)) + length (right (images this))
   + length (fullBodyLeft (images this))
   + length (fullBodyRight (images this)))%nat.

(** The image-count validation, a [pre('save')] hook of the first schema in
    the source that the current schema no longer has: the error it hands to
    [next], if any. *)
Definition image_count_validation (this : t) : option string :=
  let muzzleCount := length (muzzle (images this)) in
  let faceCount := length (face (images this)) in
  let leftCount := length (left (images this)) in
  let rightCount := length (right (images this)) in
  let fullBodyLeftCount := length (fullBodyLeft (images this)) in
  let fullBodyRightCount := length (fullBodyRight (images this)) in
  if (status this !== "transit") && (v_status (verification this) === "approved") then
    if negb (Nat.eqb muzzleCount 3) then Some "Exactly 3 muzzle images are required"
    else if negb (Nat.eqb faceCount 3) then Some "Exactly 3 face images are required"
    else if negb (Nat.eqb leftCount 3) then Some "Exactly 3 left side images are required"
    else if negb (Nat.eqb rightCount 3) then Some "Exactly 3 right side images are required"
    else if negb (Nat.eqb fullBodyLeftCount 1)
    then Some "Exactly 1 full body left image is required"
    else if negb (Nat.eqb fullBodyRightCount 1)
    then Some "Exactly 1 full body right image is required"
    else if negb (Nat.eqb (totalImages this) 14)
    then Some "Exactly 14 images are required in total"
    else None
  else None.

End Cattle.


(** ** JavaScript string helpers *)

(** [n.toString()] for a non-negative integer [n]. *)
Definition toString (n : Z) : string :=
  NilZero.string_of_uint (N.to_uint (Z.to_N n)).

(** [s.slice(-n)]: the last [n] characters, the whole string when it is
    shorter. *)
Definition slice_last (n : nat) (s : string) : string :=
  String.substring (String.length s - n) n s.

Fixpoint repeat_char (c : Ascii.ascii) (n : nat) : string :=
  match n with
  | O => ""
  | S n' => String c (repeat_char c n')
  end.

(** [s.padStart(n, '0')] *)
Definition padStart0 (n : nat) (s : string) : string :=
  repeat_char "0"%char (n - String.length s) +:+ s.

(** [!s] for an optional string: [undefined], [null] and the empty string
    are falsy. *)
Definition falsy (s : option string) : bool :=
  match s with
  | None => true
  | Some s => s === ""
  end.

(** ** models/User.js: the fields the workflow reads and writes *)

Module User.

Record Address := mkAddress {
  state : string;
  district : string;
  pinCode : option string
}.

Record t := mk {
  fullName : string;
  email : string;
  address : Address;
  cattle : list ObjectId
}.

Definition set_cattle (l : list ObjectId) (u : t) : t :=
  mk (fullName u) (email u) (address u) l.

(** The update operator [{ $pull: { cattle: id } }]: every occurrence goes. *)
Definition pull (id : ObjectId) (u : t) : t :=
  set_cattle (List.filter (λ x, negb (Nat.eqb x id)) (cattle u)) u.

(** The update operator [{ $addToSet: { cattle: id } }]: appended unless
    already present. *)
Definition addToSet (id : ObjectId) (u : t) : t :=
  if List.existsb (Nat.eqb id) (cattle u) then u
  else set_cattle (cattle u ++ [id]) u.

End User.

(** ** models/Admin.js *)

Module Admin.

Record Statistics := mkStatistics {
  totalVerifications : Z;
  pendingVerifications : Z;
  forwardedToMAdmin : Z;
  approvedCattle : Z;
  rejectedCattle : Z;
  deniedByRegionalAdmin : Z
}.

(** [assignedRegion.state] is absent for a super admin. *)
Record t := mk {
  role : string;
  assignedRegion_state : option string;
  isActive : bool;
  isApproved : bool;
  statistics : Statistics
}.

Definition set_statistics (s : Statistics) (a : t) : t :=
  mk (role a) (assignedRegion_state a) (isActive a) (isApproved a) s.

(** [adminSchema.pre('save')]: a regional admin and an M_Admin must have an
    assigned region; the error it hands to [next], if any. *)
Definition pre_save (this : t) : option string :=
  if ((role this === "regional_admin") || (role this === "m_admin"))
     && falsy (assignedRegion_state this)
  then Some (role this +:+ " must have an assigned region")
  else None.

End Admin.

(** ** models/TransferRequest.js *)

Module Transfer.

Record t := mk {
  cattle : ObjectId;
  fromOwner : ObjectId;
  toOwner : ObjectId;
  transferType : string;
  status : string;
  price : option Z;
  notes : option string;
  transferDate : Date;
  respondedAt : option Date;
  responseMessage : option string;
  expiresAt : Date;
  cancelledBy : option ObjectId;
  cancelledAt : option Date;
  cancellationReason : option string;
  completedAt : option Date
}.

Definition status_enum : list string :=
  ["pending"; "accepted"; "rejected"; "cancelled"].

Definition set_status (s : string) (r : t) : t :=
  mk (cattle r) (fromOwner r) (toOwner r) (transferType r) s (price r)
     (notes r) (transferDate r) (respondedAt r) (responseMessage r)
     (expiresAt r) (cancelledBy r) (cancelledAt r) (cancellationReason r)
     (completedAt r).

Definition set_response (at_ : option Date) (msg : option string) (r : t) : t :=
  mk (cattle r) (fromOwner r) (toOwner r) (transferType r) (status r) (price r)
     (notes r) (transferDate r) at_ msg
     (expiresAt r) (cancelledBy r) (cancelledAt r) (cancellationReason r)
     (completedAt r).

Definition set_cancellation (by_ : option ObjectId) (at_ : option Date)
    (reason : option string) (r : t) : t :=
  mk (cattle r) (fromOwner r) (toOwner r) (transferType r) (status r) (price r)
     (notes r) (transferDate r) (respondedAt r) (responseMessage r)
     (expiresAt r) by_ at_ reason (completedAt r).

Definition set_completedAt (at_ : option Date) (r : t) : t :=
  mk (cattle r) (fromOwner r) (toOwner r) (transferType r) (status r) (price r)
     (notes r) (transferDate r) (respondedAt r) (responseMessage r)
     (expiresAt r) (cancelledBy r) (cancelledAt r) (cancellationReason r)
     at_.

(** [pre('save')]: [this.fromOwner.equals(this.toOwner)] is refused. *)
Definition pre_save (this : t) : option string :=
  if Nat.eqb (fromOwner this) (toOwner this)
  then Some "Cannot transfer cattle to the same owner"
  else None.

(** [methods.isExpired] *)
Definition isExpired (now : Date) (this : t) : bool :=
  (status this === "pending") && (expiresAt this <? now).

End Transfer.

(** ** models/IdentificationRequest.js *)

Module IdReq.

Record Processing := mkProcessing {
  startedAt : option Date;
  completedAt : option Date;
  processedBy : option ObjectId;
  timeTaken : option Z
}.

Record Result := mkResult {
  found : bool;
  cattle : option ObjectId;
  cattleId : option string;
  confidence : option Z;
  message : option string;
  identifiedAt : option Date
}.

Record t := mk {
  requestId : option string;
  user : ObjectId;
  status : string;
  processing : Processing;
  result : Result;
  adminNotes : option string;
  expiresAt : Date;
  cancelledBy : option ObjectId;
  cancelledAt : option Date;
  cancellationReason : option string
}.

Definition status_enum : list string :=
  ["pending"; "processing"; "completed"; "failed"; "cancelled"].

Definition set_status (s : string) (r : t) : t :=
  mk (requestId r) (user r) s (processing r) (result r) (adminNotes r)
     (expiresAt r) (cancelledBy r) (cancelledAt r) (cancellationReason r).

Definition set_processing (p : Processing) (r : t) : t :=
  mk (requestId r) (user r) (status r) p (result r) (adminNotes r)
     (expiresAt r) (cancelledBy r) (cancelledAt r) (cancellationReason r).

Definition set_result (x : Result) (r : t) : t :=
  mk (requestId r) (user r) (status r) (processing r) x (adminNotes r)
     (expiresAt r) (cancelledBy r) (cancelledAt r) (cancellationReason r).

Definition set_adminNotes (x : option string) (r : t) : t :=
  mk (requestId r) (user r) (status r) (processing r) (result r) x
     (expiresAt r) (cancelledBy r) (cancelledAt r) (cancellationReason r).

Definition set_requestId (x : option string) (r : t) : t :=
  mk x (user r) (status r) (processing r) (result r) (adminNotes r)
     (expiresAt r) (cancelledBy r) (cancelledAt r) (cancellationReason r).

(** The [resultData] object the controller passes to [completeWithResult]:
    all five keys are always present in the literal, possibly [undefined]. *)
Record ResultData := mkResultData {
  d_found : bool;
  d_cattle : option ObjectId;
  d_cattleId : option string;
  d_confidence : option Z;
  d_message : string
}.

(** [methods.startProcessing] *)
Definition startProcessing (adminId : ObjectId) (now : Date) (this : t) : t :=
  set_processing
    (mkProcessing (Some now) (completedAt (processing this)) (Some adminId)
       (timeTaken (processing this)))
    (set_status "processing" this).

(** [methods.completeWithResult]. [Math.floor(timeDiff / 1000)] is the floor
    of an integer quotient; the spread [{...this.result, ...resultData,
    identifiedAt}] lets every key of [resultData] win, an [undefined] one
    included. *)
Definition completeWithResult (resultData : ResultData) (now : Date) (this : t) : t :=
  let p := processing this in
  let timeTaken' :=
    match startedAt p with
    | Some started => Some ((now - started) / 1000)
    | None => timeTaken p
    end in
  set_result
    (mkResult (d_found resultData) (d_cattle resultData) (d_cattleId resultData)
       (d_confidence resultData) (Some (d_message resultData)) (Some now))
    (set_processing (mkProcessing (startedAt p) (Some now) (processedBy p) timeTaken')
       (set_status "completed" this)).

(** [methods.markAsFailed] *)
Definition markAsFailed (msg : string) (now : Date) (this : t) : t :=
  let p := processing this in
  let r := result this in
  set_result
    (mkResult (found r) (cattle r) (cattleId r) (confidence r) (Some msg)
       (identifiedAt r))
    (set_processing (mkProcessing (startedAt p) (Some now) (processedBy p) (timeTaken p))
       (set_status "failed" this)).

(** [methods.cancel]: [None] when the method throws, the request being
    neither pending nor processing. *)
Definition cancel (userId : ObjectId) (reason : string) (now : Date) (this : t)
    : option t :=
  if (status this !== "pending") && (status this !== "processing") then None
  else
    Some (mk (requestId this) (user this) "cancelled" (processing this)
            (result this) (adminNotes this) (expiresAt this)
            (Some userId) (Some now) (Some reason)).

(** [methods.isExpired] *)
Definition isExpired (now : Date) (this : t) : bool :=
  ((status this === "pending") || (status this === "processing"))
  && (expiresAt this <? now).

End IdReq.

(** ** models/Notification.js

    Only the routing fields are kept; the title, the message text and the
    action link, which every caller supplies, are presentation. *)

Module Notification.

Record t := mk {
  recipient : ObjectId;
  recipientModel : string;
  type : string;
  relatedCattle : option ObjectId;
  relatedTransfer : option ObjectId;
  priority : string
}.

Definition recipientModel_enum : list string := ["User"; "Admin"].

Definition type_enum : list string :=
  ["cattle_registered"; "cattle_approved"; "cattle_rejected";
   "verification_reminder"; "verification_overdue";
   "transfer_request_received"; "transfer_request_accepted";
   "transfer_request_rejected"; "transfer_request_cancelled";
   "admin_approved"; "admin_rejected"; "account_activated";
   "account_deactivated"].

Definition priority_enum : list string := ["low"; "medium"; "high"; "urgent"].

(** The message of the enum validator of a path. *)
Definition enum_error (enum : list string) (path value : string) : list string :=
  if List.existsb (String.eqb value) enum then []
  else ["`" +:+ value +:+ "` is not a valid enum value for path `" +:+ path +:+ "`."].

(** Schema validation: the messages of the paths that fail, in the order of
    the schema. *)
Definition validate (n : t) : list string :=
  enum_error recipientModel_enum "recipientModel" (recipientModel n)
  ++ enum_error type_enum "type" (type n)
  ++ enum_error priority_enum "priority" (priority n).

End Notification.

(** ** The database: one finite map per collection *)

Record Db := mkDb {
  cattles : gmap nat Cattle.t;
  users : gmap nat User.t;
  admins : gmap nat Admin.t;
  transfers : gmap nat Transfer.t;
  idreqs : gmap nat IdReq.t;
  notifications : list Notification.t
}.

Definition set_cattles (m : gmap nat Cattle.t) (db : Db) : Db :=
  mkDb m (users db) (admins db) (transfers db) (idreqs db) (notifications db).

Definition set_users (m : gmap nat User.t) (db : Db) : Db :=
  mkDb (cattles db) m (admins db) (transfers db) (idreqs db) (notifications db).

Definition set_admins (m : gmap nat Admin.t) (db : Db) : Db :=
  mkDb (cattles db) (users db) m (transfers db) (idreqs db) (notifications db).

Definition set_transfers (m : gmap nat Transfer.t) (db : Db) : Db :=
  mkDb (cattles db) (users db) (admins db) m (idreqs db) (notifications db).

Definition set_idreqs (m : gmap nat IdReq.t) (db : Db) : Db :=
  mkDb (cattles db) (users db) (admins db) (transfers db) m (notifications db).

Definition set_notifications (l : list Notification.t) (db : Db) : Db :=
  mkDb (cattles db) (users db) (admins db) (transfers db) (idreqs db) l.

Definition empty_db : Db := mkDb ∅ ∅ ∅ ∅ ∅ [].

(** ** Responses and handlers

    [res.status(code).json({ message })].  A handler threads the database and
    stops at the first response; writes made before that point stay applied,
    as nothing in the source opens a transaction. *)

Record Response := mkResponse {
  code : Z;
  message : string
}.

Definition Handler (A : Type) : Type := Db → Db * (Response + A).

#[global] Instance handler_ret : MRet Handler :=
  λ A (a : A) db, (db, inr a).

#[global] Instance handler_bind : MBind Handler :=
  λ A B (f : A → Handler B) (m : Handler A) db,
    match m db with
    | (db', inl r) => (db', inl r)
    | (db', inr a) => f a db'
    end.

(** [return res.status(code).json(...)] *)
Definition respond {A} (code : Z) (msg : string) : Handler A :=
  λ db, (db, inl (mkResponse code msg)).

(** A thrown [Error]: [asyncHandler] hands it to [errorHandler], which
    answers 500 as no status was set before. *)
Definition throw {A} (msg : string) : Handler A := respond 500 msg.

(** A thrown Mongoose [ValidationError]: [errorHandler] answers 400. *)
Definition throw_validation {A} (msg : string) : Handler A := respond 400 msg.

Definition read {A} (f : Db → A) : Handler A := λ db, (db, inr (f db)).

Definition write (f : Db → Db) : Handler unit := λ db, (f db, inr tt).

(** Running a handler to its response. *)
Definition run (h : Handler Response) (db : Db) : Db * Response :=
  match h db with
  | (db', inl r) => (db', r)
  | (db', inr r) => (db', r)
  end.

(** [errors.join(', ')] *)
Fixpoint join (errors : list string) : string :=
  match errors with
  | [] => ""
  | [e] => e
  | e :: errors' => e +:+ ", " +:+ join errors'
  end.

(** A duplicate-key error of the store ([code === 11000]) on the unique
    index of [field]: [errorHandler] answers 400. *)
Definition throw_duplicate {A} (field : string) : Handler A :=
  respond 400 (field +:+ " already exists. Please use a different " +:+ field +:+ ".").

(** [Notification.create]: the document is validated against the schema
    and then inserted. *)
Definition notify (n : Notification.t) : Handler unit :=
  match Notification.validate n with
  | [] => write (λ db, set_notifications (notifications db ++ [n]) db)
  | errors => throw_validation (join errors)
  end.

(** [for (const x of xs) { await body(x) }] *)
Fixpoint for_each {A} (xs : list A) (body : A → Handler unit) : Handler unit :=
  match xs with
  | [] => mret tt
  | x :: xs' => body x ≫= λ _, for_each xs' body
  end.

(** A handler that writes to the administrators and the notifications
    only. *)
Definition frames {A} (h : Handler A) : Prop :=
  ∀ db, cattles (h db).1 = cattles db ∧ users (h db).1 = users db
        ∧ transfers (h db).1 = transfers db ∧ idreqs (h db).1 = idreqs db.

(** The status codes with which a handler may stop, and those with which
    a controller may answer. *)
Definition stops_with {A} (codes : list Z) (h : Handler A) : Prop :=
  ∀ db, match (h db).2 with
        | inl r => In (code r) codes
        | inr _ => True
        end.

Definition answers_with (codes : list Z) (h : Handler Response) : Prop :=
  ∀ db, In (code (run h db).2) codes.


(** ** middlewares/roleMiddleware.js

    [req.user] is the document the authentication middleware loaded, a
    farmer or an administrator, and [req.userType] the kind it recorded; a
    guard either answers or calls [next()], which is [mret tt] here.  A
    guard that reads a property of a missing [req.user] throws a
    [TypeError]: outside a [try] the error middleware answers 500, inside
    one the guard's own [catch] does. *)

Module RoleMiddleware.

Record Principal := mkPrincipal {
  p_id : ObjectId;
  p_role : string;
  p_isApproved : bool;
  p_region_state : option string;
  p_region_districts : list string
}.

Record Req := mkReq {
  userType : option string;
  user : option Principal;
  params_id : option ObjectId;
  params_cattleId : option ObjectId;
  params_userId : option ObjectId;
  body_cattleId : option ObjectId;
  body_userId : option ObjectId;
  body_state : option string;
  params_state : option string;
  query_state : option string
}.

(** [a || b] on two optional strings. *)
Definition or_else (a b : option string) : option string :=
  if falsy a then b else a.

(** [a || b] on two optional ids; an id is never falsy. *)
Definition or_id (a b : option ObjectId) : option ObjectId :=
  match a with
  | Some _ => a
  | None => b
  end.

(** [req.userType !== s] *)
Definition userType_is (s : string) (req : Req) : bool :=
  match userType req with
  | Some t => t === s
  | None => false
  end.

(** [req.user.f] outside a [try]. *)
Definition the_user (req : Req) : Handler Principal :=
  match user req with
  | Some u => mret u
  | None => throw "Cannot read properties of undefined"
  end.

(** [authorize(...roles)] *)
Definition authorize (roles : list string) (req : Req) : Handler unit :=
  match user req with
  | None => respond 401 "Please login to access this resource"
  | Some u =>
      if negb (List.existsb (String.eqb (p_role u)) roles)
      then respond 403 ("Role '" +:+ p_role u
                        +:+ "' is not authorized to access this resource")
      else mret tt
  end.

(** [userOnly] *)
Definition userOnly (req : Req) : Handler unit :=
  if negb (userType_is "user" req)
  then respond 403 "This resource is only accessible to registered users/farmers" else
  u ← the_user req;
  if p_role u !== "user"
  then respond 403 "This resource is only accessible to registered users/farmers"
  else mret tt.

(** [adminOnly] *)
Definition adminOnly (req : Req) : Handler unit :=
  if negb (userType_is "admin" req)
  then respond 403 "This resource is only accessible to administrators" else
  u ← the_user req;
  if (p_role u !== "regional_admin") && (p_role u !== "super_admin")
  then respond 403 "Admin access required"
  else mret tt.

(** [regionalAdminOnly] *)
Definition regionalAdminOnly (req : Req) : Handler unit :=
  if negb (userType_is "admin" req)
  then respond 403 "This resource is only accessible to regional administrators" else
  u ← the_user req;
  if p_role u !== "regional_admin"
  then respond 403 "This resource is only accessible to regional administrators" else
  if negb (p_isApproved u)
  then respond 403 "Your regional admin account is pending approval"
  else mret tt.

(** [superAdminOnly] *)
Definition superAdminOnly (req : Req) : Handler unit :=
  if negb (userType_is "admin" req)
  then respond 403 "This resource is only accessible to super administrators" else
  u ← the_user req;
  if p_role u !== "super_admin"
  then respond 403 "This resource is only accessible to super administrators"
  else mret tt.

(** [checkRegionalAccess]; the region it attaches to the request on the way
    is read by no handler. *)
Definition checkRegionalAccess (req : Req) : Handler unit :=
  u ← the_user req;
  if p_role u === "super_admin" then mret tt else
  if p_role u === "regional_admin" then
    if falsy (p_region_state u)
    then respond 403 "No region assigned to your admin account" else
    let requestedState := or_else (or_else (body_state req) (params_state req))
                            (query_state req) in
    if negb (falsy requestedState)
       && negb (bool_decide (requestedState = p_region_state u))
    then respond 403 "You can only access data from your assigned region"
    else mret tt
  else mret tt.

(** [canManageUser] *)
Definition canManageUser (req : Req) : Handler unit :=
  match user req with
  | None => respond 500 "Error checking user management permissions"
  | Some u =>
      if p_role u === "super_admin" then mret tt else
      if p_role u === "regional_admin" then
        match or_id (params_userId req) (body_userId req) with
        | None => mret tt
        | Some userId =>
            found ← read (λ db, users db !! userId);
            match found with
            | None => respond 404 "User not found"
            | Some x =>
                if negb (bool_decide (Some (User.state (User.address x))
                                      = p_region_state u))
                then respond 403 "You can only manage users from your assigned region"
                else mret tt
            end
        end
      else mret tt
  end.

(** [canManageCattle] *)
Definition canManageCattle (req : Req) : Handler unit :=
  match user req with
  | None => respond 500 "Error checking cattle management permissions"
  | Some u =>
      if p_role u === "super_admin" then mret tt else
      if p_role u === "regional_admin" then
        match or_id (params_cattleId req) (body_cattleId req) with
        | None => mret tt
        | Some cattleId =>
            cattle ← read (λ db, cattles db !! cattleId);
            match cattle with
            | None => respond 404 "Cattle not found"
            | Some c =>
                if negb (bool_decide (Some (Cattle.state (Cattle.location c))
                                      = p_region_state u))
                then respond 403 "You can only manage cattle from your assigned region"
                else mret tt
            end
        end
      else mret tt
  end.

(** [checkOwnership(resourceType)] *)
Definition checkOwnership (resourceType : string) (req : Req) : Handler unit :=
  if userType_is "admin" req then mret tt else
  match or_id (params_id req) (params_cattleId req) with
  | None => mret tt
  | Some resourceId =>
      if resourceType === "cattle" then
        cattle ← read (λ db, cattles db !! resourceId);
        match cattle with
        | None => respond 404 "Cattle not found"
        | Some c =>
            match user req with
            | None => respond 500 "Error checking ownership"
            | Some u =>
                if negb (Nat.eqb (Cattle.owner c) (p_id u))
                then respond 403 "You do not have permission to access this cattle"
                else mret tt
            end
        end
      else mret tt
  end.

(** A guard lets the request through. *)
Definition passes (guard : Handler unit) (db : Db) : Prop :=
  guard db = (db, inr tt).

End RoleMiddleware.

(** ** Queries on the cattle collection

    A Mongo filter object [{ _id, owner?, status?, 'verification.status'?,
    'location.state'? }]: an absent key does not constrain.  The value stored
    under ['location.state'] is [req.user.assignedRegion.state], itself
    possibly [undefined], hence the nested option; an [undefined] value
    matches no document, the path being required by the schema. *)

Record CattleQuery := mkCattleQuery {
  q_id : ObjectId;
  q_owner : option ObjectId;
  q_status : option string;
  q_verification_status : option string;
  q_location_state : option (option string)
}.

Definition by_id (id : ObjectId) : CattleQuery :=
  mkCattleQuery id None None None None.

Definition with_owner (o : ObjectId) (q : CattleQuery) : CattleQuery :=
  mkCattleQuery (q_id q) (Some o) (q_status q) (q_verification_status q)
    (q_location_state q).

Definition with_status (s : string) (q : CattleQuery) : CattleQuery :=
  mkCattleQuery (q_id q) (q_owner q) (Some s) (q_verification_status q)
    (q_location_state q).

Definition with_verification_status (s : string) (q : CattleQuery) : CattleQuery :=
  mkCattleQuery (q_id q) (q_owner q) (q_status q) (Some s) (q_location_state q).

Definition with_location_state (s : option string) (q : CattleQuery) : CattleQuery :=
  mkCattleQuery (q_id q) (q_owner q) (q_status q) (q_verification_status q)
    (Some s).

Definition matches (q : CattleQuery) (c : Cattle.t) : bool :=
  match q_owner q with Some o => Nat.eqb (Cattle.owner c) o | None => true end
  && match q_status q with Some s => Cattle.status c === s | None => true end
  && match q_verification_status q with
     | Some s => Cattle.v_status (Cattle.verification c) === s
     | None => true
     end
  && match q_location_state q with
     | Some (Some s) => Cattle.state (Cattle.location c) === s
     | Some None => false
     | None => true
     end.

(** [Cattle.findOne(query)] *)
Definition Cattle_findOne (q : CattleQuery) (db : Db) : option Cattle.t :=
  match cattles db !! q_id q with
  | Some c => if matches q c then Some c else None
  | None => None
  end.

(** [await cattle.save()] for a document loaded under [id]. *)
Definition Cattle_save (id : ObjectId) (c : Cattle.t) : Handler unit :=
  write (λ db, set_cattles (<[id := c]> (cattles db)) db).

(** [await admin.save()] for a document loaded under [id], with the
    [pre('save')] hook of the schema. *)
Definition Admin_save (id : ObjectId) (a : Admin.t) : Handler unit :=
  match Admin.pre_save a with
  | Some err => throw err
  | None => write (λ db, set_admins (<[id := a]> (admins db)) db)
  end.

(** [Admin.find({ role, 'assignedRegion.state': state, isActive: true,
    isApproved: true })] *)
Definition Admin_find_active (role state : string) (db : Db) : list (nat * Admin.t) :=
  List.filter
    (λ '(_, a), (Admin.role a === role)
                && match Admin.assignedRegion_state a with
                   | Some s => s === state
                   | None => false
                   end
                && Admin.isActive a && Admin.isApproved a)
    (map_to_list (admins db)).

(** ** controllers/adminController.js (the regional / M_Admin workflow)

    [req.user] is the administrator document that the authentication
    middleware loaded, with its id.  Outgoing e-mail is not part of the
    state. *)

Module AdminController.

Record Req := mkReq {
  user_id : ObjectId;
  user : Admin.t;
  params_id : ObjectId;
  body_reason : option string
}.

(** [cattle.owner._id] after [.populate('owner')]: the dereference throws a
    [TypeError] when the owner document is gone. *)
Definition populated_owner (c : Cattle.t) : Handler ObjectId :=
  λ db, match users db !! Cattle.owner c with
        | Some _ => (db, inr (Cattle.owner c))
        | None => throw "Cannot read properties of null (reading '_id')" db
        end.

(** [const a = await Admin.findById(req.user._id); a.statistics.f = ...;
    await a.save()] *)
Definition update_statistics (id : ObjectId)
    (f : Admin.Statistics → Admin.Statistics) : Handler unit :=
  λ db, match admins db !! id with
        | Some a => Admin_save id (Admin.set_statistics (f (Admin.statistics a)) a) db
        | None => throw "Cannot read properties of null (reading 'statistics')" db
        end.

Definition stat_forwarded (s : Admin.Statistics) : Admin.Statistics :=
  Admin.mkStatistics (Admin.totalVerifications s)
    (Z.max 0 (Admin.pendingVerifications s - 1))
    (Admin.forwardedToMAdmin s + 1) (Admin.approvedCattle s)
    (Admin.rejectedCattle s) (Admin.deniedByRegionalAdmin s).

Definition stat_denied (s : Admin.Statistics) : Admin.Statistics :=
  Admin.mkStatistics (Admin.totalVerifications s)
    (Z.max 0 (Admin.pendingVerifications s - 1))
    (Admin.forwardedToMAdmin s) (Admin.approvedCattle s)
    (Admin.rejectedCattle s) (Admin.deniedByRegionalAdmin s + 1).

Definition stat_approved (s : Admin.Statistics) : Admin.Statistics :=
  Admin.mkStatistics (Admin.totalVerifications s + 1)
    (Z.max 0 (Admin.pendingVerifications s - 1))
    (Admin.forwardedToMAdmin s) (Admin.approvedCattle s + 1)
    (Admin.rejectedCattle s) (Admin.deniedByRegionalAdmin s).

Definition stat_rejected (s : Admin.Statistics) : Admin.Statistics :=
  Admin.mkStatistics (Admin.totalVerifications s + 1)
    (Z.max 0 (Admin.pendingVerifications s - 1))
    (Admin.forwardedToMAdmin s) (Admin.approvedCattle s)
    (Admin.rejectedCattle s + 1) (Admin.deniedByRegionalAdmin s).

Definition stat_pending_incr (s : Admin.Statistics) : Admin.Statistics :=
  Admin.mkStatistics (Admin.totalVerifications s)
    (Admin.pendingVerifications s + 1)
    (Admin.forwardedToMAdmin s) (Admin.approvedCattle s)
    (Admin.rejectedCattle s) (Admin.deniedByRegionalAdmin s).

(** The filter each handler builds: the id, the verification status the
    transition starts from, and the caller's region when the caller has the
    role the handler names. *)
Definition scoped_query (required_status scoped_role : string) (req : Req) : CattleQuery :=
  let query := with_verification_status required_status (by_id (params_id req)) in
  if Admin.role (user req) === scoped_role
  then with_location_state (Admin.assignedRegion_state (user req)) query
  else query.

(** The body of the loop [for (const mAdmin of mAdmins)] in
    [forwardCattleToMAdmin]: one notification ([relatedUser:
    cattle.owner._id]) and one statistics update per M_Admin. *)
Definition notify_m_admin (id : ObjectId) (c : Cattle.t)
    (m : nat * Admin.t) : Handler unit :=
  owner ← populated_owner c;
  notify (Notification.mk m.1 "Admin" "cattle_forwarded_to_m_admin"
            (Some id) None "high");;
  Admin_save m.1
    (Admin.set_statistics (stat_pending_incr (Admin.statistics m.2)) m.2).

(** [forwardCattleToMAdmin] *)
Definition forwardCattleToMAdmin (now : Date) (req : Req) : Handler Response :=
  let query := scoped_query "pending_regional_review" "regional_admin" req in
  cattle ← read (Cattle_findOne query);
  match cattle with
  | None => respond 404 "Cattle not found or already reviewed"
  | Some c =>
      let c := Cattle.forwardToMAdmin (user_id req) now c in
      Cattle_save (params_id req) c;;
      update_statistics (user_id req) stat_forwarded;;
      mAdmins ← read (Admin_find_active "m_admin" (Cattle.state (Cattle.location c)));
      for_each mAdmins (notify_m_admin (params_id req) c);;
      owner ← populated_owner c;
      notify (Notification.mk owner "User" "cattle_forwarded_to_m_admin"
                (Some (params_id req)) None "medium");;
      respond 200 "Cattle forwarded to M_Admin successfully"
  end.

(** [denyCattleByRegionalAdmin] *)
Definition denyCattleByRegionalAdmin (now : Date) (req : Req) : Handler Response :=
  if falsy (body_reason req) then respond 400 "Denial reason is required" else
  let reason := default "" (body_reason req) in
  let query := scoped_query "pending_regional_review" "regional_admin" req in
  cattle ← read (Cattle_findOne query);
  match cattle with
  | None => respond 404 "Cattle not found or already reviewed"
  | Some c =>
      let c := Cattle.denyByRegionalAdmin (user_id req) reason now c in
      Cattle_save (params_id req) c;;
      update_statistics (user_id req) stat_denied;;
      owner ← populated_owner c;
      notify (Notification.mk owner "User" "cattle_denied_by_regional"
                (Some (params_id req)) None "high");;
      respond 200 "Cattle denied successfully"
  end.

(** [approveCattleByMAdmin] *)
Definition approveCattleByMAdmin (now : Date) (req : Req) : Handler Response :=
  let query := scoped_query "forwarded_to_m_admin" "m_admin" req in
  cattle ← read (Cattle_findOne query);
  match cattle with
  | None => respond 404 "Cattle not found or not ready for approval"
  | Some c =>
      let c := Cattle.approve (user_id req) now c in
      Cattle_save (params_id req) c;;
      update_statistics (user_id req) stat_approved;;
      owner ← populated_owner c;
      notify (Notification.mk owner "User" "cattle_approved"
                (Some (params_id req)) None "high");;
      respond 200 "Cattle approved successfully"
  end.

(** [rejectCattleByMAdmin] *)
Definition rejectCattleByMAdmin (now : Date) (req : Req) : Handler Response :=
  if falsy (body_reason req) then respond 400 "Rejection reason is required" else
  let reason := default "" (body_reason req) in
  let query := scoped_query "forwarded_to_m_admin" "m_admin" req in
  cattle ← read (Cattle_findOne query);
  match cattle with
  | None => respond 404 "Cattle not found or not ready for rejection"
  | Some c =>
      let c := Cattle.reject (user_id req) reason now c in
      Cattle_save (params_id req) c;;
      update_statistics (user_id req) stat_rejected;;
      owner ← populated_owner c;
      notify (Notification.mk owner "User" "cattle_rejected"
                (Some (params_id req)) None "high");;
      respond 200 "Cattle rejected successfully"
  end.

(** The four mutating verification operations. *)
Inductive Op := Forward | Deny | Approve | Reject.

Definition handler (op : Op) : Date → Req → Handler Response :=
  match op with
  | Forward => forwardCattleToMAdmin
  | Deny => denyCattleByRegionalAdmin
  | Approve => approveCattleByMAdmin
  | Reject => rejectCattleByMAdmin
  end.

(** The role whose region each handler checks, and the verification status
    its query requires. *)
Definition scoped_role (op : Op) : string :=
  match op with
  | Forward | Deny => "regional_admin"
  | Approve | Reject => "m_admin"
  end.

Definition required_status (op : Op) : string :=
  match op with
  | Forward | Deny => "pending_regional_review"
  | Approve | Reject => "forwarded_to_m_admin"
  end.

(** The document method each handler applies. *)
Definition transition (op : Op) (req : Req) (now : Date) (c : Cattle.t) : Cattle.t :=
  match op with
  | Forward => Cattle.forwardToMAdmin (user_id req) now c
  | Deny => Cattle.denyByRegionalAdmin (user_id req) (default "" (body_reason req)) now c
  | Approve => Cattle.approve (user_id req) now c
  | Reject => Cattle.reject (user_id req) (default "" (body_reason req)) now c
  end.

(** The response of each handler when its query finds nothing. *)
Definition not_found_response (op : Op) : Response :=
  match op with
  | Forward | Deny => mkResponse 404 "Cattle not found or already reviewed"
  | Approve => mkResponse 404 "Cattle not found or not ready for approval"
  | Reject => mkResponse 404 "Cattle not found or not ready for rejection"
  end.

Definition needs_reason (op : Op) : bool :=
  match op with
  | Deny | Reject => true
  | Forward | Approve => false
  end.

(** The response of each handler on success. *)
Definition ok_response (op : Op) : Response :=
  match op with
  | Forward => mkResponse 200 "Cattle forwarded to M_Admin successfully"
  | Deny => mkResponse 200 "Cattle denied successfully"
  | Approve => mkResponse 200 "Cattle approved successfully"
  | Reject => mkResponse 200 "Cattle rejected successfully"
  end.

End AdminController.

(** ** routes/adminRoutes.js: the four verification routes

    Every route of the router runs [protect] and [adminOnly] first
    ([router.use]); the request is taken as [protect] leaves it, [req.user]
    and [req.userType] set.  Forward and Deny then run [regionalAdminOnly],
    Approve and Reject [mAdminOnly]; Deny and Reject run
    [validateAdminDecision] before the controller. *)

Module AdminRoutes.

Record Req := mkReq {
  userType : option string;
  request : AdminController.Req;
  body_status : option string;
  body_rejectionReason : option string
}.

(** What the role guards read of the request. *)
Definition guarded (req : Req) : RoleMiddleware.Req :=
  let r := request req in
  RoleMiddleware.mkReq (userType req)
    (Some (RoleMiddleware.mkPrincipal (AdminController.user_id r)
             (Admin.role (AdminController.user r))
             (Admin.isApproved (AdminController.user r))
             (Admin.assignedRegion_state (AdminController.user r)) []))
    (Some (AdminController.params_id r)) None None None None None None None.

(** [validateAdminDecision] of validationMiddleware.js, with
    [handleValidationErrors]: [status] must be 'approved' or 'rejected', and
    [rejectionReason] must not be empty when it is 'rejected'. *)
Definition validateAdminDecision (req : Req) : Handler unit :=
  let status := default "" (body_status req) in
  let status_ok :=
    negb (falsy (body_status req))
    && List.existsb (String.eqb status) ["approved"; "rejected"] in
  let reason_ok :=
    if status === "rejected" then negb (falsy (body_rejectionReason req)) else true in
  if status_ok && reason_ok then mret tt else respond 400 "Validation failed".

Section Routes.

(** roleMiddleware.js exports no [mAdminOnly]: the guard of the Approve
    and Reject routes is a parameter. *)
Context (mAdminOnly : RoleMiddleware.Req → Handler unit).

Definition guard (op : AdminController.Op) : RoleMiddleware.Req → Handler unit :=
  match op with
  | AdminController.Forward | AdminController.Deny => RoleMiddleware.regionalAdminOnly
  | AdminController.Approve | AdminController.Reject => mAdminOnly
  end.

(** [router.put('/regional/cattle/:id/forward', regionalAdminOnly,
    forwardCattleToMAdmin)] and its three neighbours. *)
Definition route (op : AdminController.Op) (now : Date) (req : Req)
    : Handler Response :=
  RoleMiddleware.adminOnly (guarded req);;
  guard op (guarded req);;
  (if AdminController.needs_reason op then validateAdminDecision req else mret tt);;
  AdminController.handler op now (request req).

End Routes.

End AdminRoutes.

(** ** config/multer.js and middlewares/uploadMiddleware.js *)

Module Upload.

Record File := mkFile {
  filename : string;
  path : string;
  size : Z;
  mimetype : string
}.

(** [req.files] after [uploadCattle.fields(cattleImageFields)]: a key is
    present only when at least one file came under that field name. *)
Record Files := mkFiles {
  muzzle : option (list File);
  face : option (list File);
  left : option (list File);
  right : option (list File);
  fullBodyLeft : option (list File);
  fullBodyRight : option (list File)
}.

(** [files.f ? files.f.length : 0] *)
Definition count (f : option (list File)) : nat :=
  match f with
  | Some l => length l
  | None => 0%nat
  end.

Definition count_error (label : string) (n required : nat) : list string :=
  if Nat.eqb n required then []
  else [label +:+ ": " +:+ toString (Z.of_nat n) +:+ "/"
        +:+ toString (Z.of_nat required) +:+ " (exactly "
        +:+ toString (Z.of_nat required) +:+ " required)"].

(** [validateCattleImages]: the list of error lines; the upload is valid
    when the list is empty. *)
Definition validation_errors (files : Files) : list string :=
  let muzzleCount := count (muzzle files) in
  let faceCount := count (face files) in
  let leftCount := count (left files) in
  let rightCount := count (right files) in
  let fullBodyLeftCount := count (fullBodyLeft files) in
  let fullBodyRightCount := count (fullBodyRight files) in
  let totalImages :=
    (muzzleCount + faceCount + leftCount + rightCount
     + fullBodyLeftCount + fullBodyRightCount)%nat in
  count_error "Muzzle images" muzzleCount 3
  ++ count_error "Face images" faceCount 3
  ++ count_error "Left side images" leftCount 3
  ++ count_error "Right side images" rightCount 3
  ++ count_error "Full body left image" fullBodyLeftCount 1
  ++ count_error "Full body right image" fullBodyRightCount 1
  ++ count_error "Total images" totalImages 14.

Definition validateCattleImages (files : option Files) : bool * string :=
  match files with
  | None => (false, "No images uploaded")
  | Some files =>
      match validation_errors files with
      | [] => (true, "All images validated successfully")
      | _ => (false, "Invalid image count")
      end
  end.

(** [handleCattleImageUpload]: the multer transfer itself is outside the
    model; what remains is the count validation before [next()]. *)
Definition handleCattleImageUpload (files : option Files)
    (next : Handler Response) : Handler Response :=
  let validation := validateCattleImages files in
  if validation.1 then next else respond 400 validation.2.

End Upload.

(** ** Creating a cattle document

    [Cattle.create(doc)]: Mongoose validates the document against the schema
    and only then runs the [pre('save')] hooks and inserts.  The source has
    two versions of the schema, which differ for a creation in the enum of
    [verification.status] and in whether [cattleId] is required; the
    validator takes both from a [Schema], so that the same definition serves
    the two. *)

Module CattleCreate.

Record Schema := mkSchema {
  verification_enum : list string;
  cattleId_required : bool
}.

(** The first schema of the source: [cattleId] is [required], and, as the
    hook that generates it runs after validation, a document created without
    one is refused. *)
Definition first_schema : Schema :=
  mkSchema ["pending"; "approved"; "rejected"] true.

(** The schema with the regional / M_Admin workflow. *)
Definition current_schema : Schema :=
  mkSchema Cattle.verification_status_enum false.

Definition in_enum (enum : list string) (s : string) : bool :=
  List.existsb (String.eqb s) enum.

(** The message of a [required] validator, when the value is missing. *)
Definition required (message : string) (missing : bool) : list string :=
  if missing then [message] else [].

Definition enum_error (enum : list string) (path value : string) : list string :=
  if in_enum enum value then []
  else ["`" +:+ value +:+ "` is not a valid enum value for path `" +:+ path +:+ "`."].

Definition image_errors (i : Image.t) : list string :=
  required "Path `filename` is required." (Image.filename i === "")
  ++ required "Path `path` is required." (Image.path i === "").

Definition images_errors (i : Cattle.Images) : list string :=
  flat_map image_errors
    (Cattle.muzzle i ++ Cattle.face i ++ Cattle.left i ++ Cattle.right i
     ++ Cattle.fullBodyLeft i ++ Cattle.fullBodyRight i).

(** [age: { required, min: 0 }] *)
Definition age_errors (age : option Z) : list string :=
  match age with
  | None => ["Age is required"]
  | Some a => if a <? 0 then ["Age cannot be negative"] else []
  end.

(** Schema validation: the messages of the paths that fail, in the order of
    the schema. *)
Definition validate (schema : Schema) (c : Cattle.t) : list string :=
  required "Path `cattleId` is required."
    (cattleId_required schema && falsy (Cattle.cattleId c))
  ++ required "Breed is required" (Cattle.breed c === "")
  ++ age_errors (Cattle.age c)
  ++ images_errors (Cattle.images c)
  ++ enum_error Cattle.status_enum "status" (Cattle.status c)
  ++ enum_error (verification_enum schema) "verification.status"
       (Cattle.v_status (Cattle.verification c))
  ++ required "Path `location.state` is required."
       (Cattle.state (Cattle.location c) === "")
  ++ required "Path `location.district` is required."
       (Cattle.district (Cattle.location c) === "").

(** [pre('save')]: generate the cattle id.  [random] is
    [Math.floor(Math.random() * 10000)]. *)
Definition generate_id (now : Date) (random : Z) (this : Cattle.t) : Cattle.t :=
  if falsy (Cattle.cattleId this) then
    let timestamp := slice_last 8 (toString now) in
    let cattleId := "C" +:+ timestamp +:+ padStart0 4 (toString random) in
    let this := Cattle.set_cattleId (Some cattleId) this in
    if Cattle.status this === "transit"
    then Cattle.set_temporaryId (Some ("TEMP-" +:+ cattleId)) this
    else this
  else this.

(** [parseInt(process.env.VERIFICATION_TURNAROUND_HOURS) || 48]; the
    argument is the result of [parseInt], [None] standing for [NaN]. *)
Definition turnaroundHours (parsed : option Z) : Z :=
  match parsed with
  | Some h => if h =? 0 then 48 else h
  | None => 48
  end.

(** [pre('save')]: set the turnaround deadline of a new document in
    transit. *)
Definition set_deadline (parsed : option Z) (this : Cattle.t) : Cattle.t :=
  if Cattle.status this === "transit" then
    let v := Cattle.verification this in
    Cattle.set_verification
      (Cattle.mkVerification (Cattle.v_status v) (Cattle.reviewedByRegionalAdmin v)
         (Cattle.regionalReviewedAt v) (Cattle.regionalAdminAction v)
         (Cattle.regionalDenialReason v) (Cattle.verifiedBy v) (Cattle.verifiedAt v)
         (Cattle.rejectionReason v) (Cattle.submittedAt v)
         (Some (Cattle.submittedAt v + turnaroundHours parsed * 60 * 60 * 1000))
         (Cattle.forwardedToMAdminAt v))
      this
  else this.

(** The environment of a creation: the clock, the random draw, the parsed
    environment variable. *)
Record Env := mkEnv {
  now : Date;
  random : Z;
  turnaround_env : option Z
}.

(** [Cattle.create]: answers the new id, or throws the validation error. *)
Definition create (schema : Schema) (env : Env) (doc : Cattle.t) : Handler ObjectId :=
  match validate schema doc with
  | [] =>
      let doc := set_deadline (turnaround_env env) (generate_id (now env) (random env) doc) in
      id ← read (λ db, fresh (dom (cattles db)));
      write (λ db, set_cattles (<[id := doc]> (cattles db)) db);;
      mret id
  | errors => throw_validation (join errors)
  end.

End CattleCreate.

(** ** controllers/cattleController.js *)

Module CattleController.

(** The request of a registration: [req.userType] and [req.user] as the
    authentication middleware set them, the uploaded files and the body,
    [breed] as its text trimmed (the validator and the schema both trim it)
    and [age], when the body has one, as the whole number its text
    denotes. *)
Record RegisterReq := mkRegisterReq {
  r_userType : option string;
  r_user_role : string;
  r_user_id : ObjectId;
  r_files : option Upload.Files;
  r_breed : string;
  r_age : option Z
}.

(** [req.files.f?.map(file => ({ ..., uploadedAt: new Date() })) || []] *)
Definition to_images (now : Date) (f : option (list Upload.File)) : list Image.t :=
  match f with
  | Some l =>
      List.map (λ file, Image.mk (Upload.filename file) (Upload.path file) now
                          (Upload.size file) (Upload.mimetype file)) l
  | None => []
  end.

(** [!req.files || Object.keys(req.files).length === 0] *)
Definition no_files (files : option Upload.Files) : bool :=
  match files with
  | None => true
  | Some f =>
      match Upload.muzzle f, Upload.face f, Upload.left f, Upload.right f,
            Upload.fullBodyLeft f, Upload.fullBodyRight f with
      | None, None, None, None, None, None => true
      | _, _, _, _, _, _ => false
      end
  end.

(** The document literal passed to [Cattle.create] by [registerCattle]. *)
Definition new_cattle (now : Date) (req : RegisterReq) (files : Upload.Files)
    (user : User.t) : Cattle.t :=
  Cattle.mk None (r_user_id req) (r_breed req) (r_age req)
    (Cattle.mkImages
       (to_images now (Upload.muzzle files)) (to_images now (Upload.face files))
       (to_images now (Upload.left files)) (to_images now (Upload.right files))
       (to_images now (Upload.fullBodyLeft files))
       (to_images now (Upload.fullBodyRight files)))
    "transit"
    (Cattle.mkVerification "pending" None None None None None None None now None None)
    None
    (Cattle.mkLocation (User.state (User.address user))
       (User.district (User.address user)) (User.pinCode (User.address user)))
    [] None None [].

Definition notify_reviewer (cattle user : ObjectId) (m : nat * Admin.t) : Handler unit :=
  notify (Notification.mk m.1 "Admin" "cattle_registered" (Some cattle) None "high");;
  Admin_save m.1
    (Admin.set_statistics
       (AdminController.stat_pending_incr (Admin.statistics m.2)) m.2).

(** [registerCattle], against the cattle schema [schema]. *)
Definition registerCattle_under (schema : CattleCreate.Schema) (env : CattleCreate.Env)
    (req : RegisterReq) : Handler Response :=
  match r_files req with
  | None => respond 400 "Please upload all required images (14 total)"
  | Some files =>
      if no_files (r_files req)
      then respond 400 "Please upload all required images (14 total)" else
      user ← read (λ db, users db !! r_user_id req);
      match user with
      | None => respond 404 "User not found"
      | Some user =>
          id ← CattleCreate.create schema env
                 (new_cattle (CattleCreate.now env) req files user);
          write (λ db, set_users
                   (<[r_user_id req := User.set_cattle (User.cattle user ++ [id]) user]>
                      (users db)) db);;
          regionalAdmins ← read (Admin_find_active "regional_admin"
                                   (User.state (User.address user)));
          for_each regionalAdmins (notify_reviewer id (r_user_id req));;
          respond 201 "Cattle registered successfully. Pending admin verification."
      end
  end.

(** [registerCattle] against the current schema. *)
Definition registerCattle : CattleCreate.Env → RegisterReq → Handler Response :=
  registerCattle_under CattleCreate.current_schema.

(** What the role guards read of the request. *)
Definition guarded (req : RegisterReq) : RoleMiddleware.Req :=
  RoleMiddleware.mkReq (r_userType req)
    (Some (RoleMiddleware.mkPrincipal (r_user_id req) (r_user_role req) false None []))
    None None None None None None None None.

(** [validateCattleRegistration] of validationMiddleware.js, with
    [handleValidationErrors]: [breed] must not be empty once trimmed, and
    [age] must be an integer from 0 to 50; the other fields are optional
    and only trimmed. *)
Definition validateCattleRegistration (req : RegisterReq) : Handler unit :=
  let breed_ok := negb (r_breed req === "") in
  let age_ok :=
    match r_age req with
    | Some a => (0 <=? a) && (a <=? 50)
    | None => false
    end in
  if breed_ok && age_ok then mret tt else respond 400 "Validation failed".

(** [router.post('/register', userOnly, handleCattleImageUpload,
    validateCattleRegistration, registerCattle)], after [protect]. *)
Definition register_route (schema : CattleCreate.Schema) (env : CattleCreate.Env)
    (req : RegisterReq) : Handler Response :=
  RoleMiddleware.userOnly (guarded req);;
  Upload.handleCattleImageUpload (r_files req)
    (validateCattleRegistration req;; registerCattle_under schema env req).

Record OwnerReq := mkOwnerReq {
  o_user_id : ObjectId;
  o_params_id : ObjectId
}.

(** [archiveCattle] *)
Definition archiveCattle (now : Date) (req : OwnerReq) : Handler Response :=
  cattle ← read (Cattle_findOne (with_owner (o_user_id req) (by_id (o_params_id req))));
  match cattle with
  | None => respond 404 "Cattle not found"
  | Some c =>
      if Cattle.status c === "archive"
      then respond 400 "Cattle is already archived" else
      Cattle_save (o_params_id req) (Cattle.archive (o_user_id req) now c);;
      respond 200 "Cattle moved to archive"
  end.

(** [restoreCattle] *)
Definition restoreCattle (req : OwnerReq) : Handler Response :=
  cattle ← read (Cattle_findOne (with_owner (o_user_id req) (by_id (o_params_id req))));
  match cattle with
  | None => respond 404 "Cattle not found"
  | Some c =>
      if Cattle.status c !== "archive"
      then respond 400 "Cattle is not archived" else
      Cattle_save (o_params_id req) (Cattle.restore c);;
      respond 200 "Cattle restored successfully"
  end.

(** [deleteCattle]; the image files on disk are outside the model. *)
Definition deleteCattle (req : OwnerReq) : Handler Response :=
  cattle ← read (Cattle_findOne (with_owner (o_user_id req) (by_id (o_params_id req))));
  match cattle with
  | None => respond 404 "Cattle not found"
  | Some c =>
      write (λ db, set_users (alter (User.pull (o_params_id req)) (o_user_id req)
                                (users db)) db);;
      write (λ db, set_cattles (delete (o_params_id req) (cattles db)) db);;
      respond 200 "Cattle deleted permanently"
  end.

End CattleController.

(** ** The transfer workflow: models/TransferRequest.js methods that touch
    other collections, and the handlers of cattleController.js and
    userController.js *)

Module TransferFlow.

(** [TransferRequest.find({ cattle, status: 'pending' })] *)
Definition pending_for (cattle : ObjectId) (db : Db) : list (nat * Transfer.t) :=
  List.filter
    (λ '(_, t), Nat.eqb (Transfer.cattle t) cattle && (Transfer.status t === "pending"))
    (map_to_list (transfers db)).

(** [await this.save()] on a transfer request, with its [pre('save')]
    hook. *)
Definition Transfer_save (id : ObjectId) (t : Transfer.t) : Handler unit :=
  match Transfer.pre_save t with
  | Some err => throw err
  | None => write (λ db, set_transfers (<[id := t]> (transfers db)) db)
  end.

(** *** Initiate *)

Record InitiateReq := mkInitiateReq {
  i_user_id : ObjectId;
  i_params_id : ObjectId;
  i_toOwnerId : ObjectId;
  i_transferType : option string;
  i_price : option Z;
  i_notes : option string
}.

Definition transferType_enum : list string := ["sell"; "gift"; "inheritance"; "other"].

(** The three look-ups that precede the creation: the cattle (owned by the
    caller and active), the new owner, and the pre-query for a pending
    transfer of the same cattle. *)
Definition initiate_check (req : InitiateReq) : Handler unit :=
  cattle ← read (Cattle_findOne
                   (with_status "active"
                      (with_owner (i_user_id req) (by_id (i_params_id req)))));
  match cattle with
  | None => respond 404 "Cattle not found or cannot be transferred"
  | Some _ =>
      newOwner ← read (λ db, users db !! i_toOwnerId req);
      match newOwner with
      | None => respond 404 "New owner not found"
      | Some _ =>
          existingTransfer ← read (pending_for (i_params_id req));
          match existingTransfer with
          | _ :: _ =>
              respond 400 "There is already a pending transfer request for this cattle"
          | [] => mret tt
          end
      end
  end.

(** The document [TransferRequest.create] builds, schema defaults
    included: status 'pending', expiry thirty days ahead. *)
Definition new_transfer (now : Date) (req : InitiateReq) : Transfer.t :=
  Transfer.mk (i_params_id req) (i_user_id req) (i_toOwnerId req)
    (match i_transferType req with
     | Some s => if s === "" then "sell" else s
     | None => "sell"
     end)
    "pending" (i_price req) (i_notes req) now None None
    (now + 30 * 24 * 60 * 60 * 1000) None None None None.

Definition validate_transfer (t : Transfer.t) : option string :=
  if negb (CattleCreate.in_enum transferType_enum (Transfer.transferType t))
  then Some "transferType is not a valid enum value"
  else match Transfer.price t with
       | Some p => if p <? 0 then Some "price is less than minimum allowed value (0)"
                   else None
       | None => None
       end.

(** The creation itself, the notification of the receiver and the
    answer. *)
Definition initiate_create (now : Date) (req : InitiateReq) : Handler Response :=
  let t := new_transfer now req in
  match validate_transfer t with
  | Some err => throw_validation err
  | None =>
      id ← read (λ db, fresh (dom (transfers db)));
      Transfer_save id t;;
      notify (Notification.mk (i_toOwnerId req) "User" "transfer_request_received"
                (Some (i_params_id req)) (Some id) "high");;
      respond 201 "Transfer request sent successfully"
  end.

(** [initiateCattleTransfer], run without interruption. *)
Definition initiateCattleTransfer (now : Date) (req : InitiateReq) : Handler Response :=
  initiate_check req;; initiate_create now req.

(** *** Accept, reject, cancel

    [fault] designates the database operation of [accept], counted from 1,
    at which a failure is injected: the operation throws instead of taking
    effect.  [None] is a run without failure. *)

Definition db_op {A} (fault : option nat) (k : nat) (h : Handler A) : Handler A :=
  match fault with
  | Some k' => if Nat.eqb k k' then throw "injected failure" else h
  | None => h
  end.

(** [transferRequestSchema.methods.accept] *)
Definition accept (fault : option nat) (now : Date) (id : ObjectId)
    (this : Transfer.t) : Handler Transfer.t :=
  if Transfer.status this !== "pending"
  then throw "Only pending transfers can be accepted" else
  let this :=
    Transfer.set_completedAt (Some now)
      (Transfer.set_response (Some now) (Transfer.responseMessage this)
         (Transfer.set_status "accepted" this)) in
  cattle ← db_op fault 1 (read (λ db, cattles db !! Transfer.cattle this));
  match cattle with
  | Some c =>
      let oldOwnerId := Cattle.owner c in
      let c :=
        Cattle.set_owner (Transfer.toOwner this)
          (Cattle.set_transferHistory (Cattle.transferHistory c ++ [id]) c) in
      db_op fault 2 (Cattle_save (Transfer.cattle this) c);;
      db_op fault 3
        (write (λ db, set_users
                  (alter (User.pull (Transfer.cattle this)) oldOwnerId (users db)) db));;
      db_op fault 4
        (write (λ db, set_users
                  (alter (User.addToSet (Transfer.cattle this)) (Transfer.toOwner this)
                     (users db)) db))
  | None => mret tt
  end;;
  db_op fault 5 (Transfer_save id this);;
  mret this.

(** [transferRequestSchema.methods.reject] *)
Definition reject (msg : option string) (now : Date) (id : ObjectId)
    (this : Transfer.t) : Handler Transfer.t :=
  if Transfer.status this !== "pending"
  then throw "Only pending transfers can be rejected" else
  let this := Transfer.set_response (Some now) msg (Transfer.set_status "rejected" this) in
  Transfer_save id this;;
  mret this.

(** [transferRequestSchema.methods.cancel] *)
Definition cancel (userId : ObjectId) (reason : option string) (now : Date)
    (id : ObjectId) (this : Transfer.t) : Handler Transfer.t :=
  if Transfer.status this !== "pending"
  then throw "Only pending transfers can be cancelled" else
  let this :=
    Transfer.set_cancellation (Some userId) (Some now) reason
      (Transfer.set_status "cancelled" this) in
  Transfer_save id this;;
  mret this.

Record TransferReq := mkTransferReq {
  t_user_id : ObjectId;
  t_params_id : ObjectId;
  t_message : option string
}.

(** [TransferRequest.findOne({ _id, toOwner | fromOwner: user, status:
    'pending' })] *)
Definition find_pending (id : ObjectId) (party : Transfer.t → ObjectId)
    (user : ObjectId) (db : Db) : option Transfer.t :=
  match transfers db !! id with
  | Some t =>
      if Nat.eqb (party t) user && (Transfer.status t === "pending")
      then Some t else None
  | None => None
  end.

(** [acceptTransferRequest] *)
Definition acceptTransferRequest (fault : option nat) (now : Date)
    (req : TransferReq) : Handler Response :=
  request ← read (find_pending (t_params_id req) Transfer.toOwner (t_user_id req));
  match request with
  | None => respond 404 "Transfer request not found or already processed"
  | Some request =>
      accept fault now (t_params_id req) request;;
      respond 200 "Transfer request accepted successfully. Cattle ownership transferred."
  end.

(** [rejectTransferRequest] *)
Definition rejectTransferRequest (now : Date) (req : TransferReq) : Handler Response :=
  request ← read (find_pending (t_params_id req) Transfer.toOwner (t_user_id req));
  match request with
  | None => respond 404 "Transfer request not found or already processed"
  | Some request =>
      reject (t_message req) now (t_params_id req) request;;
      respond 200 "Transfer request rejected"
  end.

(** [cancelTransferRequest] *)
Definition cancelTransferRequest (now : Date) (req : TransferReq) : Handler Response :=
  request ← read (find_pending (t_params_id req) Transfer.fromOwner (t_user_id req));
  match request with
  | None => respond 404 "Transfer request not found or already processed"
  | Some request =>
      cancel (t_user_id req) (t_message req) now (t_params_id req) request;;
      respond 200 "Transfer request cancelled"
  end.

(** [transferRequestSchema.statics.cleanupExpired]: every pending request
    past its expiry is saved as cancelled with reason 'Expired'. *)
Definition expire (now : Date) (t : Transfer.t) : Transfer.t :=
  if Transfer.isExpired now t
  then Transfer.set_cancellation (Transfer.cancelledBy t) (Transfer.cancelledAt t)
         (Some "Expired") (Transfer.set_status "cancelled" t)
  else t.

Definition cleanupExpired (now : Date) (db : Db) : Db :=
  set_transfers (expire now <$> transfers db) db.

(** *** Interleaved requests

    Every [await] of a handler is a point where another request may run.
    For Initiate the interleaving that matters is between the pre-query and
    the creation, so a request in flight is either before its checks, past
    them, or answered. *)

Inductive Thread :=
  | Start (now : Date) (req : InitiateReq)
  | Checked (now : Date) (req : InitiateReq)
  | Answered (r : Response).

(** One scheduling step of a request. *)
Definition thread_step (t : Thread) (db : Db) : Db * Thread :=
  match t with
  | Start now req =>
      match initiate_check req db with
      | (db', inl r) => (db', Answered r)
      | (db', inr _) => (db', Checked now req)
      end
  | Checked now req =>
      let (db', r) := run (initiate_create now req) db in (db', Answered r)
  | Answered r => (db, Answered r)
  end.

(** Run a schedule: each entry names the request that takes the next
    step. *)
Fixpoint run_schedule (schedule : list nat) (threads : list Thread) (db : Db)
    : Db * list Thread :=
  match schedule with
  | [] => (db, threads)
  | i :: rest =>
      match threads !! i with
      | Some t =>
          let (db', t') := thread_step t db in
          run_schedule rest (<[i := t']> threads) db'
      | None => run_schedule rest threads db
      end
  end.

End TransferFlow.

(** ** routes/cattleRoutes.js: the transfer route

    [router.post('/:id/transfer', userOnly, checkOwnership('cattle'),
    validateTransferRequest, initiateCattleTransfer)], after [protect].  The
    ids of the body are object ids where present, and the price, where
    present, is the whole number its text denotes. *)

Module TransferRoutes.

Record Req := mkReq {
  userType : option string;
  role : string;
  body_cattleId : option ObjectId;
  request : TransferFlow.InitiateReq
}.

(** What the guards read of the request. *)
Definition guarded (req : Req) : RoleMiddleware.Req :=
  RoleMiddleware.mkReq (userType req)
    (Some (RoleMiddleware.mkPrincipal (TransferFlow.i_user_id (request req)) (role req)
             false None []))
    (Some (TransferFlow.i_params_id (request req))) None None
    (body_cattleId req) None None None None.

(** [validateTransferRequest] of validationMiddleware.js, with
    [handleValidationErrors]: the body must carry a [cattleId] and a
    [toOwnerId]; [transferType], when given, must be one of the four types,
    and [price], when given, must not be negative. *)
Definition validateTransferRequest (req : Req) : Handler unit :=
  let cattleId_ok := bool_decide (is_Some (body_cattleId req)) in
  let transferType_ok :=
    match TransferFlow.i_transferType (request req) with
    | Some s => CattleCreate.in_enum TransferFlow.transferType_enum s
    | None => true
    end in
  let price_ok :=
    match TransferFlow.i_price (request req) with
    | Some p => 0 <=? p
    | None => true
    end in
  if cattleId_ok && transferType_ok && price_ok then mret tt
  else respond 400 "Validation failed".

Definition initiate_route (now : Date) (req : Req) : Handler Response :=
  RoleMiddleware.userOnly (guarded req);;
  RoleMiddleware.checkOwnership "cattle" (guarded req);;
  validateTransferRequest req;;
  TransferFlow.initiateCattleTransfer now (request req).

End TransferRoutes.

(** ** The request id of an identification request

    [Math.random()] returns a binary64 number in [0, 1).  A draw is given by
    the integer [k] with [0 <= k < 2^53] and stands for the double
    [k / 2^53]; every engine's generator produces values of this form.  The
    sum [Math.random() + 10000] is a binary64 addition, taken from the
    IEEE 754 specification of the standard library ([SFadd] at precision 53
    and maximal exponent 1024). *)

Module RequestId.

Definition random_double (k : Z) : spec_float :=
  match k with
  | Zpos p => S754_finite false p (-53)
  | _ => S754_zero false
  end.

(** The literal [10000]. *)
Definition ten_thousand : spec_float := S754_finite false 10000 0.

(** [Math.floor] of a finite non-negative double, as an integer. *)
Definition Math_floor (x : spec_float) : Z :=
  match x with
  | S754_finite false m e => Z.shiftl (Zpos m) e
  | _ => 0
  end.

(** [Math.floor(Math.random() + 10000)] *)
Definition random_component (k : Z) : Z :=
  Math_floor (SFadd 53 1024 (random_double k) ten_thousand).

(** [pre('save')] of the identification request schema: generate the
    request id of a new document that has none. *)
Definition generate (now : Date) (k : Z) (this : IdReq.t) : IdReq.t :=
  if falsy (IdReq.requestId this) then
    let timestamp := slice_last 8 (toString now) in
    let random := padStart0 4 (toString (random_component k)) in
    IdReq.set_requestId (Some ("IDR-" +:+ timestamp +:+ random)) this
  else this.

End RequestId.

(** ** controllers/identificationController.js *)

Module IdentificationController.

Definition IdReq_save (id : ObjectId) (r : IdReq.t) : Handler unit :=
  write (λ db, set_idreqs (<[id := r]> (idreqs db)) db).

(** [requestId: { unique: true }]: some stored request has the request id
    of [r]. *)
Definition requestId_taken (r : IdReq.t) (db : Db) : bool :=
  List.existsb (λ x : nat * IdReq.t,
                  bool_decide (IdReq.requestId x.2 = IdReq.requestId r))
    (map_to_list (idreqs db)).

(** The insertion of a new request: the unique index refuses a request id
    that is stored already, with a duplicate-key error. *)
Definition IdReq_insert (id : ObjectId) (r : IdReq.t) : Handler unit :=
  λ db, if requestId_taken r db then throw_duplicate "requestId" db
        else IdReq_save id r db.

(** [Admin.findById(req.user._id)], then [mAdmin.save()] when the
    administrator is found.  The identification counters set in between are
    not declared by the Admin schema and are not stored; the save runs the
    [pre('save')] hook of the schema all the same. *)
Definition save_identifier (id : ObjectId) : Handler unit :=
  mAdmin ← read (λ db, admins db !! id);
  match mAdmin with
  | Some a => Admin_save id a
  | None => mret tt
  end.

Record CreateReq := mkCreateReq {
  c_user_id : ObjectId;
  c_has_file : bool
}.

(** [IdentificationRequest.create] with the schema defaults: empty
    processing and result, expiry seven days ahead. *)
Definition new_request (now : Date) (k : Z) (user : ObjectId) : IdReq.t :=
  RequestId.generate now k
    (IdReq.mk None user "pending" (IdReq.mkProcessing None None None None)
       (IdReq.mkResult false None None None None None) None
       (now + 7 * 24 * 60 * 60 * 1000) None None None).

(** [createIdentificationRequest] *)
Definition createIdentificationRequest (now : Date) (k : Z) (req : CreateReq)
    : Handler Response :=
  if negb (c_has_file req)
  then respond 400 "Please upload an image for identification" else
  id ← read (λ db, fresh (dom (idreqs db)));
  IdReq_insert id (new_request now k (c_user_id req));;
  user ← read (λ db, users db !! c_user_id req);
  match user with
  | None => throw "Cannot read properties of null (reading 'address')"
  | Some user =>
      mAdmins ← read (Admin_find_active "m_admin" (User.state (User.address user)));
      for_each mAdmins (λ m,
        notify (Notification.mk m.1 "Admin" "identification_request_created"
                  None None "normal");;
        Admin_save m.1 m.2);;
      respond 201
        "Identification request submitted successfully. Processing may take up to 24 hours."
  end.

Record AdminReq := mkAdminReq {
  a_user_id : ObjectId;
  a_params_id : ObjectId;
  a_found : option bool;
  a_cattleId : option ObjectId;
  a_message : option string;
  a_adminNotes : option string;
  a_reason : option string;
  a_confidence : option Z
}.

(** [request.user._id] after [.populate('user')] *)
Definition populated_user (r : IdReq.t) : Handler ObjectId :=
  λ db, match users db !! IdReq.user r with
        | Some _ => (db, inr (IdReq.user r))
        | None => throw "Cannot read properties of null (reading '_id')" db
        end.

(** [startProcessingRequest] *)
Definition startProcessingRequest (now : Date) (req : AdminReq) : Handler Response :=
  request ← read (λ db, idreqs db !! a_params_id req);
  match request with
  | None => respond 404 "Identification request not found"
  | Some r =>
      if IdReq.status r !== "pending"
      then respond 400 ("Cannot start processing a " +:+ IdReq.status r +:+ " request") else
      let r := IdReq.startProcessing (a_user_id req) now r in
      IdReq_save (a_params_id req) r;;
      notify (Notification.mk (IdReq.user r) "User" "identification_processing_started"
                None None "normal");;
      respond 200 "Started processing identification request"
  end.

(** [completeIdentificationRequest] *)
Definition completeIdentificationRequest (now : Date) (req : AdminReq)
    : Handler Response :=
  match a_found req with
  | None => respond 400 "Please specify if cattle was found (true/false)"
  | Some found =>
      request ← read (λ db, idreqs db !! a_params_id req);
      match request with
      | None => respond 404 "Identification request not found"
      | Some r =>
          if (IdReq.status r !== "pending") && (IdReq.status r !== "processing")
          then respond 400 ("Cannot complete a " +:+ IdReq.status r +:+ " request") else
          (* If cattle found, verify it exists *)
          cattle ←
            match found, a_cattleId req with
            | true, Some cattleId =>
                c ← read (λ db, cattles db !! cattleId);
                match c with
                | None => respond 404 "Cattle not found with provided ID"
                | Some c => mret (Some (cattleId, c))
                end
            | _, _ => mret None
            end;
          let r :=
            IdReq.completeWithResult
              (IdReq.mkResultData found (fst <$> cattle)
                 (cattle ≫= λ c, Cattle.cattleId c.2)
                 (match a_confidence req with
                  | Some 0 => None
                  | x => x
                  end)
                 (if falsy (a_message req)
                  then (if found then "Cattle identified successfully"
                        else "No match found in database")
                  else default "" (a_message req)))
              now r in
          IdReq_save (a_params_id req) r;;
          (if falsy (a_adminNotes req) then mret tt
           else IdReq_save (a_params_id req) (IdReq.set_adminNotes (a_adminNotes req) r));;
          save_identifier (a_user_id req);;
          match cattle with
          | Some (cid, c) =>
              Cattle_save cid
                (Cattle.set_identificationHistory
                   (Cattle.identificationHistory c
                    ++ [Cattle.mkIdentificationEntry now (a_user_id req) "image_scan"])
                   c)
          | None => mret tt
          end;;
          (* the notification text reads cattle.cattleId when found *)
          (if found && negb (bool_decide (is_Some cattle))
           then throw "Cannot read properties of null (reading 'cattleId')"
           else mret tt);;
          user ← populated_user r;
          notify (Notification.mk user "User"
                    (if found then "identification_found" else "identification_not_found")
                    None None "high");;
          respond 200 "Identification request completed successfully"
      end
  end.

(** [failIdentificationRequest] *)
Definition failIdentificationRequest (now : Date) (req : AdminReq) : Handler Response :=
  if falsy (a_message req) then respond 400 "Please provide a failure message" else
  request ← read (λ db, idreqs db !! a_params_id req);
  match request with
  | None => respond 404 "Identification request not found"
  | Some r =>
      if (IdReq.status r === "completed") || (IdReq.status r === "cancelled")
      then respond 400 ("Cannot fail a " +:+ IdReq.status r +:+ " request") else
      let r := IdReq.markAsFailed (default "" (a_message req)) now r in
      IdReq_save (a_params_id req) r;;
      (if falsy (a_reason req) then mret tt
       else IdReq_save (a_params_id req) (IdReq.set_adminNotes (a_reason req) r));;
      save_identifier (a_user_id req);;
      user ← populated_user r;
      notify (Notification.mk user "User" "identification_failed" None None "high");;
      respond 200 "Identification request marked as failed"
  end.

Record CancelReq := mkCancelReq {
  x_user_id : ObjectId;
  x_params_id : ObjectId;
  x_reason : option string
}.

(** [cancelIdentificationRequest] *)
Definition cancelIdentificationRequest (now : Date) (req : CancelReq) : Handler Response :=
  request ← read (λ db, idreqs db !! x_params_id req);
  match request with
  | None => respond 404 "Identification request not found"
  | Some r =>
      if negb (Nat.eqb (IdReq.user r) (x_user_id req))
      then respond 404 "Identification request not found" else
      if (IdReq.status r === "completed") || (IdReq.status r === "cancelled")
      then respond 400 ("Cannot cancel a " +:+ IdReq.status r +:+ " request") else
      match IdReq.cancel (x_user_id req)
              (if falsy (x_reason req) then "Cancelled by user"
               else default "" (x_reason req))
              now r with
      | None => throw "Only pending or processing requests can be cancelled"
      | Some r =>
          IdReq_save (x_params_id req) r;;
          respond 200 "Identification request cancelled successfully"
      end
  end.

(** [identificationRequestSchema.statics.cleanupExpired]: every pending or
    processing request past its expiry is saved as failed. *)
Definition expire (now : Date) (r : IdReq.t) : IdReq.t :=
  if IdReq.isExpired now r
  then
    let x := IdReq.result r in
    IdReq.set_result
      (IdReq.mkResult (IdReq.found x) (IdReq.cattle x) (IdReq.cattleId x)
         (IdReq.confidence x) (Some "Request expired") (IdReq.identifiedAt x))
      (IdReq.set_status "failed" r)
  else r.

Definition cleanupExpired (now : Date) (db : Db) : Db :=
  set_idreqs (expire now <$> idreqs db) db.

End IdentificationController.

(** ** The mutating requests of the workflow

    One constructor per route that writes to the cattle, transfer or
    identification collections or to a user's holdings, and one for each of
    the two expiry sweeps, which no route or scheduler of the source
    triggers and a periodic job is expected to call.  [serve] runs a request
    to its answer, each request without interruption. *)

Inductive Request :=
  | Register (env : CattleCreate.Env) (req : CattleController.RegisterReq)
  | Verify (op : AdminController.Op) (now : Date) (req : AdminController.Req)
  | Archive (now : Date) (req : CattleController.OwnerReq)
  | Restore (req : CattleController.OwnerReq)
  | Delete (req : CattleController.OwnerReq)
  | Initiate (now : Date) (req : TransferFlow.InitiateReq)
  | Accept (fault : option nat) (now : Date) (req : TransferFlow.TransferReq)
  | RejectTransfer (now : Date) (req : TransferFlow.TransferReq)
  | CancelTransfer (now : Date) (req : TransferFlow.TransferReq)
  | ExpireTransfers (now : Date)
  | Identify (now : Date) (k : Z) (req : IdentificationController.CreateReq)
  | StartIdentification (now : Date) (req : IdentificationController.AdminReq)
  | CompleteIdentification (now : Date) (req : IdentificationController.AdminReq)
  | FailIdentification (now : Date) (req : IdentificationController.AdminReq)
  | CancelIdentification (now : Date) (req : IdentificationController.CancelReq)
  | ExpireIdentifications (now : Date).

(** [schema] is the cattle schema in force. *)
Definition serve (schema : CattleCreate.Schema) (r : Request) (db : Db) : Db * Response :=
  match r with
  | Register env req => run (CattleController.register_route schema env req) db
  | Verify op now req => run (AdminController.handler op now req) db
  | Archive now req => run (CattleController.archiveCattle now req) db
  | Restore req => run (CattleController.restoreCattle req) db
  | Delete req => run (CattleController.deleteCattle req) db
  | Initiate now req => run (TransferFlow.initiateCattleTransfer now req) db
  | Accept fault now req => run (TransferFlow.acceptTransferRequest fault now req) db
  | RejectTransfer now req => run (TransferFlow.rejectTransferRequest now req) db
  | CancelTransfer now req => run (TransferFlow.cancelTransferRequest now req) db
  | ExpireTransfers now => (TransferFlow.cleanupExpired now db, mkResponse 200 "")
  | Identify now k req =>
      run (IdentificationController.createIdentificationRequest now k req) db
  | StartIdentification now req =>
      run (IdentificationController.startProcessingRequest now req) db
  | CompleteIdentification now req =>
      run (IdentificationController.completeIdentificationRequest now req) db
  | FailIdentification now req =>
      run (IdentificationController.failIdentificationRequest now req) db
  | CancelIdentification now req =>
      run (IdentificationController.cancelIdentificationRequest now req) db
  | ExpireIdentifications now =>
      (IdentificationController.cleanupExpired now db, mkResponse 200 "")
  end.

(** The databases reachable from [db0] by serving requests one after the
    other. *)
Inductive reachable (schema : CattleCreate.Schema) (db0 : Db) : Db → Prop :=
  | reachable_refl : reachable schema db0 db0
  | reachable_step db r :
      reachable schema db0 db → reachable schema db0 (serve schema r db).1.

(** *** Invariants *)

(** At most one pending transfer request per cattle. *)
Definition at_most_one_pending (db : Db) : Prop :=
  ∀ i j t u,
    transfers db !! i = Some t → transfers db !! j = Some u →
    Transfer.status t = "pending" → Transfer.status u = "pending" →
    Transfer.cattle t = Transfer.cattle u → i = j.

(** The number of pending transfer requests of a cattle. *)
Definition pending_count (cattle : ObjectId) (db : Db) : nat :=
  length (TransferFlow.pending_for cattle db).

(** The photographs of a cattle are the required 3/3/3/3/1/1. *)
Definition images_complete (c : Cattle.t) : Prop :=
  length (Cattle.muzzle (Cattle.images c)) = 3%nat
  ∧ length (Cattle.face (Cattle.images c)) = 3%nat
  ∧ length (Cattle.left (Cattle.images c)) = 3%nat
  ∧ length (Cattle.right (Cattle.images c)) = 3%nat
  ∧ length (Cattle.fullBodyLeft (Cattle.images c)) = 1%nat
  ∧ length (Cattle.fullBodyRight (Cattle.images c)) = 1%nat.

(** Lifecycle against verification: an active cattle is approved, and an
    approved cattle is active or archived. *)
Definition lifecycle_consistent (c : Cattle.t) : Prop :=
  (Cattle.status c = "active" → Cattle.v_status (Cattle.verification c) = "approved")
  ∧ (Cattle.v_status (Cattle.verification c) = "approved" →
     Cattle.status c = "active" ∨ Cattle.status c = "archive").

Definition cattle_invariant (db : Db) : Prop :=
  ∀ id c, cattles db !! id = Some c → lifecycle_consistent c ∧ images_complete c.

(** *** The effect of one request on a collection

    What a request may do to the cattle collection: nothing, rewrite one
    stored document, insert a document under an unused id, or delete a
    document. *)

Definition update_ok (c c' : Cattle.t) : Prop :=
  Cattle.images c' = Cattle.images c
  ∧ (lifecycle_consistent c → lifecycle_consistent c').

Inductive cattles_effect (m m' : gmap nat Cattle.t) : Prop :=
  | cattles_same : m' = m → cattles_effect m m'
  | cattles_update id c c' :
      m !! id = Some c → update_ok c c' → m' = <[id := c']> m → cattles_effect m m'
  | cattles_insert id c' :
      m !! id = None → lifecycle_consistent c' → images_complete c' →
      m' = <[id := c']> m → cattles_effect m m'
  | cattles_delete id : m' = delete id m → cattles_effect m m'.

(** What a request may do to the transfer collection: nothing, settle one
    stored request (its new status is not 'pending'), create a pending
    request for a cattle that has none, or expire the stale ones. *)

Inductive transfers_effect (m m' : gmap nat Transfer.t) : Prop :=
  | transfers_same : m' = m → transfers_effect m m'
  | transfers_settle id t t' :
      m !! id = Some t → Transfer.status t' ≠ "pending" →
      m' = <[id := t']> m → transfers_effect m m'
  | transfers_create id t :
      m !! id = None →
      (∀ j u, m !! j = Some u → Transfer.status u = "pending" →
              Transfer.cattle u ≠ Transfer.cattle t) →
      m' = <[id := t]> m → transfers_effect m m'
  | transfers_expire now :
      m' = TransferFlow.expire now <$> m → transfers_effect m m'.

(** ** The error taxonomy of the specification

    The source has no error classes: a handler reports a failure through the
    HTTP status of its response.  The four kinds of the specification are
    read off the status by the usual convention. *)

Inductive ErrorKind :=
  | ValidationError
  | NotFoundError
  | ConflictError
  | AuthorizationError.

Definition error_kind (r : Response) : option ErrorKind :=
  if code r =? 400 then Some ValidationError
  else if code r =? 404 then Some NotFoundError
  else if code r =? 409 then Some ConflictError
  else if (code r =? 401) || (code r =? 403) then Some AuthorizationError
  else None.

(** Terminal verification states of the workflow. *)
Definition terminal (s : string) : bool :=
  (s === "approved") || (s === "rejected") || (s === "denied_by_regional").

(** ** Sample documents

    A small registry used to run the handlers: two farmers, four
    administrators, and cattle in various states of the workflow. *)

Module Sample.

Definition img (name : string) : Image.t :=
  Image.mk name ("uploads/cattle/" +:+ name) 0 1024 "image/jpeg".

(** An upload with the required 3/3/3/3/1/1 photographs. *)
Definition full_images : Cattle.Images :=
  Cattle.mkImages
    [img "m1.jpg"; img "m2.jpg"; img "m3.jpg"]
    [img "f1.jpg"; img "f2.jpg"; img "f3.jpg"]
    [img "l1.jpg"; img "l2.jpg"; img "l3.jpg"]
    [img "r1.jpg"; img "r2.jpg"; img "r3.jpg"]
    [img "bl.jpg"]
    [img "br.jpg"].

Definition verification (s : string) : Cattle.Verification :=
  Cattle.mkVerification s None None None None None None None
    1700000000000 (Some 1700172800000) None.

Definition cattle (owner : ObjectId) (state status vstatus : string) : Cattle.t :=
  Cattle.mk (Some "C000000000001") owner "Gir" (Some 4) full_images status
    (verification vstatus) None (Cattle.mkLocation state "Central" None)
    [] None None [].

Definition farmer (name state : string) (holdings : list ObjectId) : User.t :=
  User.mk name (name +:+ "@example.org") (User.mkAddress state "Central" None)
    holdings.

Definition zero_statistics : Admin.Statistics := Admin.mkStatistics 0 0 0 0 0 0.

Definition admin (role : string) (region : option string) : Admin.t :=
  Admin.mk role region true true zero_statistics.

Definition texas_reviewer : Admin.t := admin "regional_admin" (Some "Texas").
Definition texas_identifier : Admin.t := admin "m_admin" (Some "Texas").
Definition ohio_reviewer : Admin.t := admin "regional_admin" (Some "Ohio").
Definition global_admin : Admin.t := admin "super_admin" None.

(** Cattle 10 awaits regional review in Ohio, 11 is approved and active in
    Texas, 12 was forwarded to the identifier in Ohio, 13 is active in
    Texas and owned by farmer 1. *)
Definition db : Db :=
  mkDb
    (<[10%nat := cattle 1 "Ohio" "transit" "pending_regional_review"]>
     (<[11%nat := cattle 1 "Texas" "active" "approved"]>
     (<[12%nat := cattle 2 "Ohio" "transit" "forwarded_to_m_admin"]>
     (<[13%nat := cattle 1 "Texas" "active" "approved"]> ∅))))
    (<[1%nat := farmer "Asha" "Texas" [10; 11; 13]%nat]>
     (<[2%nat := farmer "Bo" "Ohio" [12%nat]]> ∅))
    (<[100%nat := texas_reviewer]>
     (<[101%nat := texas_identifier]>
     (<[102%nat := global_admin]>
     (<[103%nat := ohio_reviewer]> ∅))))
    ∅ ∅ [].

(** A pending request to transfer cattle 13 from farmer 1 to farmer 2. *)
Definition transfer : Transfer.t :=
  Transfer.mk 13 1 2 "sell" "pending" (Some 40000) None 1700000300000 None None
    1702592300000 None None None None.

Definition db_with_transfer : Db :=
  set_transfers (<[500%nat := transfer]> ∅) db.

(** The same request for a cattle that no longer exists. *)
Definition orphan_transfer : Transfer.t :=
  Transfer.mk 99 1 2 "gift" "pending" None None 1700000300000 None None
    1702592300000 None None None None.

(** Farmer 1 asks to transfer cattle 13 to farmer 2. *)
Definition initiate : TransferFlow.InitiateReq :=
  TransferFlow.mkInitiateReq 1 13 2 (Some "sell") (Some 40000) None.

(** An identification request of farmer 1, not yet processed. *)
Definition request : IdReq.t :=
  IdReq.mk (Some "IDR-0030000010000") 1 "pending"
    (IdReq.mkProcessing None None None None)
    (IdReq.mkResult false None None None None None) None
    1700604800000 None None None.

Definition db_with_request : Db :=
  set_idreqs (<[700%nat := request]> ∅) db.

(** A complete upload and the registration request of farmer 1. *)
Definition file (name : string) : Upload.File :=
  Upload.mkFile name ("uploads/cattle/" +:+ name) 1024 "image/jpeg".

Definition files : Upload.Files :=
  Upload.mkFiles
    (Some [file "m1.jpg"; file "m2.jpg"; file "m3.jpg"])
    (Some [file "f1.jpg"; file "f2.jpg"; file "f3.jpg"])
    (Some [file "l1.jpg"; file "l2.jpg"; file "l3.jpg"])
    (Some [file "r1.jpg"; file "r2.jpg"; file "r3.jpg"])
    (Some [file "bl.jpg"])
    (Some [file "br.jpg"]).

Definition registration : CattleController.RegisterReq :=
  CattleController.mkRegisterReq (Some "user") "user" 1 (Some files) "Gir" (Some 4).

Definition env : CattleCreate.Env := CattleCreate.mkEnv 1700000000000 4321 None.

End Sample.

(** ** The photographs of a registration

    The upload that [validateCattleImages] accepts: three photographs of the
    muzzle, the face and each side, one of the full body from each side. *)


(** ** Runs of requests, and what they keep *)

(** Serving a list of requests one after the other. *)
Definition serve_all (schema : CattleCreate.Schema) (rs : list Request) (db : Db) : Db :=
  foldl (λ db r, (serve schema r db).1) db rs.

(** A request served without an injected failure. *)
Definition faultless (r : Request) : Prop :=
  match r with
  | Accept (Some _) _ _ => False
  | _ => True
  end.

(** The two parties of every stored transfer request differ. *)
Definition distinct_parties (db : Db) : Prop :=
  ∀ id t, transfers db !! id = Some t → Transfer.fromOwner t ≠ Transfer.toOwner t.

(** Every entry of a user's [cattle] array names a stored cattle whose owner
    is that user, and no entry is repeated. *)
Definition holdings_sound (db : Db) : Prop :=
  ∀ uid u, users db !! uid = Some u →
    NoDup (User.cattle u)
    ∧ ∀ id, id ∈ User.cattle u →
        ∃ c, cattles db !! id = Some c ∧ Cattle.owner c = uid.

(** Every cattle of [m] is still stored in [m'], with the same owner. *)
Definition owner_kept (m m' : gmap nat Cattle.t) : Prop :=
  ∀ id c, m !! id = Some c → ∃ c', m' !! id = Some c' ∧ Cattle.owner c' = Cattle.owner c.

(** The three requests that settle a transfer request. *)
Inductive Settle := SettleAccept (fault : option nat) | SettleReject | SettleCancel.

Definition settle (s : Settle) (now : Date) (req : TransferFlow.TransferReq) : Request :=
  match s with
  | SettleAccept fault => Accept fault now req
  | SettleReject => RejectTransfer now req
  | SettleCancel => CancelTransfer now req
  end.

(** ** models/TransferRequest.js: the expiry sweep, save by save *)

Module TransferSweep.

(** [this.find({ status: 'pending', expiresAt: { $lt: new Date() } })] *)
Definition expired (now : Date) (db : Db) : list (nat * Transfer.t) :=
  List.filter
    (λ '(_, t), (Transfer.status t === "pending") && (Transfer.expiresAt t <? now))
    (map_to_list (transfers db)).

(** [request.status = 'cancelled'; request.cancellationReason = 'Expired'] *)
Definition cancelled_as_expired (t : Transfer.t) : Transfer.t :=
  Transfer.set_cancellation (Transfer.cancelledBy t) (Transfer.cancelledAt t)
    (Some "Expired") (Transfer.set_status "cancelled" t).

(** The body of the loop: the two assignments and [await request.save()],
    the save running the [pre('save')] hook of the schema. *)
Definition expire_request (x : nat * Transfer.t) : Handler unit :=
  TransferFlow.Transfer_save x.1 (cancelled_as_expired x.2).

(** [transferRequestSchema.statics.cleanupExpired]: answers
    [expiredRequests.length]. *)
Definition cleanupExpired (now : Date) : Handler nat :=
  expiredRequests ← read (expired now);
  for_each expiredRequests expire_request;;
  mret (length expiredRequests).

End TransferSweep.

(** ** routes/cattleRoutes.js: the routes of the owner

    [router.put('/:id/archive', userOnly, checkOwnership('cattle'),
    archiveCattle)] and its two neighbours: the two guards, then the
    controller, which reads [req.params.id] and [req.user._id]. *)

Module CattleRoutes.

Inductive OwnerOp := ArchiveOp (now : Date) | RestoreOp | DeleteOp.

Definition controller (op : OwnerOp) : CattleController.OwnerReq → Handler Response :=
  match op with
  | ArchiveOp now => CattleController.archiveCattle now
  | RestoreOp => CattleController.restoreCattle
  | DeleteOp => CattleController.deleteCattle
  end.

(** The request as the router hands it on, [:id] bound. *)
Definition bind_id (id : ObjectId) (req : RoleMiddleware.Req) : RoleMiddleware.Req :=
  RoleMiddleware.mkReq (RoleMiddleware.userType req) (RoleMiddleware.user req)
    (Some id) (RoleMiddleware.params_cattleId req) (RoleMiddleware.params_userId req)
    (RoleMiddleware.body_cattleId req) (RoleMiddleware.body_userId req)
    (RoleMiddleware.body_state req) (RoleMiddleware.params_state req)
    (RoleMiddleware.query_state req).

Definition owner_route (op : OwnerOp) (id : ObjectId) (req : RoleMiddleware.Req)
    : Handler Response :=
  let req := bind_id id req in
  RoleMiddleware.userOnly req;;
  RoleMiddleware.checkOwnership "cattle" req;;
  u ← RoleMiddleware.the_user req;
  controller op (CattleController.mkOwnerReq (RoleMiddleware.p_id u) id).

End CattleRoutes.

(** ** middlewares/errorMiddleware.js *)

Module ErrorMiddleware.

(** [err.code]: a number on a MongoDB error, a string on a multer one. *)
Inductive Code := NumCode (n : Z) | StrCode (s : string).

(** What the handler reads of a thrown error.  [e_keyPattern] is
    [Object.keys(err.keyPattern)] and [e_errors] is
    [Object.values(err.errors).map(e => e.message)], each [None] when the
    property is missing, in which case taking the keys or values throws. *)
Record Err := mkErr {
  e_name : string;
  e_message : string;
  e_kind : option string;
  e_code : option Code;
  e_keyPattern : option (list string);
  e_errors : option (list string)
}.

(** [err.code === n] and [err.code === s] *)
Definition is_num (n : Z) (c : option Code) : bool :=
  match c with
  | Some (NumCode m) => m =? n
  | _ => false
  end.

Definition is_str (s : string) (c : option Code) : bool :=
  match c with
  | Some (StrCode t) => t === s
  | _ => false
  end.

(** [err.kind === s] *)
Definition kind_is (s : string) (k : option string) : bool :=
  match k with
  | Some t => t === s
  | None => false
  end.

(** [new Error(message)] *)
Definition plain (message : string) : Err :=
  mkErr "Error" message None None None None.

(** A Mongoose [ValidationError] with one failing path. *)
Definition validation (message : string) : Err :=
  mkErr "ValidationError" ("Validation failed: " +:+ message) None None None
    (Some [message]).

(** [notFound]: the error handed to [next] and the status set on the
    response. *)
Definition notFound (originalUrl : string) : Err * Z :=
  (plain ("Not Found - " +:+ originalUrl), 404).

(** One conditional block of the handler: the status and the message so
    far, possibly replaced. *)
Definition Answer : Type := Z * string.

(** [errorHandler].  [statusCode] is [res.statusCode] on entry and
    [size_text] the text of [process.env.MAX_FILE_SIZE / (1024 * 1024)];
    the result is [None] when the handler itself throws. *)
Definition errorHandler (size_text : string) (err : Err) (statusCode : Z)
    : option Response :=
  let a : Answer := (if statusCode =? 200 then 500 else statusCode, e_message err) in
  let a : Answer :=
    if (e_name err === "CastError") && kind_is "ObjectId" (e_kind err)
    then (404, "Resource not found - Invalid ID format") else a in
  a ← (if is_num 11000 (e_code err) then
         keys ← e_keyPattern err;
         let field := default "undefined" (head keys) in
         Some (400, field +:+ " already exists. Please use a different "
                    +:+ field +:+ ".")
       else Some a);
  a ← (if e_name err === "ValidationError" then
         errors ← e_errors err;
         Some (400, String.concat ", " errors)
       else Some a);
  let a : Answer :=
    if e_name err === "JsonWebTokenError"
    then (401, "Invalid token. Please login again.") else a in
  let a : Answer :=
    if e_name err === "TokenExpiredError"
    then (401, "Token expired. Please login again.") else a in
  let a : Answer :=
    if e_name err === "MulterError" then
      (400,
       if is_str "LIMIT_FILE_SIZE" (e_code err)
       then "File too large. Maximum size is " +:+ size_text +:+ "MB"
       else if is_str "LIMIT_FILE_COUNT" (e_code err)
       then "Too many files uploaded"
       else if is_str "LIMIT_UNEXPECTED_FILE" (e_code err)
       then "Unexpected file field"
       else e_message err)
    else a in
  Some (mkResponse a.1 a.2).

End ErrorMiddleware.

(** ** controllers/adminController.js: the administrator accounts

    [approvedBy] and [approvedAt], which [approveAdmin] also sets, are not
    among the fields [Admin.t] keeps. *)

Module AdminManagement.

Record Req := mkReq {
  user_id : ObjectId;
  params_id : ObjectId
}.

(** [await admin.save()], with the [pre('save')] hook of the schema. *)
Definition save : ObjectId → Admin.t → Handler unit := Admin_save.

Definition set_flags (isActive isApproved : bool) (a : Admin.t) : Admin.t :=
  Admin.mk (Admin.role a) (Admin.assignedRegion_state a) isActive isApproved
    (Admin.statistics a).

(** [approveAdmin] *)
Definition approveAdmin (req : Req) : Handler Response :=
  admin ← read (λ db, admins db !! params_id req);
  match admin with
  | None => respond 404 "Admin not found"
  | Some a =>
      if Admin.role a === "super_admin"
      then respond 400 "Super admin does not need approval" else
      if Admin.isApproved a then respond 400 "Admin is already approved" else
      save (params_id req) (set_flags true true a);;
      notify (Notification.mk (params_id req) "Admin" "admin_approved" None None "high");;
      respond 200 "Admin approved successfully"
  end.

(** [deactivateAdmin] *)
Definition deactivateAdmin (req : Req) : Handler Response :=
  admin ← read (λ db, admins db !! params_id req);
  match admin with
  | None => respond 404 "Admin not found"
  | Some a =>
      if Admin.role a === "super_admin"
      then respond 403 "Cannot deactivate super admin account" else
      save (params_id req) (set_flags false (Admin.isApproved a) a);;
      notify (Notification.mk (params_id req) "Admin" "account_deactivated"
                None None "urgent");;
      respond 200 "Admin account deactivated successfully"
  end.

End AdminManagement.
(** ** Listing endpoints: pagination

    Every listing handler reads [page] and [limit] from the query string
    ([const { page = 1, limit = 20 } = req.query]), computes [skip = (page -
    1) * limit], asks the store for [.limit(parseInt(limit)).skip(skip)] and
    reports [page: parseInt(page)], [pages: Math.ceil(total / limit)] and
    [limit: parseInt(limit)].

    A parameter is therefore read in two ways: by the numeric coercion of
    [-], [*] and [/], and by [parseInt].  The two agree on a plain decimal
    integer and differ on a text such as [1e1], which is 10 as a number and
    1 under [parseInt].  [Param] keeps both readings.  The texts covered
    are those for which both are integers small enough for the arithmetic
    on them to be exact; a text with a fractional or non-numeric reading is
    outside the model. *)

Module Listing.

Record Param := mkParam {
  as_number : Z;
  as_int : Z
}.

(** A plain decimal integer, and the defaults [1] and [20], which are
    numbers already. *)
Definition plain (n : Z) : Param := mkParam n n.

Record Paging := mkPaging {
  q_page : option Param;
  q_limit : option Param
}.

Definition page (p : Paging) : Param := default (plain 1) (q_page p).
Definition limit (p : Paging) : Param := default (plain 20) (q_limit p).

(** [(page - 1) * limit] *)
Definition skip (p : Paging) : Z := (as_number (page p) - 1) * as_number (limit p).

(** The documents of one page, out of the sorted result.  The store skips
    first and limits second, whatever the order of the two calls; it
    refuses a negative skip, takes a limit of 0 as no limit and a negative
    limit as its absolute value. *)
Definition window {A} (p : Paging) (sorted : list A) : option (list A) :=
  if skip p <? 0 then None else
  let rest := drop (Z.to_nat (skip p)) sorted in
  Some (if as_int (limit p) =? 0 then rest
        else take (Z.to_nat (Z.abs (as_int (limit p)))) rest).

(** [Math.ceil(total / limit)]; [None] when [limit] is 0 and the quotient is
    [Infinity] or [NaN], which JSON renders as [null]. *)
Definition pages (total : nat) (p : Paging) : option Z :=
  if as_number (limit p) =? 0 then None
  else Some (- ((- Z.of_nat total) / as_number (limit p))).

(** [{ <items>, pagination: { total, page, pages, limit } }] *)
Record Page (A : Type) := mkPage {
  items : list A;
  total : nat;
  number : Z;
  count : option Z;
  size : Z
}.

Arguments mkPage {A}.
Arguments items {A}.
Arguments total {A}.
Arguments number {A}.
Arguments count {A}.
Arguments size {A}.

(** A page of the sorted result; the store's refusal of a negative skip is
    thrown to the error middleware. *)
Definition paginate {A} (p : Paging) (sorted : list A) : Response + Page A :=
  match window p sorted with
  | None => inl (mkResponse 500 "skip value must be non-negative")
  | Some xs =>
      inr (mkPage xs (length sorted) (as_int (page p)) (pages (length sorted) p)
             (as_int (limit p)))
  end.

(** [items.map(f)] on the documents of a page. *)
Definition map_items {A B} (f : A → B) (p : Page A) : Page B :=
  mkPage (f <$> items p) (total p) (number p) (count p) (size p).

(** The page numbered [k] (from 1) with [n] documents a page, both given
    as plain decimal integers. *)
Definition nth_page {A} (n : Z) (k : nat) (sorted : list A) : list A :=
  default [] (window (mkPaging (Some (plain (Z.of_nat k))) (Some (plain n))) sorted).

End Listing.

(** ** models/Admin.js and models/User.js: the one-time password

    [verifyOTP] is the same method on both schemas.  The [otp] sub-document
    of the account is [None] once it is set to [undefined]. *)

Module Otp.

Record t := mk {
  code : option string;
  expiresAt : Date;
  attempts : Z
}.

Record Verification := mkVerification {
  success : bool;
  message : string
}.

(** [this.otp.code === candidateOTP], the code being a non-empty string. *)
Definition same (code candidate : option string) : bool :=
  match code, candidate with
  | Some c, Some c' => c === c'
  | _, _ => false
  end.

(** [verifyOTP]: the sub-document after the call and the result. *)
Definition verifyOTP (now : Date) (candidateOTP : option string) (otp : option t)
    : option t * Verification :=
  match otp with
  | None => (otp, mkVerification false "No OTP found")
  | Some o =>
      if falsy (code o) then (otp, mkVerification false "No OTP found") else
      if expiresAt o <? now then (otp, mkVerification false "OTP has expired") else
      if 3 <=? attempts o
      then (otp, mkVerification false "Maximum OTP attempts exceeded") else
      if same (code o) candidateOTP
      then (None, mkVerification true "OTP verified successfully")
      else (Some (mk (code o) (expiresAt o) (attempts o + 1)),
            mkVerification false "Invalid OTP")
  end.

(** The results of one verification after the other, each at its time and
    with its candidate, the account being saved in between as the login
    controllers do. *)
Fixpoint verifications (calls : list (Date * option string)) (otp : option t)
    : list Verification :=
  match calls with
  | [] => []
  | call :: calls' =>
      let out := verifyOTP call.1 call.2 otp in
      out.2 :: verifications calls' out.1
  end.

End Otp.

(** ** utils/imageHelper.js: the formatting of stored images *)

Module ImageHelper.

(** [s.substring(i)] *)
Definition substring_from (i : nat) (s : string) : string :=
  String.substring i (String.length s - i) s.

(** [s.replace(/\\/g, '/')] *)
Fixpoint slashes (s : string) : string :=
  match s with
  | EmptyString => EmptyString
  | String c s' =>
      String (if Ascii.eqb c "\"%char then "/"%char else c) (slashes s')
  end.

(** [getImageURL]; [None] is [null]. *)
Definition getImageURL (filePath : option string) : option string :=
  if falsy filePath then None else
  let filePath := default "" filePath in
  match String.index 0 "uploads" filePath with
  | Some uploadsIndex => Some ("/" +:+ slashes (substring_from uploadsIndex filePath))
  | None => Some filePath
  end.

Record Formatted := mkFormatted {
  filename : string;
  url : option string;
  uploadedAt : Date;
  size : Z;
  mimetype : string
}.

Record FormattedImages := mkFormattedImages {
  muzzle : list Formatted;
  face : list Formatted;
  left : list Formatted;
  right : list Formatted;
  fullBodyLeft : list Formatted;
  fullBodyRight : list Formatted
}.

Definition format (image : Image.t) : Formatted :=
  mkFormatted (Image.filename image) (getImageURL (Some (Image.path image)))
    (Image.uploadedAt image) (Image.size image) (Image.mimetype image).

(** [formatCattleImages] on the images of a stored cattle, whose six
    categories are arrays. *)
Definition formatCattleImages (images : Cattle.Images) : FormattedImages :=
  mkFormattedImages
    (format <$> Cattle.muzzle images) (format <$> Cattle.face images)
    (format <$> Cattle.left images) (format <$> Cattle.right images)
    (format <$> Cattle.fullBodyLeft images) (format <$> Cattle.fullBodyRight images).

End ImageHelper.

(** ** The reading endpoints

    A reading endpoint does not write: it is a function of the database to
    an error response or the data of its 200 answer.  Three things are
    decided outside the source and are parameters here: the order in which
    the store returns the documents of a query under a sort specification
    ([sort]: the field name and the direction, 1 or -1), whether a regular
    expression with the option [i] matches a string ([regex_i]), and the
    [tagNo] of a cattle, a field that [Cattle.t] does not keep, as a
    function of the document id. *)

Module Views.

Section Store.

Context (sort : ∀ A : Type, string → Z → list A → list A).
Context (regex_i : string → string → bool).
Context (tagNo : ObjectId → option string).

(** *** Filters on the cattle collection *)

Inductive DistrictFilter :=
  | DistrictIs (d : string)
  | DistrictIn (l : list string).

(** A filter object: an absent key does not constrain, and assigning a key
    again replaces its earlier value.  ['location.state'] may be assigned
    [undefined], which matches no document. *)
Record Filter := mkFilter {
  f_owner : option ObjectId;
  f_status : option string;
  f_verification_status : option string;
  f_breed : option string;
  f_state : option (option string);
  f_district : option DistrictFilter;
  f_deadline_before : option Date;
  f_search : option string
}.

Definition any : Filter := mkFilter None None None None None None None None.

Definition set_owner (x : ObjectId) (f : Filter) : Filter :=
  mkFilter (Some x) (f_status f) (f_verification_status f) (f_breed f)
    (f_state f) (f_district f) (f_deadline_before f) (f_search f).

Definition set_status (x : string) (f : Filter) : Filter :=
  mkFilter (f_owner f) (Some x) (f_verification_status f) (f_breed f)
    (f_state f) (f_district f) (f_deadline_before f) (f_search f).

Definition set_verification_status (x : string) (f : Filter) : Filter :=
  mkFilter (f_owner f) (f_status f) (Some x) (f_breed f)
    (f_state f) (f_district f) (f_deadline_before f) (f_search f).

Definition set_breed (x : string) (f : Filter) : Filter :=
  mkFilter (f_owner f) (f_status f) (f_verification_status f) (Some x)
    (f_state f) (f_district f) (f_deadline_before f) (f_search f).

Definition set_state (x : option string) (f : Filter) : Filter :=
  mkFilter (f_owner f) (f_status f) (f_verification_status f) (f_breed f)
    (Some x) (f_district f) (f_deadline_before f) (f_search f).

Definition set_district (x : DistrictFilter) (f : Filter) : Filter :=
  mkFilter (f_owner f) (f_status f) (f_verification_status f) (f_breed f)
    (f_state f) (Some x) (f_deadline_before f) (f_search f).

Definition set_deadline_before (x : Date) (f : Filter) : Filter :=
  mkFilter (f_owner f) (f_status f) (f_verification_status f) (f_breed f)
    (f_state f) (f_district f) (Some x) (f_search f).

Definition set_search (x : string) (f : Filter) : Filter :=
  mkFilter (f_owner f) (f_status f) (f_verification_status f) (f_breed f)
    (f_state f) (f_district f) (f_deadline_before f) (Some x).

(** [if (p) query.k = p]: the assignment is made for a non-empty
    parameter. *)
Definition when (p : option string) (assign : string → Filter → Filter)
    (f : Filter) : Filter :=
  if falsy p then f else assign (default "" p) f.

(** [{ k: { $regex: pattern, $options: 'i' } }] on an optional field. *)
Definition regex_on (pattern : string) (field : option string) : bool :=
  match field with
  | Some s => regex_i pattern s
  | None => false
  end.

Definition selects (f : Filter) (x : nat * Cattle.t) : bool :=
  let c := x.2 in
  match f_owner f with Some o => Nat.eqb (Cattle.owner c) o | None => true end
  && match f_status f with Some s => Cattle.status c === s | None => true end
  && match f_verification_status f with
     | Some s => Cattle.v_status (Cattle.verification c) === s
     | None => true
     end
  && match f_breed f with Some b => regex_i b (Cattle.breed c) | None => true end
  && match f_state f with
     | Some (Some s) => Cattle.state (Cattle.location c) === s
     | Some None => false
     | None => true
     end
  && match f_district f with
     | Some (DistrictIs d) => Cattle.district (Cattle.location c) === d
     | Some (DistrictIn l) =>
         List.existsb (String.eqb (Cattle.district (Cattle.location c))) l
     | None => true
     end
  && match f_deadline_before f with
     | Some now =>
         match Cattle.turnaroundDeadline (Cattle.verification c) with
         | Some deadline => deadline <? now
         | None => false
         end
     | None => true
     end
  && match f_search f with
     | Some s =>
         regex_on s (Cattle.cattleId c) || regex_on s (tagNo x.1)
         || regex_i s (Cattle.breed c)
     | None => true
     end.

(** [Cattle.find(query)], unsorted, and [Cattle.findOne({ _id: id,
    ...query })]. *)
Definition find (f : Filter) (db : Db) : list (nat * Cattle.t) :=
  List.filter (selects f) (map_to_list (cattles db)).

Definition findOne (id : ObjectId) (f : Filter) (db : Db) : option Cattle.t :=
  match cattles db !! id with
  | Some c => if selects f (id, c) then Some c else None
  | None => None
  end.

(** [.sort(spec).limit(...).skip(...)] with [countDocuments(query)] *)
Definition listing {A} (field : string) (direction : Z) (p : Listing.Paging)
    (found : list A) : Response + Listing.Page A :=
  Listing.paginate p (sort A field direction found).

(** *** controllers/adminController.js *)

(** The caller's region, for the role or roles a handler names. *)
Definition scope (roles : list string) (user : Admin.t) (f : Filter) : Filter :=
  if List.existsb (String.eqb (Admin.role user)) roles
  then set_state (Admin.assignedRegion_state user) f
  else f.

Record AdminListReq := mkAdminListReq {
  al_user : Admin.t;
  al_paging : Listing.Paging;
  al_overdue : option string;
  al_status : option string;
  al_verificationStatus : option string;
  al_breed : option string;
  al_state : option string;
  al_district : option string;
  al_search : option string
}.

(** [getPendingRegionalReview]: each document with its [isOverdue]. *)
Definition pendingRegionalReview_query (now : Date) (req : AdminListReq) : Filter :=
  let query := set_verification_status "pending_regional_review"
                 (set_status "transit" any) in
  let query := scope ["regional_admin"] (al_user req) query in
  match al_overdue req with
  | Some "true" => set_deadline_before now query
  | _ => query
  end.

Definition getPendingRegionalReview (now : Date) (req : AdminListReq) (db : Db)
    : Response + Listing.Page (nat * Cattle.t * bool) :=
  match listing "verification.submittedAt" 1 (al_paging req)
          (find (pendingRegionalReview_query now req) db) with
  | inl r => inl r
  | inr cattle =>
      inr (Listing.map_items (λ x, (x, Cattle.isVerificationOverdue now x.2)) cattle)
  end.

(** [getPendingMAdminVerification] *)
Definition getPendingMAdminVerification (req : AdminListReq) (db : Db)
    : Response + Listing.Page (nat * Cattle.t) :=
  let query := set_verification_status "forwarded_to_m_admin"
                 (set_status "transit" any) in
  let query := scope ["m_admin"] (al_user req) query in
  listing "verification.forwardedToMAdminAt" 1 (al_paging req) (find query db).

(** The image links of the two detail views:
    [`${baseUrl}/${category}/${img.filename}`]. *)
Record Link := mkLink {
  l_filename : string;
  l_url : string;
  l_uploadedAt : Date;
  l_size : Z
}.

Definition link (category : string) (img : Image.t) : Link :=
  mkLink (Image.filename img)
    ("/uploads/cattle" +:+ "/" +:+ category +:+ "/" +:+ Image.filename img)
    (Image.uploadedAt img) (Image.size img).

Definition links (images : Cattle.Images) : list (string * list Link) :=
  [("muzzle", link "muzzle" <$> Cattle.muzzle images);
   ("face", link "face" <$> Cattle.face images);
   ("left", link "left" <$> Cattle.left images);
   ("right", link "right" <$> Cattle.right images);
   ("fullBodyLeft", link "fullBodyLeft" <$> Cattle.fullBodyLeft images);
   ("fullBodyRight", link "fullBodyRight" <$> Cattle.fullBodyRight images)].

Record Detail := mkDetail {
  d_cattle : Cattle.t;
  d_isOverdue : option bool;
  d_links : list (string * list Link)
}.

(** [getCattleForRegionalReview] *)
Definition getCattleForRegionalReview (now : Date) (req : AdminController.Req)
    (db : Db) : Response + Detail :=
  let query := set_verification_status "pending_regional_review" any in
  let query := scope ["regional_admin"] (AdminController.user req) query in
  match findOne (AdminController.params_id req) query db with
  | None => inl (mkResponse 404 "Cattle not found or already reviewed")
  | Some c =>
      inr (mkDetail c (Some (Cattle.isVerificationOverdue now c))
             (links (Cattle.images c)))
  end.

(** [getCattleForMAdminVerification] *)
Definition getCattleForMAdminVerification (req : AdminController.Req) (db : Db)
    : Response + Detail :=
  let query := set_verification_status "forwarded_to_m_admin" any in
  let query := scope ["m_admin"] (AdminController.user req) query in
  match findOne (AdminController.params_id req) query db with
  | None => inl (mkResponse 404 "Cattle not found or not ready for M_Admin verification")
  | Some c => inr (mkDetail c None (links (Cattle.images c)))
  end.

(** The filters of the two [getAllCattle] handlers, after the caller's
    scope. *)
Definition apply_filters (status verificationStatus breed state district search
    : option string) (query : Filter) : Filter :=
  let query := when status set_status query in
  let query := when verificationStatus set_verification_status query in
  let query := when breed set_breed query in
  let query := when state (λ s, set_state (Some s)) query in
  let query := when district (λ d, set_district (DistrictIs d)) query in
  when search set_search query.

(** [getAllCattle] of the admin controller *)
Definition adminAllCattle_query (req : AdminListReq) : Filter :=
  apply_filters (al_status req) (al_verificationStatus req) (al_breed req)
    (al_state req) (al_district req) (al_search req)
    (scope ["regional_admin"; "m_admin"] (al_user req) any).

Definition adminGetAllCattle (req : AdminListReq) (db : Db)
    : Response + Listing.Page (nat * Cattle.t) :=
  listing "createdAt" (-1) (al_paging req) (find (adminAllCattle_query req) db).

(** [getCattleById] of the admin controller *)
Definition adminGetCattleById (req : AdminController.Req) (db : Db)
    : Response + Cattle.t :=
  let query := scope ["regional_admin"; "m_admin"] (AdminController.user req) any in
  match findOne (AdminController.params_id req) query db with
  | None => inl (mkResponse 404 "Cattle not found or you do not have permission to view")
  | Some c => inr c
  end.

(** *** controllers/cattleController.js *)

Record CattleReq := mkCattleReq {
  c_userType : option string;
  c_user : RoleMiddleware.Principal;
  c_params_id : ObjectId;
  c_paging : Listing.Paging;
  c_status : option string;
  c_verificationStatus : option string;
  c_breed : option string;
  c_state : option string;
  c_district : option string;
  c_search : option string;
  c_sortBy : option string;
  c_sortOrder : option string
}.

Definition userType_is (s : string) (req : CattleReq) : bool :=
  match c_userType req with
  | Some t => t === s
  | None => false
  end.

(** The access control of [getAllCattle]: a farmer's own cattle, a regional
    admin's state and, when some are assigned, districts. *)
Definition allCattle_scope (req : CattleReq) (query : Filter) : Filter :=
  if userType_is "user" req then set_owner (RoleMiddleware.p_id (c_user req)) query
  else if userType_is "admin" req then
    if RoleMiddleware.p_role (c_user req) === "regional_admin" then
      let query := set_state (RoleMiddleware.p_region_state (c_user req)) query in
      match RoleMiddleware.p_region_districts (c_user req) with
      | [] => query
      | districts => set_district (DistrictIn districts) query
      end
    else query
  else query.

Definition allCattle_query (req : CattleReq) : Filter :=
  apply_filters (c_status req) (c_verificationStatus req) (c_breed req)
    (c_state req) (c_district req) (c_search req)
    (allCattle_scope req any).

(** [getAllCattle] of the cattle controller: [sortBy = 'createdAt'],
    [sortOrder = 'desc'] by default. *)
Definition getAllCattle (req : CattleReq) (db : Db)
    : Response + Listing.Page (nat * Cattle.t) :=
  listing (default "createdAt" (c_sortBy req))
    (match c_sortOrder req with Some "asc" => 1 | _ => -1 end)
    (c_paging req) (find (allCattle_query req) db).

(** The access control of the single-document handlers. *)
Definition one_scope (req : CattleReq) (query : Filter) : Filter :=
  if userType_is "user" req then set_owner (RoleMiddleware.p_id (c_user req)) query
  else if userType_is "admin" req
          && (RoleMiddleware.p_role (c_user req) === "regional_admin")
  then set_state (RoleMiddleware.p_region_state (c_user req)) query
  else query.

(** [getCattleById] of the cattle controller *)
Definition getCattleById (req : CattleReq) (db : Db)
    : Response + (Cattle.t * ImageHelper.FormattedImages) :=
  match findOne (c_params_id req) (one_scope req any) db with
  | None =>
      inl (mkResponse 404 "Cattle not found or you do not have permission to view it")
  | Some c => inr (c, ImageHelper.formatCattleImages (Cattle.images c))
  end.

(** [getCattleTransferHistory]: the cattle id, the current owner and the
    history. *)
Definition getCattleTransferHistory (req : CattleReq) (db : Db)
    : Response + (option string * ObjectId * list ObjectId) :=
  match findOne (c_params_id req) (one_scope req any) db with
  | None => inl (mkResponse 404 "Cattle not found")
  | Some c => inr (Cattle.cattleId c, Cattle.owner c, Cattle.transferHistory c)
  end.

(** *** controllers/userController.js *)

Record TransferListReq := mkTransferListReq {
  t_user_id : ObjectId;
  t_paging : Listing.Paging;
  t_status : option string;
  t_type : option string
}.

(** [{ $or: [{ fromOwner }, { toOwner }], status?, transferType? }] *)
Definition transfer_selects (req : TransferListReq) (x : nat * Transfer.t) : bool :=
  (Nat.eqb (Transfer.fromOwner x.2) (t_user_id req)
   || Nat.eqb (Transfer.toOwner x.2) (t_user_id req))
  && (if falsy (t_status req) then true
      else Transfer.status x.2 === default "" (t_status req))
  && (if falsy (t_type req) then true
      else Transfer.transferType x.2 === default "" (t_type req)).

Record TransferList := mkTransferList {
  tl_all : Listing.Page (nat * Transfer.t);
  tl_sent : list (nat * Transfer.t);
  tl_received : list (nat * Transfer.t)
}.

(** [getTransferRequests].  The two categories are computed by
    [requests.filter(req => req.fromOwner._id.toString() ===
    req.user._id.toString())] and its twin: the parameter of the callback
    hides the request of the handler, so [req.user] is read on a transfer
    request, which has no such field.  With no request on the page the
    callback never runs; otherwise its first call throws, on
    [req.fromOwner._id] when the populated sender is [null] and on
    [req.user._id] when it is not. *)
Definition getTransferRequests (req : TransferListReq) (db : Db)
    : Response + TransferList :=
  match listing "createdAt" (-1) (t_paging req)
          (List.filter (transfer_selects req) (map_to_list (transfers db))) with
  | inl r => inl r
  | inr requests =>
      match Listing.items requests with
      | [] => inr (mkTransferList requests [] [])
      | x :: _ =>
          match users db !! Transfer.fromOwner x.2 with
          | None => inl (mkResponse 500 "Cannot read properties of null (reading '_id')")
          | Some _ =>
              inl (mkResponse 500 "Cannot read properties of undefined (reading '_id')")
          end
      end
  end.

(** [aggregate([{ $match }, { $group: { _id: key, count: { $sum: 1 } } }])]:
    the groups with their counts. *)
Definition group_count {A} (key : A → string) (l : list A) : gmap string nat :=
  foldr (λ x m, <[key x := S (default 0%nat (m !! key x))]> m) ∅ l.

(** [groups.forEach(item => { obj[item._id] = item.count; obj.total +=
    item.count })] on an object literal; the second statement only where
    the source has it. *)
Definition tally_step (with_total : bool) (obj : gmap string nat)
    (item : string * nat) : gmap string nat :=
  let obj := <[item.1 := item.2]> obj in
  if with_total
  then <["total" := (default 0 (obj !! "total") + item.2)%nat]> obj
  else obj.

Definition tally (with_total : bool) (obj : gmap string nat)
    (groups : gmap string nat) : gmap string nat :=
  foldl (tally_step with_total) obj (map_to_list groups).

Record UserStatistics := mkUserStatistics {
  us_cattle : gmap string nat;
  us_verification : gmap string nat;
  us_transfers : gmap string nat
}.

Definition owned (uid : ObjectId) (db : Db) : list (nat * Cattle.t) :=
  List.filter (λ x, Nat.eqb (Cattle.owner x.2) uid) (map_to_list (cattles db)).

Definition party_of (uid : ObjectId) (db : Db) : list (nat * Transfer.t) :=
  List.filter (λ x, Nat.eqb (Transfer.fromOwner x.2) uid
                    || Nat.eqb (Transfer.toOwner x.2) uid)
    (map_to_list (transfers db)).

(** [getUserStatistics] *)
Definition getUserStatistics (uid : ObjectId) (db : Db) : UserStatistics :=
  let cattleCounts := group_count (λ x, Cattle.status x.2) (owned uid db) in
  let verificationCounts :=
    group_count (λ x, Cattle.v_status (Cattle.verification x.2)) (owned uid db) in
  let transferCounts := group_count (λ x, Transfer.status x.2) (party_of uid db) in
  mkUserStatistics
    (tally true
       (<["total" := 0%nat]> (<["active" := 0%nat]> (<["archive" := 0%nat]>
          (<["transit" := 0%nat]> ∅))))
       cattleCounts)
    (tally false
       (<["pending" := 0%nat]> (<["approved" := 0%nat]> (<["rejected" := 0%nat]> ∅)))
       verificationCounts)
    (tally true
       (<["total" := 0%nat]> (<["pending" := 0%nat]> (<["accepted" := 0%nat]>
          (<["rejected" := 0%nat]> (<["cancelled" := 0%nat]> ∅)))))
       transferCounts).

(** *** controllers/identificationController.js

    The image link that the listings add to each request concerns a field
    that [IdReq.t] does not keep. *)

(** [(await User.find({ 'address.state': state }).select('_id')).map(u =>
    u._id)]; an [undefined] state matches no user. *)
Definition users_of_state (state : option string) (db : Db) : list ObjectId :=
  (List.filter
     (λ x : nat * User.t,
        match state with
        | Some s => User.state (User.address x.2) === s
        | None => false
        end)
     (map_to_list (users db))).*1.

Record IdListReq := mkIdListReq {
  il_user : Admin.t;
  il_paging : Listing.Paging
}.

(** [{ status: { $in: ['pending', 'processing'] } }], and [user: { $in:
    userIds }] when [userIds] is not empty. *)
Definition pending_selects (userIds : list ObjectId) (x : nat * IdReq.t) : bool :=
  ((IdReq.status x.2 === "pending") || (IdReq.status x.2 === "processing"))
  && match userIds with
     | [] => true
     | _ => List.existsb (Nat.eqb (IdReq.user x.2)) userIds
     end.

(** [getPendingIdentificationRequests] *)
Definition getPendingIdentificationRequests (req : IdListReq) (db : Db)
    : Response + Listing.Page (nat * IdReq.t) :=
  let userIds :=
    if Admin.role (il_user req) === "m_admin"
    then users_of_state (Admin.assignedRegion_state (il_user req)) db
    else [] in
  listing "createdAt" 1 (il_paging req)
    (List.filter (pending_selects userIds) (map_to_list (idreqs db))).

Record IdStatsReq := mkIdStatsReq {
  is_userType : option string;
  is_user : RoleMiddleware.Principal
}.

Inductive UserFilter :=
  | AnyUser
  | UserIs (u : ObjectId)
  | UserIn (l : list ObjectId).

Definition user_selects (f : UserFilter) (r : IdReq.t) : bool :=
  match f with
  | AnyUser => true
  | UserIs u => Nat.eqb (IdReq.user r) u
  | UserIn l => List.existsb (Nat.eqb (IdReq.user r)) l
  end.

(** [IdentificationRequest.countDocuments({ ...query, <more> })] *)
Definition count_where (f : UserFilter) (more : IdReq.t → bool) (db : Db) : nat :=
  length (List.filter (λ x : nat * IdReq.t, user_selects f x.2 && more x.2)
            (map_to_list (idreqs db))).

Record IdStats := mkIdStats {
  s_total : nat;
  s_pending : nat;
  s_processing : nat;
  s_completed : nat;
  s_failed : nat;
  s_cancelled : nat;
  s_found : nat;
  s_notFound : nat;
  s_averageProcessingTime : Z
}.

(** The time taken by the completed requests that have one. *)
Definition times_taken (f : UserFilter) (db : Db) : list Z :=
  omap (λ x : nat * IdReq.t,
          if user_selects f x.2 && (IdReq.status x.2 === "completed")
          then IdReq.timeTaken (IdReq.processing x.2) else None)
    (map_to_list (idreqs db)).

(** [getIdentificationStatistics] *)
Definition getIdentificationStatistics (req : IdStatsReq) (db : Db) : IdStats :=
  let query :=
    match is_userType req with
    | Some t =>
        if t === "user" then UserIs (RoleMiddleware.p_id (is_user req))
        else if (t === "admin") && (RoleMiddleware.p_role (is_user req) === "m_admin")
        then UserIn (users_of_state (RoleMiddleware.p_region_state (is_user req)) db)
        else AnyUser
    | None => AnyUser
    end in
  let status_is s (r : IdReq.t) := IdReq.status r === s in
  let completedRequests := times_taken query db in
  mkIdStats
    (count_where query (λ _, true) db)
    (count_where query (status_is "pending") db)
    (count_where query (status_is "processing") db)
    (count_where query (status_is "completed") db)
    (count_where query (status_is "failed") db)
    (count_where query (status_is "cancelled") db)
    (count_where query (λ r, IdReq.found (IdReq.result r)) db)
    (count_where query
       (λ r, status_is "completed" r && negb (IdReq.found (IdReq.result r))) db)
    (match completedRequests with
     | [] => 0
     | _ => foldl Z.add 0 completedRequests / Z.of_nat (length completedRequests)
     end).

End Store.

End Views.

(** ** More sample data *)

Module Examples.

(** A store that returns the documents of a query in the order of the
    collection, as it does when they agree on the sort field. *)
Definition store_order (A : Type) (field : string) (direction : Z) (l : list A)
    : list A := l.

(** A pattern without metacharacters matches the strings that contain it;
    the letter case is left as it is. *)
Definition contains (pattern s : string) : bool :=
  match String.index 0 pattern s with
  | Some _ => true
  | None => false
  end.

Definition no_tag (id : ObjectId) : option string := None.

(** The request of farmer 1 after its cancellation. *)
Definition cancelled_request : IdReq.t :=
  IdReq.mk (Some "IDR-0030000010000") 1 "cancelled"
    (IdReq.mkProcessing None None None None)
    (IdReq.mkResult false None None None None None) None
    1700604800000 (Some 1%nat) (Some 1700000900000) (Some "Cancelled by user").

Definition db_with_cancelled : Db :=
  set_idreqs (<[700%nat := cancelled_request]> ∅) Sample.db.

(** Farmer 1 asks to transfer cattle 13 to themselves. *)
Definition self_transfer : TransferFlow.InitiateReq :=
  TransferFlow.mkInitiateReq 1 13 1 (Some "sell") (Some 40000) None.

Definition first_page : Listing.Paging := Listing.mkPaging None None.

(** The Ohio reviewer lists the cattle awaiting review. *)
Definition ohio_list : Views.AdminListReq :=
  Views.mkAdminListReq Sample.ohio_reviewer first_page None None None None None
    None None.

(** The same reviewer asks for the cattle of Texas. *)
Definition ohio_asks_texas : Views.AdminListReq :=
  Views.mkAdminListReq Sample.ohio_reviewer first_page None None None None
    (Some "Texas") None None.

Definition farmer_one : RoleMiddleware.Principal :=
  RoleMiddleware.mkPrincipal 1 "user" true None [].

(** Farmer 1 lists cattle and looks at cattle 12, which is farmer 2's. *)
Definition farmer_list : Views.CattleReq :=
  Views.mkCattleReq (Some "user") farmer_one 12 first_page None None None None
    None None None None.

(** Farmer 1 lists their transfer requests. *)
Definition transfer_list : Views.TransferListReq :=
  Views.mkTransferListReq 1 first_page None None.

(** The Texas identifier lists the open identification requests. *)
Definition identifier_list : Views.IdListReq :=
  Views.mkIdListReq Sample.texas_identifier first_page.

Definition farmer_two : RoleMiddleware.Principal :=
  RoleMiddleware.mkPrincipal 2 "user" true None [].

(** The request of farmer 2 after authentication. *)
Definition farmer_two_request : RoleMiddleware.Req :=
  RoleMiddleware.mkReq (Some "user") (Some farmer_two) None None None None None
    None None None.

Definition texas_reviewer : RoleMiddleware.Principal :=
  RoleMiddleware.mkPrincipal 100 "regional_admin" true (Some "Texas") [].

(** The request of the Texas reviewer after authentication. *)
Definition reviewer_request : RoleMiddleware.Req :=
  RoleMiddleware.mkReq (Some "admin") (Some texas_reviewer) None None None None
    None None None None.

(** The Texas reviewer names cattle 10 in the path. *)
Definition reviewer_asks_cattle : RoleMiddleware.Req :=
  RoleMiddleware.mkReq (Some "admin") (Some texas_reviewer) None (Some 10%nat) None
    None None None None None.

(** A password as generated: five minutes to go, no attempt made. *)
Definition password : Otp.t := Otp.mk (Some "482913") 1700000300000 0.

Definition guesses : list (Date * option string) :=
  [(1700000000000, Some "111111"); (1700000001000, Some "222222");
   (1700000002000, Some "333333"); (1700000003000, Some "482913")].

(** Farmer 1 asks for their identification statistics. *)
Definition farmer_statistics : Views.IdStatsReq :=
  Views.mkIdStatsReq (Some "user") farmer_one.

End Examples.

(** * Properties *)

(** ** Stepping through a handler *)

Lemma bind_read {A B} (f : Db → A) (k : A → Handler B) db :
  (read f ≫= k) db = k (f db) db.
Proof. reflexivity. Qed.

Lemma bind_write {B} (f : Db → Db) (k : unit → Handler B) db :
  (write f ≫= k) db = k tt (f db).
Proof. reflexivity. Qed.

Lemma bind_respond {A B} c msg (k : A → Handler B) db :
  (respond c msg ≫= k) db = (db, inl (mkResponse c msg)).
Proof. reflexivity. Qed.

Lemma bind_ret {A B} (a : A) (k : A → Handler B) db :
  (mret a ≫= k) db = k a db.
Proof. reflexivity. Qed.

Lemma bind_ok {A B} (m : Handler A) (k : A → Handler B) db db' a :
  m db = (db', inr a) → (m ≫= k) db = k a db'.
Proof. intros H. unfold mbind, handler_bind. by rewrite H. Qed.

Lemma bind_stop {A B} (m : Handler A) (k : A → Handler B) db db' r :
  m db = (db', inl r) → (m ≫= k) db = (db', inl r).
Proof. intros H. unfold mbind, handler_bind. by rewrite H. Qed.

Lemma run_respond c msg db : run (respond c msg) db = (db, mkResponse c msg).
Proof. reflexivity. Qed.

Lemma run_stop (h : Handler Response) db db' r :
  h db = (db', inl r) → run h db = (db', r).
Proof. intros H. unfold run. by rewrite H. Qed.

Lemma notify_valid n db :
  Notification.validate n = [] →
  notify n db = (set_notifications (notifications db ++ [n]) db, inr tt).
Proof. intros H. unfold notify. by rewrite H. Qed.

Lemma notify_invalid n db :
  Notification.validate n ≠ [] →
  notify n db = (db, inl (mkResponse 400 (join (Notification.validate n)))).
Proof. intros H. unfold notify. by destruct (Notification.validate n). Qed.

(** A notification, stored or refused, touches no other collection. *)
Lemma notify_frame n db :
  cattles (notify n db).1 = cattles db ∧ users (notify n db).1 = users db
  ∧ transfers (notify n db).1 = transfers db ∧ idreqs (notify n db).1 = idreqs db
  ∧ admins (notify n db).1 = admins db.
Proof. unfold notify. by destruct (Notification.validate n). Qed.

Lemma Cattle_save_ok id c db :
  Cattle_save id c db = (set_cattles (<[id := c]> (cattles db)) db, inr tt).
Proof. reflexivity. Qed.

Lemma Admin_save_ok id a db :
  Admin.pre_save a = None →
  Admin_save id a db = (set_admins (<[id := a]> (admins db)) db, inr tt).
Proof. intros H. unfold Admin_save. by rewrite H. Qed.

Lemma Admin_save_frame id a db :
  cattles (Admin_save id a db).1 = cattles db ∧ users (Admin_save id a db).1 = users db
  ∧ transfers (Admin_save id a db).1 = transfers db
  ∧ idreqs (Admin_save id a db).1 = idreqs db.
Proof. unfold Admin_save. by destruct (Admin.pre_save a). Qed.

(** The [pre('save')] hook of the Admin schema reads the role and the
    region only. *)
Lemma pre_save_statistics s a :
  Admin.pre_save (Admin.set_statistics s a) = Admin.pre_save a.
Proof. reflexivity. Qed.




(** ** The verification handlers *)

Section AdminHandlers.
Import AdminController.

Lemma scoped_query_id rs sr req : q_id (scoped_query rs sr req) = params_id req.
Proof. unfold scoped_query. by destruct (_ === _). Qed.

Lemma findOne_scoped_status rs sr req db c :
  cattles db !! params_id req = Some c →
  Cattle.v_status (Cattle.verification c) ≠ rs →
  Cattle_findOne (scoped_query rs sr req) db = None.
Proof.
  intros Hc Hs. unfold Cattle_findOne. rewrite scoped_query_id, Hc.
  assert ((Cattle.v_status (Cattle.verification c) === rs) = false) as E
    by (apply String.eqb_neq; exact Hs).
  unfold scoped_query, matches.
  destruct (Admin.role (user req) === sr); simpl; rewrite E; by rewrite ?andb_false_r.
Qed.

Lemma findOne_scoped_region rs req db c op :
  cattles db !! params_id req = Some c →
  Admin.role (user req) = scoped_role op →
  Admin.assignedRegion_state (user req) ≠ Some (Cattle.state (Cattle.location c)) →
  Cattle_findOne (scoped_query rs (scoped_role op) req) db = None.
Proof.
  intros Hc Hr Hs. unfold Cattle_findOne. rewrite scoped_query_id, Hc.
  unfold scoped_query. rewrite Hr, String.eqb_refl. unfold matches; simpl.
  destruct (Admin.assignedRegion_state (user req)) as [s|]; [|by rewrite andb_false_r].
  assert ((Cattle.state (Cattle.location c) === s) = false) as ->; [|by rewrite andb_false_r].
  apply String.eqb_neq. congruence.
Qed.


Lemma handler_not_found op now req db :
  (needs_reason op = true → falsy (body_reason req) = false) →
  Cattle_findOne (scoped_query (required_status op) (scoped_role op) req) db = None →
  run (handler op now req) db = (db, not_found_response op).
Proof.
  intros Hreason Hq.
  destruct op; simpl in *; unfold run;
    unfold forwardCattleToMAdmin, denyCattleByRegionalAdmin,
      approveCattleByMAdmin, rejectCattleByMAdmin;
    rewrite ?Hreason by done;
    unfold mbind, handler_bind, read; rewrite Hq; reflexivity.
Qed.

Lemma handler_missing_reason op now req db :
  needs_reason op = true → falsy (body_reason req) = true →
  ∃ msg, run (handler op now req) db = (db, mkResponse 400 msg).
Proof.
  intros Hop Hreason.
  destruct op; try discriminate; simpl; unfold run;
    unfold denyCattleByRegionalAdmin, rejectCattleByMAdmin;
    rewrite Hreason; eexists; reflexivity.
Qed.


Lemma findOne_unscoped op req db c :
  cattles db !! params_id req = Some c →
  Admin.role (user req) ≠ scoped_role op →
  Cattle.v_status (Cattle.verification c) = required_status op →
  Cattle_findOne (scoped_query (required_status op) (scoped_role op) req) db = Some c.
Proof.
  intros Hc Hr Hs. unfold Cattle_findOne. rewrite scoped_query_id, Hc.
  unfold scoped_query.
  assert ((Admin.role (user req) === scoped_role op) = false) as ->
    by (apply String.eqb_neq; exact Hr).
  unfold matches; simpl. by rewrite Hs, String.eqb_refl.
Qed.

Lemma update_statistics_ok id f a db :
  admins db !! id = Some a →
  Admin.pre_save a = None →
  update_statistics id f db =
    (set_admins (<[id := Admin.set_statistics (f (Admin.statistics a)) a]> (admins db)) db, inr tt).
Proof.
  intros H Hp. unfold update_statistics. rewrite H.
  apply Admin_save_ok. by rewrite pre_save_statistics.
Qed.

Lemma populated_owner_ok c u db :
  users db !! Cattle.owner c = Some u →
  populated_owner c db = (db, inr (Cattle.owner c)).
Proof. intros H. unfold populated_owner. by rewrite H. Qed.

End AdminHandlers.

(** ** Terminal states *)

Section VerificationClaims.
Import AdminController.

Lemma terminal_not_required op s :
  terminal s = true → s ≠ required_status op.
Proof.
  unfold terminal. intros H ->. destruct op; vm_compute in H; discriminate.
Qed.

(** C3 (as amended). Once the verification status of a cattle is terminal
    ('approved', 'rejected' or 'denied_by_regional'), every Forward, Deny,
    Approve or Reject request on it fails and leaves the whole database as
    it was.  The failure is the handler's 404 answer, the one it also gives
    for an unknown id, or the 400 answer of Deny and Reject when no reason
    is supplied; no handler has a conflict answer. *)
Theorem terminal_state_refuses_transitions op now req db c :
  cattles db !! params_id req = Some c →
  terminal (Cattle.v_status (Cattle.verification c)) = true →
  ∃ r, run (handler op now req) db = (db, r)
    ∧ (r = not_found_response op
       ∨ (needs_reason op = true ∧ falsy (body_reason req) = true ∧ code r = 400))
    ∧ error_kind r ≠ Some ConflictError.
Proof.
  intros Hc Ht.
  destruct (needs_reason op && falsy (body_reason req)) eqn:E.
  - apply andb_true_iff in E as [Hop Hr].
    destruct (handler_missing_reason op now req db Hop Hr) as [msg Hrun].
    exists (mkResponse 400 msg). split; [done|]. split; [by right|]. done.
  - exists (not_found_response op). split; [|split; [by left|by destruct op]].
    apply handler_not_found.
    + intros Hop. rewrite Hop in E. simpl in E. exact E.
    + eapply findOne_scoped_status; [exact Hc|]. by apply terminal_not_required.
Qed.

(** A regional reviewer forwards the approved cattle 11 of their own
    region: refused, database untouched. *)
Lemma terminal_state_refuses_transitions_witness :
  ∃ r, run (handler Forward 1700000100000
              (mkReq 100 Sample.texas_reviewer 11 None)) Sample.db
       = (Sample.db, r)
    ∧ (r = not_found_response Forward
       ∨ (needs_reason Forward = true ∧ falsy None = true ∧ code r = 400))
    ∧ error_kind r ≠ Some ConflictError.
Proof.
  apply (terminal_state_refuses_transitions Forward 1700000100000
           (mkReq 100 Sample.texas_reviewer 11 None) Sample.db
           (Sample.cattle 1 "Texas" "active" "approved")).
  - reflexivity.
  - reflexivity.
Defined.

(** C3 as stated fails on the error kind: forwarding the approved cattle 11
    is answered 404, a not-found error and not a conflict error. *)
Lemma terminal_forward_is_not_a_conflict :
  let req := mkReq 100 Sample.texas_reviewer 11 None in
  let out := run (forwardCattleToMAdmin 1700000100000 req) Sample.db in
  (cattles Sample.db !! 11%nat) = Some (Sample.cattle 1 "Texas" "active" "approved")
  ∧ terminal "approved" = true
  ∧ out = (Sample.db, mkResponse 404 "Cattle not found or already reviewed")
  ∧ error_kind out.2 = Some NotFoundError
  ∧ error_kind out.2 ≠ Some ConflictError.
Proof. vm_compute. repeat split; congruence. Qed.

End VerificationClaims.

(** ** Effects of the requests on the collections *)

Lemma for_each_frame {A} (body : A → Handler unit) (l : list A) :
  (∀ x db, cattles (body x db).1 = cattles db ∧ users (body x db).1 = users db
           ∧ transfers (body x db).1 = transfers db
           ∧ idreqs (body x db).1 = idreqs db) →
  ∀ db, cattles (for_each l body db).1 = cattles db
        ∧ users (for_each l body db).1 = users db
        ∧ transfers (for_each l body db).1 = transfers db
        ∧ idreqs (for_each l body db).1 = idreqs db.
Proof.
  intros Hb. induction l as [|x l IH]; intros db; [done|].
  simpl. unfold mbind, handler_bind.
  specialize (Hb x db). destruct (body x db) as [db1 [r|[]]]; simpl in *; [done|].
  specialize (IH db1). destruct IH as (-> & -> & -> & ->). done.
Qed.

Lemma frames_bind {A B} (m : Handler A) (k : A → Handler B) :
  frames m → (∀ a, frames (k a)) → frames (m ≫= k).
Proof.
  intros Hm Hk db. unfold mbind, handler_bind.
  specialize (Hm db). destruct (m db) as [db1 [r|a]]; simpl in *; [done|].
  specialize (Hk a db1). destruct Hk as (-> & -> & -> & ->). done.
Qed.

Lemma frames_notify n : frames (notify n).
Proof. intros db. destruct (notify_frame n db) as (?&?&?&?&_). done. Qed.

Lemma frames_Admin_save id a : frames (Admin_save id a).
Proof. intros db. apply Admin_save_frame. Qed.

Lemma frames_respond {A} c msg : frames (respond (A:=A) c msg).
Proof. done. Qed.

Lemma frames_ret {A} (a : A) : frames (mret a).
Proof. done. Qed.

Lemma frames_populated_owner c : frames (AdminController.populated_owner c).
Proof.
  intros db. unfold AdminController.populated_owner.
  by destruct (users db !! Cattle.owner c).
Qed.

Lemma frames_update_statistics id f : frames (AdminController.update_statistics id f).
Proof.
  intros db. unfold AdminController.update_statistics.
  destruct (admins db !! id); [apply Admin_save_frame|done].
Qed.

Lemma frames_for_each {A} (body : A → Handler unit) (l : list A) :
  (∀ x, frames (body x)) → frames (for_each l body).
Proof. intros Hb db. apply for_each_frame. intros x d. apply Hb. Qed.

Create HintDb frames discriminated.
#[export] Hint Resolve frames_notify frames_Admin_save frames_respond frames_ret
  frames_populated_owner frames_update_statistics : frames.

Ltac solve_frames :=
  repeat first
    [ apply frames_bind; [|intros]
    | apply frames_for_each; intros
    | solve [eauto with frames] ].

Lemma frames_notify_m_admin id c m : frames (AdminController.notify_m_admin id c m).
Proof. unfold AdminController.notify_m_admin. solve_frames. Qed.

Lemma frames_notify_reviewer id u m : frames (CattleController.notify_reviewer id u m).
Proof. unfold CattleController.notify_reviewer. solve_frames. Qed.

Lemma frames_save_identifier id : frames (IdentificationController.save_identifier id).
Proof.
  intros db. unfold IdentificationController.save_identifier, mbind, handler_bind, read.
  simpl. destruct (admins db !! id); [apply Admin_save_frame|done].
Qed.

#[export] Hint Resolve frames_notify_m_admin frames_notify_reviewer
  frames_save_identifier : frames.

Lemma Cattle_findOne_Some q db c :
  Cattle_findOne q db = Some c →
  cattles db !! q_id q = Some c ∧ matches q c = true.
Proof.
  unfold Cattle_findOne. destruct (cattles db !! q_id q) as [c'|]; [|done].
  destruct (matches q c') eqn:E; [|done]. by intros [= <-].
Qed.

Lemma scoped_query_Some rs sr req db c :
  Cattle_findOne (AdminController.scoped_query rs sr req) db = Some c →
  cattles db !! AdminController.params_id req = Some c
  ∧ Cattle.v_status (Cattle.verification c) = rs.
Proof.
  intros [Hc Hm]%Cattle_findOne_Some. rewrite scoped_query_id in Hc.
  split; [done|]. unfold AdminController.scoped_query, matches in Hm.
  destruct (_ === sr); simpl in Hm;
    repeat (apply andb_true_iff in Hm as [Hm ?]);
    by apply String.eqb_eq.
Qed.

(** Each verification transition keeps the photographs and, from the state
    its handler requires, the lifecycle consistency. *)
Lemma transition_update_ok op req now c :
  Cattle.v_status (Cattle.verification c) = AdminController.required_status op →
  update_ok c (AdminController.transition op req now c).
Proof.
  intros Hs. split; [by destruct op|].
  intros [Hact Happ]. destruct op; simpl in *; split; simpl; intros H;
    try discriminate; try (by left); try done;
    rewrite Hact in Hs by done; discriminate.
Qed.

Lemma archive_update_ok uid now c : update_ok c (Cattle.archive uid now c).
Proof.
  split; [done|]. intros [Hact Happ]. split; simpl; [done|]. by right.
Qed.

Lemma restore_update_ok c : update_ok c (Cattle.restore c).
Proof.
  split; [unfold Cattle.restore; by destruct (_ === _)|].
  intros _. unfold Cattle.restore.
  destruct (Cattle.v_status (Cattle.verification c) === "approved") eqn:E; simpl.
  - apply String.eqb_eq in E. split; simpl; [done|]. by left.
  - apply String.eqb_neq in E. split; simpl; [done|]. done.
Qed.
Ltac unfold_handlers :=
  unfold serve, run,
    CattleController.register_route, RoleMiddleware.userOnly, RoleMiddleware.the_user,
    CattleController.validateCattleRegistration, Upload.handleCattleImageUpload,
    CattleController.registerCattle_under, CattleCreate.create,
    AdminController.handler,
    AdminController.forwardCattleToMAdmin, AdminController.denyCattleByRegionalAdmin,
    AdminController.approveCattleByMAdmin, AdminController.rejectCattleByMAdmin,
    CattleController.archiveCattle, CattleController.restoreCattle,
    CattleController.deleteCattle,
    TransferFlow.initiateCattleTransfer, TransferFlow.initiate_check,
    TransferFlow.initiate_create,
    TransferFlow.acceptTransferRequest, TransferFlow.rejectTransferRequest,
    TransferFlow.cancelTransferRequest, TransferFlow.accept, TransferFlow.reject,
    TransferFlow.cancel, TransferFlow.db_op, TransferFlow.Transfer_save,
    TransferFlow.cleanupExpired,
    IdentificationController.createIdentificationRequest,
    IdentificationController.startProcessingRequest,
    IdentificationController.completeIdentificationRequest,
    IdentificationController.failIdentificationRequest,
    IdentificationController.cancelIdentificationRequest,
    IdentificationController.cleanupExpired,
    IdentificationController.IdReq_insert,
    IdentificationController.IdReq_save, IdentificationController.populated_user,
    AdminController.update_statistics, AdminController.populated_owner,
    Cattle_save, Admin_save, notify, throw_duplicate, throw_validation, throw, respond,
    read, write,
    mbind, handler_bind, mret, handler_ret;
  cbn beta zeta.


Ltac frame_at l body d :=
  let H := fresh "Hframe" in
  let Hb := fresh in
  assert (∀ x, frames (body x)) as Hb by (intros; cbv beta; solve_frames);
  pose proof (frames_for_each body l Hb d) as H; clear Hb;
  destruct (for_each l body d) as [? [?|[]]]; simpl in H;
  destruct H as (?&?&?&?).

Ltac frame_identifier :=
  match goal with
  | H : IdentificationController.save_identifier ?id ?d = _ |- _ =>
      let F := fresh "Hframe" in
      pose proof (frames_save_identifier id d) as F;
      rewrite H in F; simpl in F; destruct F as (?&?&?&?); clear H
  end.

Ltac frame_loop :=
  match goal with
  | |- context [for_each ?l ?body ?d] => frame_at l body d
  | _ : context [for_each ?l ?body ?d] |- _ => frame_at l body d
  end.

Ltac exec :=
  unfold_handlers;
  repeat (first [frame_loop | frame_identifier | case_match]; simplify_eq/=).


Ltac rewrite_frames :=
  repeat match goal with
  | H : cattles ?d = _ |- context [cattles ?d] => rewrite H
  | H : transfers ?d = _ |- context [transfers ?d] => rewrite H
  | H : users ?d = _ |- context [users ?d] => rewrite H
  | H : idreqs ?d = _ |- context [idreqs ?d] => rewrite H
  end; simpl.

Lemma verify_cattles_effect op now req db :
  cattles_effect (cattles db) (cattles (run (AdminController.handler op now req) db).1).
Proof.
  destruct op; exec; rewrite_frames.
  all: try (by apply cattles_same).
  all: match goal with H : Cattle_findOne _ _ = Some _ |- _ =>
         apply scoped_query_Some in H as [Hc Hs] end.
  all: eapply cattles_update; [exact Hc| |reflexivity].
  all: first [exact (transition_update_ok AdminController.Forward req now _ Hs)
             |exact (transition_update_ok AdminController.Deny req now _ Hs)
             |exact (transition_update_ok AdminController.Approve req now _ Hs)
             |exact (transition_update_ok AdminController.Reject req now _ Hs)].
Qed.

Lemma owner_query_Some uid id db c :
  Cattle_findOne (with_owner uid (by_id id)) db = Some c →
  cattles db !! id = Some c.
Proof. by intros [Hc _]%Cattle_findOne_Some. Qed.

Lemma archive_cattles_effect now req db :
  cattles_effect (cattles db) (cattles (run (CattleController.archiveCattle now req) db).1).
Proof.
  exec; rewrite_frames; try (by apply cattles_same).
  eapply cattles_update; [by eapply owner_query_Some|apply archive_update_ok|done].
Qed.

Lemma restore_cattles_effect req db :
  cattles_effect (cattles db) (cattles (run (CattleController.restoreCattle req) db).1).
Proof.
  exec; rewrite_frames; try (by apply cattles_same).
  eapply cattles_update; [by eapply owner_query_Some|apply restore_update_ok|done].
Qed.

Lemma delete_cattles_effect req db :
  cattles_effect (cattles db) (cattles (run (CattleController.deleteCattle req) db).1).
Proof.
  exec; rewrite_frames; try (by apply cattles_same).
  by eapply cattles_delete.
Qed.

Lemma initiate_cattles_effect now req db :
  cattles_effect (cattles db) (cattles (run (TransferFlow.initiateCattleTransfer now req) db).1).
Proof. exec; rewrite_frames; by apply cattles_same. Qed.

Lemma accept_cattles_effect fault now req db :
  cattles_effect (cattles db)
    (cattles (run (TransferFlow.acceptTransferRequest fault now req) db).1).
Proof.
  exec; rewrite_frames; try (by apply cattles_same).
  all: eapply cattles_update; [eassumption| |reflexivity].
  all: split; [done|]; intros [? ?]; split; simpl; done.
Qed.

Lemma reject_cattles_effect now req db :
  cattles_effect (cattles db)
    (cattles (run (TransferFlow.rejectTransferRequest now req) db).1).
Proof. exec; rewrite_frames; by apply cattles_same. Qed.

Lemma cancel_cattles_effect now req db :
  cattles_effect (cattles db)
    (cattles (run (TransferFlow.cancelTransferRequest now req) db).1).
Proof. exec; rewrite_frames; by apply cattles_same. Qed.

Lemma identify_cattles_effect now k req db :
  cattles_effect (cattles db)
    (cattles (run (IdentificationController.createIdentificationRequest now k req) db).1).
Proof. exec; rewrite_frames; by apply cattles_same. Qed.

Lemma start_cattles_effect now req db :
  cattles_effect (cattles db)
    (cattles (run (IdentificationController.startProcessingRequest now req) db).1).
Proof. exec; rewrite_frames; by apply cattles_same. Qed.

Lemma fail_cattles_effect now req db :
  cattles_effect (cattles db)
    (cattles (run (IdentificationController.failIdentificationRequest now req) db).1).
Proof. exec; rewrite_frames; by apply cattles_same. Qed.

Lemma complete_cattles_effect now req db :
  cattles_effect (cattles db)
    (cattles (run (IdentificationController.completeIdentificationRequest now req) db).1).
Proof.
  exec; rewrite_frames; try (by apply cattles_same).
  all: eapply cattles_update; [eassumption| |reflexivity].
  all: split; [done|]; intros [? ?]; split; simpl; done.
Qed.
Lemma count_error_nil label n required :
  Upload.count_error label n required = [] → n = required.
Proof.
  unfold Upload.count_error. destruct (Nat.eqb n required) eqn:E; [|done].
  intros _. by apply Nat.eqb_eq.
Qed.

Lemma validation_errors_nil files :
  Upload.validation_errors files = [] →
  Upload.count (Upload.muzzle files) = 3%nat
  ∧ Upload.count (Upload.face files) = 3%nat
  ∧ Upload.count (Upload.left files) = 3%nat
  ∧ Upload.count (Upload.right files) = 3%nat
  ∧ Upload.count (Upload.fullBodyLeft files) = 1%nat
  ∧ Upload.count (Upload.fullBodyRight files) = 1%nat.
Proof.
  unfold Upload.validation_errors. intros E.
  repeat (apply app_eq_nil in E as [?%count_error_nil E]).
  done.
Qed.

Lemma to_images_length now f :
  length (CattleController.to_images now f) = Upload.count f.
Proof. destruct f; simpl; [apply length_map|done]. Qed.

Lemma create_doc_images parsed now random c :
  Cattle.images (CattleCreate.set_deadline parsed (CattleCreate.generate_id now random c))
  = Cattle.images c.
Proof.
  unfold CattleCreate.set_deadline, CattleCreate.generate_id.
  repeat case_match; done.
Qed.

Lemma create_doc_status parsed now random c :
  Cattle.status (CattleCreate.set_deadline parsed (CattleCreate.generate_id now random c))
  = Cattle.status c.
Proof.
  unfold CattleCreate.set_deadline, CattleCreate.generate_id.
  repeat case_match; done.
Qed.

Lemma create_doc_v_status parsed now random c :
  Cattle.v_status (Cattle.verification
    (CattleCreate.set_deadline parsed (CattleCreate.generate_id now random c)))
  = Cattle.v_status (Cattle.verification c).
Proof.
  unfold CattleCreate.set_deadline, CattleCreate.generate_id.
  repeat case_match; done.
Qed.

Lemma fresh_cattle_id db : cattles db !! fresh (dom (cattles db)) = None.
Proof. apply not_elem_of_dom, is_fresh. Qed.

Lemma register_cattles_effect schema env req db :
  cattles_effect (cattles db)
    (cattles (run (CattleController.register_route schema env req) db).1).
Proof.
  exec; rewrite_frames; try (by apply cattles_same).
  all: eapply cattles_insert; [apply fresh_cattle_id| | |reflexivity].
  all: try (split; rewrite ?create_doc_status, ?create_doc_v_status; simpl; done).
  all: match goal with H : Upload.validation_errors _ = [] |- _ =>
         apply validation_errors_nil in H as (?&?&?&?&?&?) end.
  all: unfold images_complete; rewrite create_doc_images; simpl;
       rewrite !to_images_length; done.
Qed.

(** ** Archive and restore *)

(** C8. Archive followed by Restore: the lifecycle status comes back as
    'active' when the verification status is 'approved' and as 'transit'
    otherwise, [archivedAt] and [archivedBy] are cleared, and no other field
    of the document has changed. *)
Theorem archive_restore_roundtrip (c : Cattle.t) (userId : ObjectId) (now : Date) :
  let c' := Cattle.restore (Cattle.archive userId now c) in
  Cattle.status c' =
    (if Cattle.v_status (Cattle.verification c) === "approved"
     then "active" else "transit")
  ∧ Cattle.archivedAt c' = None
  ∧ Cattle.archivedBy c' = None
  ∧ c' = Cattle.set_archived None None (Cattle.set_status (Cattle.status c') c).
Proof.
  unfold Cattle.restore, Cattle.archive; simpl.
  destruct (Cattle.v_status (Cattle.verification c) === "approved"); simpl;
    repeat split; reflexivity.
Qed.

(** The same through the two owner routes: on a cattle of the caller that is
    not archived, both requests are answered 200 and the stored document is
    the restored one. *)
Lemma archive_then_restore_requests now req db c :
  cattles db !! CattleController.o_params_id req = Some c →
  Cattle.owner c = CattleController.o_user_id req →
  Cattle.status c ≠ "archive" →
  let out1 := run (CattleController.archiveCattle now req) db in
  let out2 := run (CattleController.restoreCattle req) out1.1 in
  code out1.2 = 200 ∧ code out2.2 = 200
  ∧ cattles out2.1
    = <[CattleController.o_params_id req :=
          Cattle.restore (Cattle.archive (CattleController.o_user_id req) now c)]>
        (cattles db).
Proof.
  intros Hc Ho Hs.
  assert ((Cattle.status c === "archive") = false) as Hb by by apply String.eqb_neq.
  assert (Cattle_findOne
            (with_owner (CattleController.o_user_id req)
               (by_id (CattleController.o_params_id req))) db = Some c) as Hq.
  { unfold Cattle_findOne, matches. simpl. by rewrite Hc, Ho, Nat.eqb_refl. }
  intros out1 out2.
  assert (out1 = (set_cattles
                    (<[CattleController.o_params_id req :=
                         Cattle.archive (CattleController.o_user_id req) now c]>
                       (cattles db)) db,
                  mkResponse 200 "Cattle moved to archive")) as E1.
  { unfold out1. unfold_handlers. by rewrite Hq, Hb. }
  unfold out2. rewrite E1. split; [done|].
  unfold_handlers. unfold Cattle_findOne, matches. simpl.
  rewrite lookup_insert_eq. simpl. rewrite Ho, Nat.eqb_refl. simpl.
  split; [done|]. by rewrite insert_insert_eq.
Qed.

(** The image-count validation of the first schema accepts every document
    with the required photographs, so the properties below hold under that
    schema as well; on an approved document out of transit it accepts
    nothing else. *)
Lemma image_count_validation_complete c :
  images_complete c → Cattle.image_count_validation c = None.
Proof.
  intros (H1 & H2 & H3 & H4 & H5 & H6). unfold Cattle.image_count_validation,
    Cattle.totalImages.
  rewrite H1, H2, H3, H4, H5, H6. simpl. by destruct (_ && _).
Qed.

Lemma image_count_validation_approved c :
  Cattle.status c ≠ "transit" →
  Cattle.v_status (Cattle.verification c) = "approved" →
  Cattle.image_count_validation c = None →
  images_complete c.
Proof.
  intros Hs Hv. unfold Cattle.image_count_validation.
  assert ((Cattle.status c === "transit") = false) as -> by by apply String.eqb_neq.
  rewrite Hv. simpl.
  repeat (case_match; [discriminate|]). intros _.
  repeat match goal with
         | H : negb (Nat.eqb _ _) = false |- _ =>
             apply negb_false_iff, Nat.eqb_eq in H
         end.
  done.
Qed.

(** ** Region scoping of the verification handlers *)

Section RegionScoping.
Import AdminController.

Lemma run_bind_read {A} (f : Db → A) (k : A → Handler Response) db :
  run (read f ≫= k) db = run (k (f db)) db.
Proof. reflexivity. Qed.

Lemma stops_bind {A B} codes (m : Handler A) (k : A → Handler B) :
  stops_with codes m → (∀ a, stops_with codes (k a)) → stops_with codes (m ≫= k).
Proof.
  intros Hm Hk db. unfold mbind, handler_bind.
  specialize (Hm db). destruct (m db) as [db1 [r|a]]; simpl in *; [done|].
  apply Hk.
Qed.

Lemma answers_bind {A} codes (m : Handler A) (k : A → Handler Response) :
  stops_with codes m → (∀ a, answers_with codes (k a)) → answers_with codes (m ≫= k).
Proof.
  intros Hm Hk db. unfold run, mbind, handler_bind.
  specialize (Hm db). destruct (m db) as [db1 [r|a]]; simpl in *; [done|].
  apply Hk.
Qed.

Lemma answers_respond codes c msg : In c codes → answers_with codes (respond c msg).
Proof. intros H db. exact H. Qed.

Lemma stops_respond {A} codes c msg : In c codes → stops_with codes (respond (A:=A) c msg).
Proof. intros H db. exact H. Qed.

Lemma stops_read {A} codes (f : Db → A) : stops_with codes (read f).
Proof. done. Qed.

Lemma stops_write codes f : stops_with codes (write f).
Proof. done. Qed.

Lemma stops_notify codes n : In 400 codes → stops_with codes (notify n).
Proof. intros H db. unfold notify. by destruct (Notification.validate n). Qed.

Lemma stops_Admin_save codes id a : In 500 codes → stops_with codes (Admin_save id a).
Proof. intros H db. unfold Admin_save. by destruct (Admin.pre_save a). Qed.

Lemma stops_update_statistics codes id f :
  In 500 codes → stops_with codes (update_statistics id f).
Proof.
  intros H db. unfold update_statistics.
  destruct (admins db !! id); [by apply stops_Admin_save|done].
Qed.

Lemma stops_populated_owner codes c : In 500 codes → stops_with codes (populated_owner c).
Proof.
  intros H db. unfold populated_owner. by destruct (users db !! Cattle.owner c).
Qed.

Lemma stops_for_each {A} codes (body : A → Handler unit) l :
  (∀ x, stops_with codes (body x)) → stops_with codes (for_each l body).
Proof.
  intros Hb. induction l as [|x l IH]; [done|]. simpl. by apply stops_bind.
Qed.

Ltac solve_answers :=
  repeat first
    [ apply answers_bind; [|intros]
    | apply stops_bind; [|intros]
    | apply stops_for_each; intros; unfold notify_m_admin
    | apply answers_respond; simpl; tauto
    | apply stops_respond; simpl; tauto
    | apply stops_read | apply stops_write
    | apply stops_notify; simpl; tauto
    | apply stops_Admin_save; simpl; tauto
    | apply stops_update_statistics; simpl; tauto
    | apply stops_populated_owner; simpl; tauto ].

(** Once its query has found the cattle, a handler stores the transition
    first; what follows writes to the administrators and the notifications
    only, and answers 200, the 400 of a refused notification, or 500. *)
Lemma handler_found op now req db c :
  (needs_reason op = true → falsy (body_reason req) = false) →
  Cattle_findOne (scoped_query (required_status op) (scoped_role op) req) db = Some c →
  let out := run (handler op now req) db in
  cattles out.1 = <[params_id req := transition op req now c]> (cattles db)
  ∧ In (code out.2) [200; 400; 500].
Proof.
  intros Hreason Hq. split.
  - destruct op; cbn [needs_reason required_status scoped_role transition] in *;
      unfold_handlers; rewrite ?Hreason by done; rewrite Hq;
      repeat (first [frame_loop | case_match]; simplify_eq/=);
      by rewrite_frames.
  - destruct op; cbn [handler needs_reason required_status scoped_role] in *;
      unfold forwardCattleToMAdmin, denyCattleByRegionalAdmin,
        approveCattleByMAdmin, rejectCattleByMAdmin;
      rewrite ?Hreason by reflexivity; cbv zeta;
      rewrite run_bind_read, Hq;
      match goal with
      | |- In (code (run ?h ?d).2) ?codes =>
          cut (answers_with codes h); [intros Hans; apply Hans|]
      end;
      solve_answers.
Qed.

(** Approve and Reject, whose notifications the schema accepts, run to
    their end when the owner and the caller are stored. *)
Lemma handler_decides op now req db c :
  op = Approve ∨ op = Reject →
  (needs_reason op = true → falsy (body_reason req) = false) →
  Cattle_findOne (scoped_query (required_status op) (scoped_role op) req) db = Some c →
  is_Some (users db !! Cattle.owner c) →
  admins db !! user_id req = Some (user req) →
  Admin.pre_save (user req) = None →
  (run (handler op now req) db).2 = ok_response op.
Proof.
  intros Hop Hreason Hq [u Hu] Ha Hp.
  destruct Hop as [-> | ->];
    cbn [handler required_status scoped_role ok_response needs_reason] in *;
    unfold approveCattleByMAdmin, rejectCattleByMAdmin;
    rewrite ?Hreason by reflexivity; cbv zeta; unfold run;
    rewrite bind_read, Hq; erewrite bind_ok by apply Cattle_save_ok;
    (erewrite bind_ok by (apply update_statistics_ok; [exact Ha|exact Hp]));
    (erewrite bind_ok by (eapply populated_owner_ok; cbn in *; exact Hu));
    (erewrite bind_ok by (by apply notify_valid));
    reflexivity.
Qed.

Lemma truthy_reason (reason : option string) :
  falsy reason = false → Some (default "" reason) = reason.
Proof. by destruct reason. Qed.

Lemma adminOnly_admin req u db :
  RoleMiddleware.userType req = Some "admin" →
  RoleMiddleware.user req = Some u →
  RoleMiddleware.p_role u = "super_admin" ∨ RoleMiddleware.p_role u = "regional_admin" →
  RoleMiddleware.adminOnly req db = (db, inr tt).
Proof.
  intros Ht Hu Hr.
  unfold RoleMiddleware.adminOnly, RoleMiddleware.userType_is, RoleMiddleware.the_user.
  rewrite Ht, Hu. simpl. unfold mbind, handler_bind. simpl.
  by destruct Hr as [-> | ->].
Qed.

Lemma regionalAdminOnly_other req u db :
  RoleMiddleware.userType req = Some "admin" →
  RoleMiddleware.user req = Some u →
  RoleMiddleware.p_role u ≠ "regional_admin" →
  RoleMiddleware.regionalAdminOnly req db
  = (db, inl (mkResponse 403
                "This resource is only accessible to regional administrators")).
Proof.
  intros Ht Hu Hr.
  unfold RoleMiddleware.regionalAdminOnly, RoleMiddleware.userType_is,
    RoleMiddleware.the_user.
  rewrite Ht, Hu. simpl. unfold mbind, handler_bind. simpl.
  apply String.eqb_neq in Hr. by rewrite Hr.
Qed.

(** C7 (as amended). A handler invoked by the region-scoped administrator
    of its tier (a regional admin for Forward and Deny, an M_Admin for
    Approve and Reject) on a stored cattle located outside the caller's
    assigned region changes nothing: Deny and Reject without a reason
    answer 400 before any look-up; otherwise the answer is 404, a not-found
    error and not an authorization error.

    No handler filters a super admin by region: on a cattle in the state
    the operation starts from, wherever it is located, and with the reason
    Deny and Reject require, the answer is not 404 and the transition is
    stored under the cattle's id.  Forward stores the verification status
    'forwarded_to_m_admin', Deny 'denied_by_regional' with the reason, both
    with the caller as the reviewer at the time of the call; Approve stores
    'approved' with the lifecycle status 'active' and no temporary id,
    Reject 'rejected' with the reason, both with the caller as the verifier
    at the time of the call; owner and location are kept.  Approve and
    Reject then answer 200 when the owner and the caller are stored.

    On the mounted routes Forward and Deny are reserved to regional admins:
    [regionalAdminOnly] answers a super admin 403, whatever guard stands
    for the [mAdminOnly] of the other two routes. *)
Theorem region_scoping (mAdminOnly : RoleMiddleware.Req → Handler unit)
    op now req db c :
  cattles db !! params_id req = Some c →
  (Admin.role (user req) = scoped_role op →
   Admin.assignedRegion_state (user req) ≠ Some (Cattle.state (Cattle.location c)) →
   if needs_reason op && falsy (body_reason req)
   then run (handler op now req) db
        = (db, mkResponse 400
                 match op with
                 | Deny => "Denial reason is required"
                 | _ => "Rejection reason is required"
                 end)
   else run (handler op now req) db = (db, not_found_response op)
        ∧ code (not_found_response op) = 404
        ∧ error_kind (not_found_response op) = Some NotFoundError)
  ∧ (Admin.role (user req) = "super_admin" →
     (Cattle.v_status (Cattle.verification c) = required_status op →
      (needs_reason op = true → falsy (body_reason req) = false) →
      let out := run (handler op now req) db in
      code out.2 ≠ 404
      ∧ (∃ c', cattles out.1 !! params_id req = Some c'
           ∧ Cattle.owner c' = Cattle.owner c
           ∧ Cattle.location c' = Cattle.location c
           ∧ match op with
             | Forward =>
                 Cattle.v_status (Cattle.verification c') = "forwarded_to_m_admin"
                 ∧ Cattle.reviewedByRegionalAdmin (Cattle.verification c')
                   = Some (user_id req)
                 ∧ Cattle.regionalReviewedAt (Cattle.verification c') = Some now
                 ∧ Cattle.forwardedToMAdminAt (Cattle.verification c') = Some now
                 ∧ Cattle.status c' = Cattle.status c
             | Deny =>
                 Cattle.v_status (Cattle.verification c') = "denied_by_regional"
                 ∧ Cattle.reviewedByRegionalAdmin (Cattle.verification c')
                   = Some (user_id req)
                 ∧ Cattle.regionalReviewedAt (Cattle.verification c') = Some now
                 ∧ Cattle.regionalDenialReason (Cattle.verification c')
                   = body_reason req
                 ∧ Cattle.status c' = Cattle.status c
             | Approve =>
                 Cattle.v_status (Cattle.verification c') = "approved"
                 ∧ Cattle.verifiedBy (Cattle.verification c') = Some (user_id req)
                 ∧ Cattle.verifiedAt (Cattle.verification c') = Some now
                 ∧ Cattle.status c' = "active"
                 ∧ Cattle.temporaryId c' = None
             | Reject =>
                 Cattle.v_status (Cattle.verification c') = "rejected"
                 ∧ Cattle.verifiedBy (Cattle.verification c') = Some (user_id req)
                 ∧ Cattle.verifiedAt (Cattle.verification c') = Some now
                 ∧ Cattle.rejectionReason (Cattle.verification c') = body_reason req
                 ∧ Cattle.status c' = Cattle.status c
             end)
      ∧ (is_Some (users db !! Cattle.owner c) →
         admins db !! user_id req = Some (user req) →
         match op with
         | Approve => out.2 = mkResponse 200 "Cattle approved successfully"
         | Reject => out.2 = mkResponse 200 "Cattle rejected successfully"
         | Forward | Deny => True
         end))
     ∧ ∀ rreq,
         AdminRoutes.request rreq = req →
         AdminRoutes.userType rreq = Some "admin" →
         op = Forward ∨ op = Deny →
         run (AdminRoutes.route mAdminOnly op now rreq) db
         = (db, mkResponse 403
                  "This resource is only accessible to regional administrators")).
Proof.
  intros Hc. split.
  - intros Hrole Hregion.
    destruct (needs_reason op && falsy (body_reason req)) eqn:E.
    + apply andb_true_iff in E as [Hop Hr].
      destruct op; try discriminate; simpl; unfold run;
        unfold denyCattleByRegionalAdmin, rejectCattleByMAdmin;
        rewrite Hr; reflexivity.
    + split; [|by destruct op].
      apply handler_not_found.
      * intros Hop. rewrite Hop in E. exact E.
      * by eapply findOne_scoped_region.
  - intros Hrole. split.
    + intros Hs Hreason out.
      assert (Cattle_findOne (scoped_query (required_status op) (scoped_role op) req) db
              = Some c) as Hq.
      { apply findOne_unscoped; try done. rewrite Hrole. by destruct op. }
      destruct (handler_found op now req db c Hreason Hq) as [Hcs Hcode].
      fold out in Hcs, Hcode.
      split; [simpl in Hcode; lia|]. split.
      * exists (transition op req now c).
        split; [rewrite Hcs; apply lookup_insert_eq|].
        destruct op; simpl; repeat split;
          apply truthy_reason, Hreason; reflexivity.
      * intros Hu Ha.
        destruct op; try exact I.
        -- apply (handler_decides Approve now req db c); try done; [by left|].
           unfold Admin.pre_save. by rewrite Hrole.
        -- apply (handler_decides Reject now req db c); try done; [by right|].
           unfold Admin.pre_save. by rewrite Hrole.
    + intros rreq <- Ht Hop.
      unfold AdminRoutes.route, run.
      erewrite bind_ok.
      2:{ eapply adminOnly_admin; [exact Ht|reflexivity|by left]. }
      erewrite bind_stop; [reflexivity|].
      assert (AdminRoutes.guard mAdminOnly op = RoleMiddleware.regionalAdminOnly) as ->
        by (by destruct Hop as [-> | ->]).
      eapply regionalAdminOnly_other; [exact Ht|reflexivity|].
      simpl. rewrite Hrole. discriminate.
Qed.

End RegionScoping.

(** The Texas reviewer on the Ohio cattle 10, the super admin on the same
    cattle, and the super admin on the Forward route. *)
Lemma region_scoping_witness :
  run (AdminController.handler AdminController.Forward 1700000100000
         (AdminController.mkReq 100 Sample.texas_reviewer 10 None)) Sample.db
  = (Sample.db, mkResponse 404 "Cattle not found or already reviewed")
  ∧ (Cattle.v_status ∘ Cattle.verification
       <$> cattles
             (run (AdminController.handler AdminController.Forward 1700000100000
                     (AdminController.mkReq 102 Sample.global_admin 10 None))
                Sample.db).1 !! 10%nat)
    = Some "forwarded_to_m_admin"
  ∧ run (AdminRoutes.route (λ _, mret tt) AdminController.Forward 1700000100000
           (AdminRoutes.mkReq (Some "admin")
              (AdminController.mkReq 102 Sample.global_admin 10 None) None None))
      Sample.db
    = (Sample.db,
       mkResponse 403 "This resource is only accessible to regional administrators").
Proof.
  split; [|split].
  - destruct (region_scoping (λ _, mret tt) AdminController.Forward 1700000100000
                (AdminController.mkReq 100 Sample.texas_reviewer 10 None) Sample.db
                (Sample.cattle 1 "Ohio" "transit" "pending_regional_review") eq_refl)
      as [H _].
    destruct H as [H _]; [reflexivity|simpl; congruence|exact H].
  - destruct (region_scoping (λ _, mret tt) AdminController.Forward 1700000100000
                (AdminController.mkReq 102 Sample.global_admin 10 None) Sample.db
                (Sample.cattle 1 "Ohio" "transit" "pending_regional_review") eq_refl)
      as [_ H].
    destruct (H eq_refl) as [H1 _].
    destruct H1 as (_ & (c' & Hc' & _ & _ & Hv & _) & _);
      [reflexivity|discriminate|].
    cbn [AdminController.params_id] in Hc'. rewrite Hc'. simpl. by rewrite Hv.
  - destruct (region_scoping (λ _, mret tt) AdminController.Forward 1700000100000
                (AdminController.mkReq 102 Sample.global_admin 10 None) Sample.db
                (Sample.cattle 1 "Ohio" "transit" "pending_regional_review") eq_refl)
      as [_ H].
    destruct (H eq_refl) as [_ H2].
    apply H2; [reflexivity|reflexivity|by left].
Defined.

(** C7 as stated fails in three ways.  The Texas reviewer's Deny of the
    Ohio cattle 10 without a reason is answered 400, a validation error and
    not a not-found error.  The region filter of a handler is for the role
    the handler names: the Texas identifier, region-scoped as well, who
    reaches the Forward handler is not filtered, and the Ohio cattle is
    stored as forwarded.  And the super admin's Forward of the same cattle
    through the mounted route is answered 403: the route is reserved to
    regional admins, so the super admin may not act on the record. *)
Lemma scoped_deny_and_global_forward_are_refused :
  let deny :=
    run (AdminController.denyCattleByRegionalAdmin 1700000100000
           (AdminController.mkReq 100 Sample.texas_reviewer 10 None)) Sample.db in
  let other :=
    run (AdminController.forwardCattleToMAdmin 1700000100000
           (AdminController.mkReq 101 Sample.texas_identifier 10 None)) Sample.db in
  let forward :=
    run (AdminRoutes.route (λ _, mret tt) AdminController.Forward 1700000100000
           (AdminRoutes.mkReq (Some "admin")
              (AdminController.mkReq 102 Sample.global_admin 10 None) None None))
      Sample.db in
  Admin.role Sample.texas_reviewer = "regional_admin"
  ∧ Admin.assignedRegion_state Sample.texas_reviewer = Some "Texas"
  ∧ (Cattle.state ∘ Cattle.location <$> cattles Sample.db !! 10%nat) = Some "Ohio"
  ∧ deny = (Sample.db, mkResponse 400 "Denial reason is required")
  ∧ error_kind deny.2 = Some ValidationError
  ∧ error_kind deny.2 ≠ Some NotFoundError
  ∧ Admin.role Sample.texas_identifier = "m_admin"
  ∧ Admin.assignedRegion_state Sample.texas_identifier = Some "Texas"
  ∧ (Cattle.v_status ∘ Cattle.verification <$> cattles other.1 !! 10%nat)
    = Some "forwarded_to_m_admin"
  ∧ error_kind other.2 ≠ Some NotFoundError
  ∧ Admin.role Sample.global_admin = "super_admin"
  ∧ forward
    = (Sample.db,
       mkResponse 403 "This resource is only accessible to regional administrators")
  ∧ error_kind forward.2 = Some AuthorizationError
  ∧ cattles forward.1 = cattles Sample.db.
Proof. vm_compute. repeat split; congruence. Qed.

(** The region filter belongs to the tier of the operation: a caller of
    another role that reaches a handler is not filtered, and the cattle is
    stored as forwarded.  The answer is then the 400 of the notification,
    whose type the Notification schema does not list. *)
Lemma other_tier_is_not_filtered :
  let req := AdminController.mkReq 101 Sample.texas_identifier 10 None in
  let out := run (AdminController.forwardCattleToMAdmin 1700000100000 req) Sample.db in
  out.2 = mkResponse 400
            "`cattle_forwarded_to_m_admin` is not a valid enum value for path `type`."
  ∧ Cattle.v_status ∘ Cattle.verification <$> cattles out.1 !! 10%nat
    = Some "forwarded_to_m_admin".
Proof. by vm_compute. Qed.

(** [adminOnly], which every route of the router runs first, lists the
    regional and the super admin only: an M_Admin that [protect] let
    through is answered 403 on the four routes, whatever the guard of
    Approve and Reject. *)
Lemma identifier_is_refused_by_adminOnly mAdminOnly op now rreq db :
  AdminRoutes.userType rreq = Some "admin" →
  Admin.role (AdminController.user (AdminRoutes.request rreq)) = "m_admin" →
  run (AdminRoutes.route mAdminOnly op now rreq) db
  = (db, mkResponse 403 "Admin access required").
Proof.
  intros Ht Hr. unfold AdminRoutes.route, run.
  erewrite bind_stop; [reflexivity|].
  unfold RoleMiddleware.adminOnly, RoleMiddleware.userType_is, RoleMiddleware.the_user.
  simpl. rewrite Ht. simpl. unfold mbind, handler_bind. simpl. by rewrite Hr.
Qed.

(** ** Lifecycle status against verification status *)

Lemma serve_cattles_effect schema r db :
  cattles_effect (cattles db) (cattles (serve schema r db).1).
Proof.
  destruct r; simpl.
  - apply register_cattles_effect.
  - apply verify_cattles_effect.
  - apply archive_cattles_effect.
  - apply restore_cattles_effect.
  - apply delete_cattles_effect.
  - apply initiate_cattles_effect.
  - apply accept_cattles_effect.
  - apply reject_cattles_effect.
  - apply cancel_cattles_effect.
  - by apply cattles_same.
  - apply identify_cattles_effect.
  - apply start_cattles_effect.
  - apply complete_cattles_effect.
  - apply fail_cattles_effect.
  - exec; rewrite_frames; by apply cattles_same.
  - by apply cattles_same.
Qed.

Lemma cattle_invariant_effect db db' :
  cattles_effect (cattles db) (cattles db') →
  cattle_invariant db → cattle_invariant db'.
Proof.
  intros Heff Hinv id c Hc.
  destruct Heff as [E|i c0 c' Hi [Himg Hlc] E|i c' Hi Hlc Himg E|i E];
    rewrite E in Hc.
  - by apply (Hinv id).
  - destruct (decide (i = id)) as [->|Hne].
    + rewrite lookup_insert_eq in Hc. injection Hc as <-.
      destruct (Hinv id c0 Hi) as [H1 H2]. split; [by apply Hlc|].
      unfold images_complete in *. by rewrite Himg.
    + rewrite lookup_insert_ne in Hc by done. by apply (Hinv id).
  - destruct (decide (i = id)) as [->|Hne].
    + rewrite lookup_insert_eq in Hc. by injection Hc as <-.
    + rewrite lookup_insert_ne in Hc by done. by apply (Hinv id).
  - destruct (decide (i = id)) as [->|Hne].
    + by rewrite lookup_delete_eq in Hc.
    + rewrite lookup_delete_ne in Hc by done. by apply (Hinv id).
Qed.

Lemma cattle_invariant_serve schema r db :
  cattle_invariant db → cattle_invariant (serve schema r db).1.
Proof. apply cattle_invariant_effect, serve_cattles_effect. Qed.

Lemma images_complete_total c :
  images_complete c → Cattle.totalImages c = 14%nat.
Proof.
  intros (H1 & H2 & H3 & H4 & H5 & H6). unfold Cattle.totalImages.
  by rewrite H1, H2, H3, H4, H5, H6.
Qed.

Lemma sample_db_invariant : cattle_invariant Sample.db.
Proof.
  intros id c Hc. apply elem_of_map_to_list in Hc.
  vm_compute in Hc.
  repeat (apply elem_of_cons in Hc as [[= -> ->]|Hc]; [vm_compute; intuition discriminate|]).
  by apply elem_of_nil in Hc.
Qed.

(** C6 (as amended). Along every sequence of requests, starting from a
    registry whose cattle have the required 3/3/3/3/1/1 photographs and a
    lifecycle status consistent with their verification status: a cattle
    whose lifecycle status is 'active' has verification status 'approved';
    a cattle whose verification status is 'approved' has lifecycle status
    'active' or 'archive' (archiving keeps the approval); and the
    photographs stay 3 muzzle, 3 face, 3 left, 3 right, 1 fullBodyLeft and
    1 fullBodyRight, 14 in total.  The schema may have any
    [verification.status] enum. *)
Theorem approved_iff_active_or_archived schema db0 db :
  cattle_invariant db0 →
  reachable schema db0 db →
  ∀ id c, cattles db !! id = Some c →
    (Cattle.status c = "active" → Cattle.v_status (Cattle.verification c) = "approved")
    ∧ (Cattle.v_status (Cattle.verification c) = "approved" →
       Cattle.status c = "active" ∨ Cattle.status c = "archive")
    ∧ images_complete c
    ∧ Cattle.totalImages c = 14%nat.
Proof.
  intros H0 Hreach.
  assert (cattle_invariant db) as Hinv.
  { induction Hreach as [|db r _ IH]; [done|]. by apply cattle_invariant_serve. }
  intros id c Hc. destruct (Hinv id c Hc) as [[H1 H2] H3].
  split; [done|]. split; [done|]. split; [done|]. by apply images_complete_total.
Qed.

(** The super admin approves cattle 12, then its owner archives it. *)
Lemma approved_iff_active_or_archived_witness :
  let approve :=
    Verify AdminController.Approve 1700000100000
      (AdminController.mkReq 102 Sample.global_admin 12 None) in
  let archive := Archive 1700000200000 (CattleController.mkOwnerReq 2 12) in
  let db1 := (serve CattleCreate.current_schema approve Sample.db).1 in
  let db2 := (serve CattleCreate.current_schema archive db1).1 in
  ∃ c, cattles db2 !! 12%nat = Some c
    ∧ (Cattle.status c = "active" → Cattle.v_status (Cattle.verification c) = "approved")
    ∧ (Cattle.v_status (Cattle.verification c) = "approved" →
       Cattle.status c = "active" ∨ Cattle.status c = "archive")
    ∧ images_complete c
    ∧ Cattle.totalImages c = 14%nat.
Proof.
  intros approve archive db1 db2.
  eexists. split; [vm_compute; reflexivity|].
  apply (approved_iff_active_or_archived CattleCreate.current_schema
           Sample.db db2 sample_db_invariant
           (reachable_step _ _ _ archive
              (reachable_step _ _ _ approve (reachable_refl _ _)))
           12%nat).
  vm_compute. reflexivity.
Defined.

(** C6 as stated fails from left to right: after the approval of cattle 12
    and its archiving by the owner, the verification status is 'approved',
    all 14 photographs are there, and the lifecycle status is 'archive',
    not 'active'. *)
Lemma approved_cattle_archived_is_not_active :
  let approve :=
    Verify AdminController.Approve 1700000100000
      (AdminController.mkReq 102 Sample.global_admin 12 None) in
  let archive := Archive 1700000200000 (CattleController.mkOwnerReq 2 12) in
  let db1 := (serve CattleCreate.current_schema approve Sample.db).1 in
  let db2 := (serve CattleCreate.current_schema archive db1).1 in
  ∃ c, cattles db2 !! 12%nat = Some c
    ∧ Cattle.v_status (Cattle.verification c) = "approved"
    ∧ Cattle.totalImages c = 14%nat
    ∧ Cattle.status c = "archive"
    ∧ Cattle.status c ≠ "active".
Proof.
  vm_compute. eexists. split; [reflexivity|]. repeat split; congruence.
Qed.

(** ** At most one pending transfer per cattle *)

Lemma pending_for_nil cattle db j u :
  TransferFlow.pending_for cattle db = [] →
  transfers db !! j = Some u → Transfer.status u = "pending" →
  Transfer.cattle u ≠ cattle.
Proof.
  unfold TransferFlow.pending_for. intros Hnil Hj Hs Hc.
  apply elem_of_map_to_list in Hj.
  assert ((j, u) ∈ List.filter
            (λ '(_, t), Nat.eqb (Transfer.cattle t) cattle
                        && (Transfer.status t === "pending"))
            (map_to_list (transfers db))) as Hin.
  { apply list_elem_of_In, filter_In. split; [by apply list_elem_of_In|].
    rewrite Hc, Hs, Nat.eqb_refl. done. }
  rewrite Hnil in Hin. by apply elem_of_nil in Hin.
Qed.

Lemma pending_for_cons cattle db x l :
  TransferFlow.pending_for cattle db = x :: l →
  transfers db !! x.1 = Some x.2
  ∧ Transfer.cattle x.2 = cattle ∧ Transfer.status x.2 = "pending".
Proof.
  unfold TransferFlow.pending_for. intros Hl.
  assert (In x (List.filter
            (λ '(_, t), Nat.eqb (Transfer.cattle t) cattle
                        && (Transfer.status t === "pending"))
            (map_to_list (transfers db)))) as Hin by (rewrite Hl; by left).
  apply filter_In in Hin as [Hin Hp]. destruct x as [j u]. simpl.
  apply list_elem_of_In, elem_of_map_to_list in Hin.
  apply andb_true_iff in Hp as [?%Nat.eqb_eq ?%String.eqb_eq]. done.
Qed.

Lemma find_pending_Some id party user db t :
  TransferFlow.find_pending id party user db = Some t →
  transfers db !! id = Some t ∧ party t = user ∧ Transfer.status t = "pending".
Proof.
  unfold TransferFlow.find_pending.
  destruct (transfers db !! id) as [t'|]; [|done].
  destruct (Nat.eqb (party t') user && (Transfer.status t' === "pending")) eqn:E;
    [|done].
  intros [= <-]. apply andb_true_iff in E as [?%Nat.eqb_eq ?%String.eqb_eq]. done.
Qed.

Lemma fresh_transfer_id db : transfers db !! fresh (dom (transfers db)) = None.
Proof. apply not_elem_of_dom, is_fresh. Qed.

Lemma initiate_transfers_effect now req db :
  transfers_effect (transfers db)
    (transfers (run (TransferFlow.initiateCattleTransfer now req) db).1).
Proof.
  exec; rewrite_frames; try (by apply transfers_same).
  eapply transfers_create; [apply fresh_transfer_id| |reflexivity].
  intros j u Hj Hs. simpl. by eapply pending_for_nil.
Qed.

Lemma accept_transfers_effect fault now req db :
  transfers_effect (transfers db)
    (transfers (run (TransferFlow.acceptTransferRequest fault now req) db).1).
Proof.
  exec; rewrite_frames; try (by apply transfers_same).
  all: match goal with H : TransferFlow.find_pending _ _ _ _ = Some _ |- _ =>
         apply find_pending_Some in H as (Ht & _ & _) end.
  all: by eapply transfers_settle; [exact Ht| |reflexivity].
Qed.

Lemma reject_transfers_effect now req db :
  transfers_effect (transfers db)
    (transfers (run (TransferFlow.rejectTransferRequest now req) db).1).
Proof.
  exec; rewrite_frames; try (by apply transfers_same).
  all: match goal with H : TransferFlow.find_pending _ _ _ _ = Some _ |- _ =>
         apply find_pending_Some in H as (Ht & _ & _) end.
  all: by eapply transfers_settle; [exact Ht| |reflexivity].
Qed.

Lemma cancel_transfers_effect now req db :
  transfers_effect (transfers db)
    (transfers (run (TransferFlow.cancelTransferRequest now req) db).1).
Proof.
  exec; rewrite_frames; try (by apply transfers_same).
  all: match goal with H : TransferFlow.find_pending _ _ _ _ = Some _ |- _ =>
         apply find_pending_Some in H as (Ht & _ & _) end.
  all: by eapply transfers_settle; [exact Ht| |reflexivity].
Qed.

Lemma serve_transfers_effect schema r db :
  transfers_effect (transfers db) (transfers (serve schema r db).1).
Proof.
  destruct r; simpl.
  - exec; rewrite_frames; by apply transfers_same.
  - destruct op; exec; rewrite_frames; by apply transfers_same.
  - exec; rewrite_frames; by apply transfers_same.
  - exec; rewrite_frames; by apply transfers_same.
  - exec; rewrite_frames; by apply transfers_same.
  - apply initiate_transfers_effect.
  - apply accept_transfers_effect.
  - apply reject_transfers_effect.
  - apply cancel_transfers_effect.
  - by eapply transfers_expire.
  - exec; rewrite_frames; by apply transfers_same.
  - exec; rewrite_frames; by apply transfers_same.
  - exec; rewrite_frames; by apply transfers_same.
  - exec; rewrite_frames; by apply transfers_same.
  - exec; rewrite_frames; by apply transfers_same.
  - by apply transfers_same.
Qed.

Lemma expire_pending now t :
  Transfer.status (TransferFlow.expire now t) = "pending" →
  Transfer.status t = "pending".
Proof. unfold TransferFlow.expire. by destruct (Transfer.isExpired now t). Qed.

Lemma expire_cattle now t :
  Transfer.cattle (TransferFlow.expire now t) = Transfer.cattle t.
Proof. unfold TransferFlow.expire. by destruct (Transfer.isExpired now t). Qed.

Lemma at_most_one_pending_effect db db' :
  transfers_effect (transfers db) (transfers db') →
  at_most_one_pending db → at_most_one_pending db'.
Proof.
  intros Heff Hinv i j t u Hi Hj Hti Htj Hc.
  destruct Heff as [E|k t0 t' Hk Hs E|k t' Hk Hfree E|now E];
    rewrite E in Hi, Hj.
  - by eapply Hinv.
  - destruct (decide (k = i)) as [->|Hki].
    { rewrite lookup_insert_eq in Hi. by injection Hi as <-. }
    destruct (decide (k = j)) as [->|Hkj].
    { rewrite lookup_insert_eq in Hj. by injection Hj as <-. }
    rewrite lookup_insert_ne in Hi, Hj by done. by eapply Hinv.
  - destruct (decide (k = i)) as [Eki|Hki]; destruct (decide (k = j)) as [Ekj|Hkj];
      [congruence| | |].
    + subst k. rewrite lookup_insert_eq in Hi. injection Hi as <-.
      rewrite lookup_insert_ne in Hj by done.
      by destruct (Hfree j u Hj Htj).
    + subst k. rewrite lookup_insert_eq in Hj. injection Hj as <-.
      rewrite lookup_insert_ne in Hi by done.
      by destruct (Hfree i t Hi Hti).
    + rewrite lookup_insert_ne in Hi, Hj by done. by eapply Hinv.
  - rewrite lookup_fmap in Hi, Hj.
    destruct (transfers db !! i) as [t0|] eqn:Ei; [|done].
    destruct (transfers db !! j) as [u0|] eqn:Ej; [|done].
    simpl in Hi, Hj. injection Hi as <-. injection Hj as <-.
    rewrite !expire_cattle in Hc.
    eapply Hinv; eauto using expire_pending.
Qed.

Lemma at_most_one_pending_serve schema r db :
  at_most_one_pending db → at_most_one_pending (serve schema r db).1.
Proof. apply at_most_one_pending_effect, serve_transfers_effect. Qed.

(** Initiate on a cattle that already has a pending transfer. *)
Lemma initiate_refused now req db c u x l :
  Cattle_findOne
    (with_status "active"
       (with_owner (TransferFlow.i_user_id req) (by_id (TransferFlow.i_params_id req))))
    db = Some c →
  users db !! TransferFlow.i_toOwnerId req = Some u →
  TransferFlow.pending_for (TransferFlow.i_params_id req) db = x :: l →
  run (TransferFlow.initiateCattleTransfer now req) db
  = (db, mkResponse 400 "There is already a pending transfer request for this cattle").
Proof.
  intros Hc Hu Hp. unfold_handlers. by rewrite Hc, Hu, Hp.
Qed.

Lemma active_owner_query uid id db c :
  cattles db !! id = Some c → Cattle.owner c = uid → Cattle.status c = "active" →
  Cattle_findOne (with_status "active" (with_owner uid (by_id id))) db = Some c.
Proof.
  intros Hc Ho Hs. unfold Cattle_findOne, matches. simpl.
  by rewrite Hc, Ho, Hs, Nat.eqb_refl.
Qed.

Lemma active_owner_query_inv uid id db c :
  Cattle_findOne (with_status "active" (with_owner uid (by_id id))) db = Some c →
  cattles db !! id = Some c ∧ Cattle.owner c = uid ∧ Cattle.status c = "active".
Proof.
  intros [Hc Hm]%Cattle_findOne_Some. split; [done|].
  unfold matches in Hm. simpl in Hm.
  repeat (apply andb_true_iff in Hm as [Hm ?]).
  split; [by apply Nat.eqb_eq|by apply String.eqb_eq].
Qed.

Lemma initiate_not_owned now req db :
  Cattle_findOne
    (with_status "active"
       (with_owner (TransferFlow.i_user_id req) (by_id (TransferFlow.i_params_id req))))
    db = None →
  run (TransferFlow.initiateCattleTransfer now req) db
  = (db, mkResponse 404 "Cattle not found or cannot be transferred").
Proof. intros Hc. unfold_handlers. by rewrite Hc. Qed.

Lemma initiate_no_receiver now req db c :
  Cattle_findOne
    (with_status "active"
       (with_owner (TransferFlow.i_user_id req) (by_id (TransferFlow.i_params_id req))))
    db = Some c →
  users db !! TransferFlow.i_toOwnerId req = None →
  run (TransferFlow.initiateCattleTransfer now req) db
  = (db, mkResponse 404 "New owner not found").
Proof. intros Hc Hu. unfold_handlers. by rewrite Hc, Hu. Qed.

Lemma userOnly_farmer req db :
  RoleMiddleware.userType req = Some "user" →
  (∃ u, RoleMiddleware.user req = Some u ∧ RoleMiddleware.p_role u = "user") →
  RoleMiddleware.userOnly req db = (db, inr tt).
Proof.
  intros Ht (u & Hu & Hr).
  unfold RoleMiddleware.userOnly, RoleMiddleware.userType_is, RoleMiddleware.the_user.
  rewrite Ht, Hu. simpl. unfold mbind, handler_bind. simpl. by rewrite Hr.
Qed.

Lemma userOnly_other req u db :
  RoleMiddleware.user req = Some u →
  ¬ (RoleMiddleware.userType req = Some "user" ∧ RoleMiddleware.p_role u = "user") →
  RoleMiddleware.userOnly req db
  = (db, inl (mkResponse 403
                "This resource is only accessible to registered users/farmers")).
Proof.
  intros Hu Hn.
  unfold RoleMiddleware.userOnly, RoleMiddleware.userType_is, RoleMiddleware.the_user.
  rewrite Hu.
  destruct (RoleMiddleware.userType req) as [t|]; [|done].
  destruct (t === "user") eqn:Et; [|done].
  apply String.eqb_eq in Et as ->. simpl. unfold mbind, handler_bind. simpl.
  destruct (RoleMiddleware.p_role u === "user") eqn:Er; [|done].
  apply String.eqb_eq in Er. destruct Hn. done.
Qed.

Lemma checkOwnership_cattle req id c u db :
  RoleMiddleware.userType req = Some "user" →
  RoleMiddleware.params_id req = Some id →
  RoleMiddleware.user req = Some u →
  cattles db !! id = Some c →
  RoleMiddleware.checkOwnership "cattle" req db
  = (db, if Nat.eqb (Cattle.owner c) (RoleMiddleware.p_id u) then inr tt
         else inl (mkResponse 403 "You do not have permission to access this cattle")).
Proof.
  intros Ht Hid Hu Hc.
  unfold RoleMiddleware.checkOwnership, RoleMiddleware.userType_is.
  rewrite Ht, Hid, Hu. simpl. unfold mbind, handler_bind, read. rewrite Hc.
  by destruct (Nat.eqb _ _).
Qed.

Lemma validateTransferRequest_spec rreq db :
  let req := TransferRoutes.request rreq in
  let valid :=
    is_Some (TransferRoutes.body_cattleId rreq)
    ∧ (∀ s, TransferFlow.i_transferType req = Some s →
            In s TransferFlow.transferType_enum)
    ∧ (∀ p, TransferFlow.i_price req = Some p → 0 ≤ p) in
  (valid → TransferRoutes.validateTransferRequest rreq db = (db, inr tt))
  ∧ (¬ valid →
     TransferRoutes.validateTransferRequest rreq db
     = (db, inl (mkResponse 400 "Validation failed"))).
Proof.
  intros req valid. unfold TransferRoutes.validateTransferRequest. fold req.
  assert (valid ↔
          bool_decide (is_Some (TransferRoutes.body_cattleId rreq))
          && match TransferFlow.i_transferType req with
             | Some s => CattleCreate.in_enum TransferFlow.transferType_enum s
             | None => true
             end
          && match TransferFlow.i_price req with
             | Some p => 0 <=? p
             | None => true
             end = true) as Hv.
  { assert ((∀ s, TransferFlow.i_transferType req = Some s →
                 In s TransferFlow.transferType_enum)
            ↔ match TransferFlow.i_transferType req with
              | Some s => CattleCreate.in_enum TransferFlow.transferType_enum s
              | None => true
              end = true) as Ht.
    { destruct (TransferFlow.i_transferType req) as [s|]; [|by split].
      unfold CattleCreate.in_enum. rewrite existsb_exists. split.
      - intros H. exists s. split; [by apply H|apply String.eqb_refl].
      - intros (x & Hin & ->%String.eqb_eq) ? [= <-]. exact Hin. }
    assert ((∀ p, TransferFlow.i_price req = Some p → 0 ≤ p)
            ↔ match TransferFlow.i_price req with
              | Some p => 0 <=? p
              | None => true
              end = true) as Hp.
    { destruct (TransferFlow.i_price req) as [p|]; [|by split].
      rewrite Z.leb_le. split; [by intros H; apply H|by intros H ? [= <-]]. }
    unfold valid. rewrite !andb_true_iff, bool_decide_eq_true, <- Ht, <- Hp. tauto. }
  split.
  - intros H. apply Hv in H. by rewrite H.
  - intros H. destruct (_ && _ && _) eqn:E; [|done]. by destruct H; apply Hv.
Qed.

(** C2 (as amended). When requests are served one after the other, at most
    one pending transfer request exists per cattle in every reachable state,
    and Initiate on a cattle that already has a pending request fails and
    changes nothing.  The handler answers 404 'Cattle not found or cannot be
    transferred' unless the cattle is stored, active and owned by the
    caller; then 404 'New owner not found' when the new owner does not
    exist; and otherwise 400 'There is already a pending transfer request
    for this cattle'.  On the mounted route the guards answer before the
    handler: 403 to a caller who is not a farmer, 404 'Cattle not found'
    when the cattle is not stored, 403 to a farmer who does not own it, 400
    'Validation failed' for a body the validator refuses; past them the
    answer is the handler's.  The guard against a second pending request is
    the pre-query of the handler alone: the schema declares no unique index,
    and nothing serialises two Initiate requests that interleave. *)
Theorem one_pending_transfer_when_serialised schema db0 db :
  at_most_one_pending db0 →
  reachable schema db0 db →
  at_most_one_pending db
  ∧ ∀ now req j t,
      transfers db !! j = Some t →
      Transfer.cattle t = TransferFlow.i_params_id req →
      Transfer.status t = "pending" →
      let owned :=
        ∃ c, cattles db !! TransferFlow.i_params_id req = Some c
             ∧ Cattle.owner c = TransferFlow.i_user_id req
             ∧ Cattle.status c = "active" in
      (¬ owned →
       serve schema (Initiate now req) db
       = (db, mkResponse 404 "Cattle not found or cannot be transferred"))
      ∧ (owned → users db !! TransferFlow.i_toOwnerId req = None →
         serve schema (Initiate now req) db
         = (db, mkResponse 404 "New owner not found"))
      ∧ (owned → is_Some (users db !! TransferFlow.i_toOwnerId req) →
         serve schema (Initiate now req) db
         = (db, mkResponse 400
                  "There is already a pending transfer request for this cattle"))
      ∧ ∀ rreq,
          TransferRoutes.request rreq = req →
          let answer := run (TransferRoutes.initiate_route now rreq) db in
          let farmer :=
            TransferRoutes.userType rreq = Some "user"
            ∧ TransferRoutes.role rreq = "user" in
          let valid :=
            is_Some (TransferRoutes.body_cattleId rreq)
            ∧ (∀ s, TransferFlow.i_transferType req = Some s →
                    In s TransferFlow.transferType_enum)
            ∧ (∀ p, TransferFlow.i_price req = Some p → 0 ≤ p) in
          (¬ farmer →
           answer = (db, mkResponse 403
                           "This resource is only accessible to registered users/farmers"))
          ∧ (farmer → cattles db !! TransferFlow.i_params_id req = None →
             answer = (db, mkResponse 404 "Cattle not found"))
          ∧ (farmer →
             ∀ c, cattles db !! TransferFlow.i_params_id req = Some c →
                  (Cattle.owner c ≠ TransferFlow.i_user_id req →
                   answer = (db, mkResponse 403
                                   "You do not have permission to access this cattle"))
                  ∧ (Cattle.owner c = TransferFlow.i_user_id req → ¬ valid →
                     answer = (db, mkResponse 400 "Validation failed"))
                  ∧ (Cattle.owner c = TransferFlow.i_user_id req → valid →
                     answer = serve schema (Initiate now req) db)).
Proof.
  intros H0 Hreach. split.
  { induction Hreach as [|db r _ IH]; [done|]. by apply at_most_one_pending_serve. }
  intros now req j t Hj Htc Hts owned.
  split; [|split; [|split]].
  - intros Hn. simpl. apply initiate_not_owned.
    destruct (Cattle_findOne _ db) as [c|] eqn:E; [|done].
    destruct Hn. exists c. by apply active_owner_query_inv.
  - intros (c & Hc & Ho & Hs) Hu. simpl.
    eapply initiate_no_receiver; [by apply active_owner_query|done].
  - intros (c & Hc & Ho & Hs) [u Hu]. simpl.
    destruct (TransferFlow.pending_for (TransferFlow.i_params_id req) db)
      as [|x l] eqn:Hp.
    + by destruct (pending_for_nil _ _ _ _ Hp Hj Hts).
    + eapply initiate_refused; [by apply active_owner_query|done|done].
  - intros rreq <- answer farmer valid.
    unfold answer, TransferRoutes.initiate_route, run.
    split; [|split].
    + intros Hn.
      erewrite bind_stop; [reflexivity|].
      apply (userOnly_other _
               (RoleMiddleware.mkPrincipal
                  (TransferFlow.i_user_id (TransferRoutes.request rreq))
                  (TransferRoutes.role rreq) false None [])); done.
    + intros [Ht Hr] Hc.
      erewrite bind_ok by (apply userOnly_farmer; [done|by eexists]).
      erewrite bind_stop; [reflexivity|].
      unfold RoleMiddleware.checkOwnership, RoleMiddleware.userType_is. simpl.
      rewrite Ht. simpl. unfold mbind, handler_bind, read. by rewrite Hc.
    + intros [Ht Hr] c Hc.
      pose proof (userOnly_farmer (TransferRoutes.guarded rreq) db Ht
                    (ex_intro _ _ (conj eq_refl Hr))) as Hguard.
      pose proof (checkOwnership_cattle (TransferRoutes.guarded rreq) _ c _ db
                    Ht eq_refl eq_refl Hc) as Hown.
      simpl in Hown.
      split; [|split].
      * intros Ho. apply Nat.eqb_neq in Ho. rewrite Ho in Hown.
        erewrite bind_ok by exact Hguard.
        erewrite bind_stop; [reflexivity|exact Hown].
      * intros Ho Hv. apply Nat.eqb_eq in Ho. rewrite Ho in Hown.
        erewrite bind_ok by exact Hguard.
        erewrite bind_ok by exact Hown.
        erewrite bind_stop; [reflexivity|].
        by apply validateTransferRequest_spec.
      * intros Ho Hv. apply Nat.eqb_eq in Ho. rewrite Ho in Hown.
        erewrite bind_ok by exact Hguard.
        erewrite bind_ok by exact Hown.
        erewrite bind_ok by (by apply validateTransferRequest_spec).
        reflexivity.
Qed.

Lemma sample_db_no_transfers : at_most_one_pending Sample.db.
Proof.
  intros i j t u Hi.
  change (transfers Sample.db) with (∅ : gmap nat Transfer.t) in Hi.
  by rewrite lookup_empty in Hi.
Qed.

(** Farmer 1 initiates the transfer of cattle 13, then asks again; farmer 2
    asks for it on the route. *)
Lemma one_pending_transfer_when_serialised_witness :
  let db1 :=
    (serve CattleCreate.current_schema (Initiate 1700000300000 Sample.initiate)
       Sample.db).1 in
  at_most_one_pending db1
  ∧ serve CattleCreate.current_schema (Initiate 1700000400000 Sample.initiate) db1
    = (db1, mkResponse 400 "There is already a pending transfer request for this cattle")
  ∧ run (TransferRoutes.initiate_route 1700000400000
           (TransferRoutes.mkReq (Some "user") "user" (Some 13%nat)
              (TransferFlow.mkInitiateReq 2 13 1 None None None))) db1
    = (db1, mkResponse 403 "You do not have permission to access this cattle").
Proof.
  intros db1.
  destruct (one_pending_transfer_when_serialised CattleCreate.current_schema
              Sample.db db1 sample_db_no_transfers) as [H1 H2].
  - apply reachable_step, reachable_refl.
  - split; [exact H1|]. split.
    + destruct (H2 1700000400000 Sample.initiate 0%nat
                  (TransferFlow.new_transfer 1700000300000 Sample.initiate))
        as (_ & _ & H3 & _); [reflexivity|reflexivity|reflexivity|].
      apply H3.
      * exists (Sample.cattle 1 "Texas" "active" "approved"). by vm_compute.
      * by eexists.
    + destruct (H2 1700000400000 (TransferFlow.mkInitiateReq 2 13 1 None None None)
                  0%nat (TransferFlow.new_transfer 1700000300000 Sample.initiate))
        as (_ & _ & _ & H3); [reflexivity|reflexivity|reflexivity|].
      destruct (H3 (TransferRoutes.mkReq (Some "user") "user" (Some 13%nat)
                      (TransferFlow.mkInitiateReq 2 13 1 None None None)) eq_refl)
        as (_ & _ & H4).
      destruct (H4 (conj eq_refl eq_refl)
                  (Sample.cattle 1 "Texas" "active" "approved") eq_refl) as [H5 _].
      apply H5. discriminate.
Defined.

(** C2 as stated fails under interleaving: two Initiate requests for cattle
    13 both run their pre-query before either creates its document, both
    are answered 201, and the cattle ends with two pending transfer
    requests.  Served one after the other, the second is refused with 400,
    a validation error by its status and not a conflict error. *)
Lemma interleaved_initiates_leave_two_pending :
  let threads :=
    [TransferFlow.Start 1700000300000 Sample.initiate;
     TransferFlow.Start 1700000300001 Sample.initiate] in
  let out := TransferFlow.run_schedule [0; 1; 0; 1]%nat threads Sample.db in
  let first :=
    serve CattleCreate.current_schema (Initiate 1700000300000 Sample.initiate)
      Sample.db in
  let second :=
    serve CattleCreate.current_schema (Initiate 1700000300001 Sample.initiate)
      first.1 in
  at_most_one_pending Sample.db
  ∧ out.2 = [TransferFlow.Answered (mkResponse 201 "Transfer request sent successfully");
             TransferFlow.Answered (mkResponse 201 "Transfer request sent successfully")]
  ∧ pending_count 13 out.1 = 2%nat
  ∧ ¬ at_most_one_pending out.1
  ∧ second.2
    = mkResponse 400 "There is already a pending transfer request for this cattle"
  ∧ error_kind second.2 = Some ValidationError
  ∧ error_kind second.2 ≠ Some ConflictError.
Proof.
  split; [exact sample_db_no_transfers|].
  split; [by vm_compute|]. split; [by vm_compute|].
  split; [|vm_compute; repeat split; congruence].
  intros H.
  specialize (H 0%nat 1%nat
                (TransferFlow.new_transfer 1700000300000 Sample.initiate)
                (TransferFlow.new_transfer 1700000300001 Sample.initiate)).
  assert (0%nat = 1%nat) as E; [|discriminate E].
  apply H; by vm_compute.
Qed.

(** ** Accepting a transfer *)

Lemma pull_not_elem id u : id ∉ User.cattle (User.pull id u).
Proof.
  unfold User.pull. simpl. intros Hin%list_elem_of_In%filter_In.
  destruct Hin as [_ Hne]. by rewrite Nat.eqb_refl in Hne.
Qed.

Lemma addToSet_elem id u : id ∈ User.cattle (User.addToSet id u).
Proof.
  unfold User.addToSet.
  destruct (existsb (Nat.eqb id) (User.cattle u)) eqn:E; simpl.
  - apply existsb_exists in E as (x & Hin & ->%Nat.eqb_eq).
    by apply list_elem_of_In.
  - apply elem_of_app. right. by apply list_elem_of_singleton.
Qed.

(** C9. When the cattle of a pending transfer request no longer exists,
    accept still returns normally: the request is stored as 'accepted' with
    its completion and response timestamps, and neither the cattle
    collection nor any user's holdings change. *)
Theorem accept_without_cattle now id this db :
  Transfer.status this = "pending" →
  Transfer.fromOwner this ≠ Transfer.toOwner this →
  cattles db !! Transfer.cattle this = None →
  ∃ db' this',
    TransferFlow.accept None now id this db = (db', inr this')
    ∧ transfers db' !! id = Some this'
    ∧ Transfer.status this' = "accepted"
    ∧ Transfer.completedAt this' = Some now
    ∧ Transfer.respondedAt this' = Some now
    ∧ cattles db' = cattles db
    ∧ users db' = users db.
Proof.
  intros Hs Hne Hc.
  assert (Nat.eqb (Transfer.fromOwner this) (Transfer.toOwner this) = false) as Hb
    by by apply Nat.eqb_neq.
  unfold_handlers. unfold Transfer.pre_save. rewrite Hs. simpl. rewrite Hc. simpl.
  rewrite Hb.
  eexists _, _. split; [reflexivity|]. simpl.
  rewrite lookup_insert_eq. done.
Qed.

(** The same through the route: the receiver's request is answered 200. *)
Lemma accept_request_without_cattle now req db t :
  transfers db !! TransferFlow.t_params_id req = Some t →
  Transfer.toOwner t = TransferFlow.t_user_id req →
  Transfer.status t = "pending" →
  Transfer.fromOwner t ≠ Transfer.toOwner t →
  cattles db !! Transfer.cattle t = None →
  let out := run (TransferFlow.acceptTransferRequest None now req) db in
  code out.2 = 200
  ∧ Transfer.status <$> transfers out.1 !! TransferFlow.t_params_id req
    = Some "accepted"
  ∧ cattles out.1 = cattles db ∧ users out.1 = users db.
Proof.
  intros Ht Hto Hs Hne Hc.
  assert (Nat.eqb (Transfer.fromOwner t) (Transfer.toOwner t) = false) as Hb
    by by apply Nat.eqb_neq.
  unfold_handlers. unfold TransferFlow.find_pending, Transfer.pre_save.
  rewrite Ht, Hto, Nat.eqb_refl, Hs. simpl. rewrite Hs. simpl. rewrite Hc. simpl.
  rewrite Hb. simpl. by rewrite lookup_insert_eq.
Qed.

(** The request of [Sample.orphan_transfer], whose cattle 99 is not in the
    registry. *)
Lemma accept_without_cattle_witness :
  ∃ db' this',
    TransferFlow.accept None 1700000500000 501 Sample.orphan_transfer Sample.db
    = (db', inr this')
    ∧ transfers db' !! 501%nat = Some this'
    ∧ Transfer.status this' = "accepted"
    ∧ Transfer.completedAt this' = Some 1700000500000
    ∧ Transfer.respondedAt this' = Some 1700000500000
    ∧ cattles db' = cattles Sample.db
    ∧ users db' = users Sample.db.
Proof.
  apply (accept_without_cattle 1700000500000 501 Sample.orphan_transfer Sample.db).
  - reflexivity.
  - simpl. lia.
  - reflexivity.
Defined.

(** C1 (as amended). accept on a pending transfer request whose cattle
    exists, run without failure, applies every mutation: the request is
    stored as 'accepted', the transfer is appended to the cattle's
    transferHistory, the cattle's owner becomes toOwner, the cattle is pulled
    from the old owner's holdings and added to the new owner's.  The writes
    are separate and there is no transaction: a failure injected at the
    first or second database operation leaves the database unchanged, and a
    failure injected at the third, fourth or fifth leaves the cattle already
    reassigned while the request is still pending. *)
Theorem accept_applies_all_mutations now id this db c :
  Transfer.status this = "pending" →
  Transfer.fromOwner this ≠ Transfer.toOwner this →
  cattles db !! Transfer.cattle this = Some c →
  let c' :=
    Cattle.set_owner (Transfer.toOwner this)
      (Cattle.set_transferHistory (Cattle.transferHistory c ++ [id]) c) in
  (∃ db' this',
     TransferFlow.accept None now id this db = (db', inr this')
     ∧ Transfer.status this' = "accepted"
     ∧ transfers db' = <[id := this']> (transfers db)
     ∧ cattles db' = <[Transfer.cattle this := c']> (cattles db)
     ∧ Cattle.owner c' = Transfer.toOwner this
     ∧ Cattle.transferHistory c' = Cattle.transferHistory c ++ [id]
     ∧ users db'
       = alter (User.addToSet (Transfer.cattle this)) (Transfer.toOwner this)
           (alter (User.pull (Transfer.cattle this)) (Cattle.owner c) (users db))
     ∧ (∀ u, users db !! Cattle.owner c = Some u →
             Cattle.owner c ≠ Transfer.toOwner this →
             ∃ u', users db' !! Cattle.owner c = Some u'
                   ∧ Transfer.cattle this ∉ User.cattle u')
     ∧ (∀ u, users db !! Transfer.toOwner this = Some u →
             ∃ u', users db' !! Transfer.toOwner this = Some u'
                   ∧ Transfer.cattle this ∈ User.cattle u'))
  ∧ (∀ k, (k = 1 ∨ k = 2)%nat →
       TransferFlow.accept (Some k) now id this db
       = (db, inl (mkResponse 500 "injected failure")))
  ∧ (∀ k, (k = 3 ∨ k = 4 ∨ k = 5)%nat →
       ∃ db',
         TransferFlow.accept (Some k) now id this db
         = (db', inl (mkResponse 500 "injected failure"))
         ∧ cattles db' = <[Transfer.cattle this := c']> (cattles db)
         ∧ transfers db' = transfers db).
Proof.
  intros Hs Hne Hc c'.
  assert (Nat.eqb (Transfer.fromOwner this) (Transfer.toOwner this) = false) as Hb
    by by apply Nat.eqb_neq.
  split; [|split].
  - unfold_handlers. unfold Transfer.pre_save. rewrite Hs. simpl. rewrite Hc. simpl.
    rewrite Hb. eexists _, _. split; [reflexivity|]. simpl.
    repeat split.
    + intros u Hu Hneq. exists (User.pull (Transfer.cattle this) u). split.
      * rewrite lookup_alter_ne by done. by rewrite lookup_alter_eq, Hu.
      * apply pull_not_elem.
    + intros u Hu.
      destruct (decide (Cattle.owner c = Transfer.toOwner this)) as [E|E].
      * exists (User.addToSet (Transfer.cattle this) (User.pull (Transfer.cattle this) u)).
        split; [|apply addToSet_elem].
        rewrite lookup_alter_eq, E, lookup_alter_eq, Hu. done.
      * exists (User.addToSet (Transfer.cattle this) u).
        split; [|apply addToSet_elem].
        rewrite lookup_alter_eq, lookup_alter_ne, Hu by done. done.
  - intros k [->| ->]; unfold_handlers; rewrite Hs; simpl; [done|].
    by rewrite Hc.
  - intros k [->|[->| ->]]; unfold_handlers; unfold Transfer.pre_save;
      rewrite Hs; simpl; rewrite Hc; simpl; eexists; split; try reflexivity; done.
Qed.

(** Farmer 2 accepts the transfer of cattle 13. *)
Lemma accept_applies_all_mutations_witness :
  ∃ db' this',
    TransferFlow.accept None 1700000500000 500 Sample.transfer Sample.db_with_transfer
    = (db', inr this')
    ∧ Transfer.status this' = "accepted"
    ∧ cattles db'
      = <[13%nat := Cattle.set_owner 2
                      (Cattle.set_transferHistory [500%nat]
                         (Sample.cattle 1 "Texas" "active" "approved"))]>
          (cattles Sample.db_with_transfer).
Proof.
  destruct (accept_applies_all_mutations 1700000500000 500 Sample.transfer
              Sample.db_with_transfer (Sample.cattle 1 "Texas" "active" "approved"))
    as [(db' & this' & H1 & H2 & _ & H3 & _) _].
  - reflexivity.
  - simpl. lia.
  - reflexivity.
  - exists db', this'. split; [exact H1|]. split; [exact H2|exact H3].
Defined.

(** C1 as stated fails: with a failure injected at the fourth database
    operation of accept (the $addToSet on the new owner), the request is
    answered 500, yet the cattle is already owned by farmer 2 and already
    pulled from farmer 1's holdings, it is in nobody's holdings, and the
    transfer request is still pending. *)
Lemma accept_interrupted_is_partly_applied :
  let request := Accept (Some 4%nat) 1700000500000 (TransferFlow.mkTransferReq 2 500 None) in
  let out := serve CattleCreate.current_schema request Sample.db_with_transfer in
  code out.2 = 500
  ∧ Cattle.owner <$> cattles Sample.db_with_transfer !! 13%nat = Some 1%nat
  ∧ Cattle.owner <$> cattles out.1 !! 13%nat = Some 2%nat
  ∧ User.cattle <$> users Sample.db_with_transfer !! 1%nat = Some [10; 11; 13]%nat
  ∧ User.cattle <$> users out.1 !! 1%nat = Some [10; 11]%nat
  ∧ User.cattle <$> users out.1 !! 2%nat = Some [12%nat]
  ∧ Transfer.status <$> transfers out.1 !! 500%nat = Some "pending".
Proof. vm_compute. repeat split. Qed.

(** ** Registration *)

(** The turnaround deadline set by the [pre('save')] hook on a new document
    in transit: the submission time plus the configured hours, 48 when the
    environment variable is unset. *)
Lemma set_deadline_transit parsed c :
  Cattle.status c = "transit" →
  Cattle.turnaroundDeadline (Cattle.verification (CattleCreate.set_deadline parsed c))
  = Some (Cattle.submittedAt (Cattle.verification c)
          + CattleCreate.turnaroundHours parsed * 60 * 60 * 1000)
  ∧ CattleCreate.turnaroundHours None = 48.
Proof. intros Hs. unfold CattleCreate.set_deadline. by rewrite Hs. Qed.

(** Whatever enum the schema has, a cattle that [registerCattle] manages to
    create is in transit with verification status 'pending'. *)
Lemma registered_cattle_is_pending schema env req files user :
  let doc :=
    CattleCreate.set_deadline (CattleCreate.turnaround_env env)
      (CattleCreate.generate_id (CattleCreate.now env) (CattleCreate.random env)
         (CattleController.new_cattle (CattleCreate.now env) req files user)) in
  Cattle.status doc = "transit"
  ∧ Cattle.v_status (Cattle.verification doc) = "pending"
  ∧ (CattleCreate.in_enum schema "pending_regional_review" = true →
     Cattle.v_status (Cattle.verification doc) ≠ "pending_regional_review").
Proof.
  intros doc. unfold doc.
  rewrite create_doc_status, create_doc_v_status. done.
Qed.

Lemma validate_current_schema now req files user :
  CattleCreate.validate CattleCreate.current_schema
    (CattleController.new_cattle now req files user) ≠ [].
Proof.
  unfold CattleCreate.validate. intros E.
  do 5 (apply app_eq_nil in E as [_ E]).
  apply app_eq_nil in E as [E _]. discriminate E.
Qed.

(** C5, the defect. [registerCattle] writes the verification status
    'pending' into the new document.  That value is not in the enum of the
    current schema, whose header documents 'pending_regional_review' as the
    state after registration: validation refuses the document, so no
    registration succeeds, no cattle is created, and the answer is never
    201. *)
Theorem register_is_refused_by_the_schema env req db :
  let out := run (CattleController.registerCattle env req) db in
  out.1 = db ∧ code out.2 ≠ 201
  ∧ (∀ files user,
       Cattle.v_status (Cattle.verification
         (CattleController.new_cattle (CattleCreate.now env) req files user))
       = "pending")
  ∧ CattleCreate.in_enum Cattle.verification_status_enum "pending" = false.
Proof.
  unfold CattleController.registerCattle.
  split; [|split; [|done]].
  - exec; try done.
    all: match goal with
         | H : CattleCreate.validate _ (CattleController.new_cattle ?n ?r ?f ?u) = [] |- _ =>
             destruct (validate_current_schema n r f u H)
         end.
  - exec; try done.
    all: match goal with
         | H : CattleCreate.validate _ (CattleController.new_cattle ?n ?r ?f ?u) = [] |- _ =>
             destruct (validate_current_schema n r f u H)
         end.
Qed.

(** The registration of [Sample.registration], with its 14 photographs. *)
Lemma register_sample_refused :
  run (CattleController.register_route CattleCreate.current_schema
         Sample.env Sample.registration) Sample.db
  = (Sample.db,
     mkResponse 400
       "`pending` is not a valid enum value for path `verification.status`.").
Proof. by vm_compute. Qed.

(** The first schema of the source has 'pending' in its enum and requires
    [cattleId], which the hook generates only after validation: the same
    registration is refused for the missing cattle id. *)
Lemma register_sample_first_schema :
  run (CattleController.register_route CattleCreate.first_schema
         Sample.env Sample.registration) Sample.db
  = (Sample.db, mkResponse 400 "Path `cattleId` is required.").
Proof. by vm_compute. Qed.

(** The route's own guards: a caller who is not a farmer is refused by
    [userOnly], and a body without an age by the validator. *)
Lemma register_sample_guards :
  run (CattleController.register_route CattleCreate.current_schema Sample.env
         (CattleController.mkRegisterReq (Some "admin") "regional_admin" 100
            (Some Sample.files) "Gir" (Some 4))) Sample.db
  = (Sample.db, mkResponse 403
                  "This resource is only accessible to registered users/farmers")
  ∧ run (CattleController.register_route CattleCreate.current_schema Sample.env
           (CattleController.mkRegisterReq (Some "user") "user" 1
              (Some Sample.files) "Gir" None)) Sample.db
    = (Sample.db, mkResponse 400 "Validation failed").
Proof. by vm_compute. Qed.

(** ** Completing an identification request *)

(** C4, the defect. The existence check is skipped when [found] is true
    and no cattle id comes with it: the request is stored as completed with
    [result.found = true] and no cattle reference, after which building the
    notification text throws and the handler answers 500. *)
Theorem found_without_cattle_is_stored :
  let req :=
    IdentificationController.mkAdminReq 101 700 (Some true) None None None None None in
  let out :=
    run (IdentificationController.completeIdentificationRequest 1700000600000 req)
      Sample.db_with_request in
  code out.2 = 500
  ∧ IdReq.status <$> idreqs out.1 !! 700%nat = Some "completed"
  ∧ IdReq.found ∘ IdReq.result <$> idreqs out.1 !! 700%nat = Some true
  ∧ IdReq.cattle ∘ IdReq.result <$> idreqs out.1 !! 700%nat = Some None.
Proof. by vm_compute. Qed.

(** The same for every pending or processing request. *)
Lemma found_without_cattle_general now req db r :
  IdentificationController.a_found req = Some true →
  IdentificationController.a_cattleId req = None →
  idreqs db !! IdentificationController.a_params_id req = Some r →
  (IdReq.status r = "pending" ∨ IdReq.status r = "processing") →
  let out := run (IdentificationController.completeIdentificationRequest now req) db in
  code out.2 = 500
  ∧ ∃ r', idreqs out.1 !! IdentificationController.a_params_id req = Some r'
      ∧ IdReq.status r' = "completed"
      ∧ IdReq.found (IdReq.result r') = true
      ∧ IdReq.cattle (IdReq.result r') = None.
Proof.
  intros Hf Hc Hr Hs.
  unfold_handlers. rewrite Hf, Hr, Hc.
  assert ((IdReq.status r !== "pending") && (IdReq.status r !== "processing") = false) as ->.
  { destruct Hs as [-> | ->]; done. }
  simpl. destruct (falsy (IdentificationController.a_adminNotes req)); simpl;
    unfold IdentificationController.save_identifier, Admin_save, mbind, handler_bind,
      read, write, throw, respond, mret, handler_ret; simpl;
    repeat case_match; simplify_eq/=;
    (split; [done|]); eexists; (split; [apply lookup_insert_eq|]); done.
Qed.

(** With a cattle id that does not resolve the handler does answer 404 and
    leaves the database unchanged. *)
Lemma unresolved_cattle_is_not_found now req db r cid :
  IdentificationController.a_found req = Some true →
  IdentificationController.a_cattleId req = Some cid →
  cattles db !! cid = None →
  idreqs db !! IdentificationController.a_params_id req = Some r →
  (IdReq.status r = "pending" ∨ IdReq.status r = "processing") →
  run (IdentificationController.completeIdentificationRequest now req) db
  = (db, mkResponse 404 "Cattle not found with provided ID").
Proof.
  intros Hf Hc Hn Hr Hs.
  unfold_handlers. rewrite Hf, Hr.
  assert ((IdReq.status r !== "pending") && (IdReq.status r !== "processing") = false) as ->.
  { destruct Hs as [-> | ->]; done. }
  by rewrite Hc, Hn.
Qed.

(** ** The request id: binary64 arithmetic of the random component *)

Lemma digits2_pos_size p : digits2_pos p = Pos.size p.
Proof. induction p; simpl; congruence. Qed.

Lemma digits2_pos_log2 p : Zpos (digits2_pos p) = Z.log2 (Zpos p) + 1.
Proof.
  rewrite digits2_pos_size. destruct p; simpl; try reflexivity;
    rewrite Pos2Z.inj_succ; lia.
Qed.

Lemma digits2_pos_binade p d :
  0 < d → 2 ^ (d - 1) ≤ Zpos p < 2 ^ d → Zpos (digits2_pos p) = d.
Proof.
  intros Hd Hp. rewrite digits2_pos_log2.
  rewrite (Z.log2_unique (Zpos p) (d - 1)); [lia|lia|].
  replace (Z.succ (d - 1)) with d by lia. exact Hp.
Qed.

Lemma shr_1_nonneg m r s :
  0 ≤ m →
  shr_1 (Build_shr_record m r s) = Build_shr_record (m / 2) (Z.odd m) (r || s).
Proof.
  intros Hm. destruct m as [|p|p]; [done| |lia].
  destruct p as [p|p|].
  - assert (Z.pos p~1 / 2 = Z.pos p) as ->; [|done].
    rewrite Pos2Z.inj_xI. symmetry. apply Z.div_unique with 1; lia.
  - assert (Z.pos p~0 / 2 = Z.pos p) as ->; [|done].
    rewrite Pos2Z.inj_xO. symmetry. apply Z.div_unique with 0; lia.
  - done.
Qed.

(** [n + 1] right shifts of a non-negative mantissa: the quotient by
    [2^(n+1)], with bit [n] as the rounding bit. *)
Lemma iter_shr_1 n M r s :
  0 ≤ M →
  ∃ s', Nat.iter (S n) shr_1 (Build_shr_record M r s)
        = Build_shr_record (M / 2 ^ Z.of_nat (S n)) (Z.odd (M / 2 ^ Z.of_nat n)) s'.
Proof.
  intros HM. induction n as [|n [s' IH]].
  - exists (r || s). unfold Nat.iter; cbn [nat_rect]. rewrite shr_1_nonneg by done.
    by rewrite Z.div_1_r.
  - eexists. rewrite Nat.iter_succ, IH.
    rewrite shr_1_nonneg by (apply Z.div_pos; lia).
    rewrite Z.div_div by lia.
    replace (2 ^ Z.of_nat (S n) * 2) with (2 ^ Z.of_nat (S (S n))); [reflexivity|].
    rewrite (Nat2Z.inj_succ (S n)), Z.pow_succ_r by lia. lia.
Qed.

Lemma round_nearest_even_range q l :
  q ≤ round_nearest_even q l ≤ q + 1.
Proof. destruct l as [|[]]; simpl; try lia. destruct (Z.even q); lia. Qed.

(** The sum of 10000 and a draw, as the exact integer [m] in units of
    [2^-53], rounded to binary64: the mantissa is [m / 2^14] rounded to
    nearest even on bit 13, the exponent is -39. *)
Lemma binary_round_sum m :
  10000 * 2 ^ 53 ≤ Zpos m < 10001 * 2 ^ 53 →
  ∃ R s',
    binary_round 53 1024 false m (-53) = S754_finite false R (-39)
    ∧ Zpos R = round_nearest_even (Zpos m / 2 ^ 14)
                 (loc_of_shr_record
                    (Build_shr_record (Zpos m / 2 ^ 14) (Z.odd (Zpos m / 2 ^ 13)) s')).
Proof.
  intros Hm.
  assert (Zpos (digits2_pos m) = 67) as Hd by (apply digits2_pos_binade; lia).
  unfold binary_round. rewrite Hd.
  change (shl_align m (-53) (fexp 53 1024 (67 + -53))) with (m, -53).
  unfold binary_round_aux, shr_fexp. cbn [Zdigits2]. rewrite Hd.
  change (fexp 53 1024 (67 + -53) - -53) with 14.
  cbn [shr shr_record_of_loc].
  change (SpecFloat.iter_pos shr_1 14 ?x) with (Nat.iter 14 shr_1 x).
  destruct (iter_shr_1 13 (Zpos m) false false) as [s' ->]; [lia|].
  change (Z.of_nat 14) with 14. change (Z.of_nat 13) with 13.
  cbn [shr_m].
  set (q := Zpos m / 2 ^ 14).
  set (l := loc_of_shr_record _).
  assert (10000 * 2 ^ 39 ≤ q < 10001 * 2 ^ 39) as Hq.
  { unfold q. split.
    - apply Z.div_le_lower_bound; lia.
    - apply Z.div_lt_upper_bound; lia. }
  pose proof (round_nearest_even_range q l) as HR.
  destruct (round_nearest_even q l) as [|R|R] eqn:ER; [lia| |lia].
  assert (Zpos (digits2_pos R) = 53) as HdR by (apply digits2_pos_binade; lia).
  cbn [Zdigits2]. rewrite HdR.
  change (fexp 53 1024 (53 + (-53 + 14)) - (-53 + 14)) with 0.
  cbn [shr shr_m].
  change (-53 + 14 <=? 1024 - 53) with true. cbn iota.
  exists R, s'. split; [reflexivity|]. by rewrite <- ER.
Qed.

Lemma random_component_sum p :
  RequestId.random_component (Zpos p)
  = RequestId.Math_floor
      (binary_round 53 1024 false (p + 90071992547409920000) (-53)).
Proof. reflexivity. Qed.

(** [Math.floor(Math.random() + 10000)] over all draws: 10000, except for
    the draws in the top [2^-40] of the range, where the addition rounds up
    to 10001. *)
Lemma random_component_value k :
  0 ≤ k < 2 ^ 53 →
  RequestId.random_component k = if k <? 2 ^ 53 - 2 ^ 13 then 10000 else 10001.
Proof.
  intros Hk. destruct k as [|p|p]; [reflexivity| |lia].
  rewrite random_component_sum.
  set (m := (p + 90071992547409920000)%positive).
  assert (Zpos m = Zpos p + 10000 * 2 ^ 53) as Em by (unfold m; lia).
  destruct (binary_round_sum m) as (R & s' & -> & HR); [lia|].
  unfold RequestId.Math_floor.
  change (Z.shiftl (Zpos R) (-39)) with (Z.shiftr (Zpos R) 39).
  rewrite Z.shiftr_div_pow2 by lia.
  set (a := Zpos m / 2 ^ 13) in *.
  set (q := Zpos m / 2 ^ 14) in *.
  assert (q = a / 2) as Eq.
  { unfold q, a. rewrite Z.div_div by lia. reflexivity. }
  assert (a = 2 * q + (if Z.odd a then 1 else 0)) as Ea.
  { rewrite Eq, <- Zmod_odd. apply Z.div_mod. lia. }
  assert (10000 * 2 ^ 40 ≤ a) as Ha1.
  { unfold a. apply Z.div_le_lower_bound; lia. }
  destruct (Z.ltb_spec (Zpos p) (2 ^ 53 - 2 ^ 13)) as [Hlt|Hge].
  - assert (a < 10001 * 2 ^ 40 - 1) as Ha2.
    { unfold a. apply Z.div_lt_upper_bound; lia. }
    assert (10000 * 2 ^ 39 ≤ Zpos R < 10001 * 2 ^ 39) as HRb.
    { pose proof (round_nearest_even_range q
                    (loc_of_shr_record (Build_shr_record q (Z.odd a) s'))) as Hrange.
      rewrite <- HR in Hrange.
      destruct (Z.odd a) eqn:Eodd.
      - lia.
      - assert (Zpos R = q) as ->; [|lia].
        rewrite HR. by destruct s'. }
    symmetry. apply Z.div_unique with (Zpos R - 10000 * 2 ^ 39); lia.
  - assert (a = 10001 * 2 ^ 40 - 1) as Ea'.
    { unfold a. symmetry.
      apply Z.div_unique with (Zpos m - (10001 * 2 ^ 40 - 1) * 2 ^ 13); lia. }
    assert (q = 10001 * 2 ^ 39 - 1) as Eq'.
    { rewrite Eq, Ea'. reflexivity. }
    rewrite Ea', Eq' in HR.
    assert (Zpos R = 10001 * 2 ^ 39) as ->; [|reflexivity].
    rewrite HR. by destruct s'.
Qed.

Lemma generate_new now k this :
  IdReq.requestId this = None →
  IdReq.requestId (RequestId.generate now k this)
  = Some ("IDR-" +:+ slice_last 8 (toString now)
          +:+ padStart0 4 (toString (RequestId.random_component k))).
Proof. intros H. unfold RequestId.generate. by rewrite H. Qed.

(** C10 (as amended). The request id generated for a new identification
    request is 'IDR-', then the last 8 characters of the decimal creation
    timestamp, then '10000' for every draw of [Math.random()] below
    [1 - 2^-40]; for the draws from [1 - 2^-40] up, the binary64 sum
    [Math.random() + 10000] rounds up to 10001 and the suffix is '10001'.
    Two requests created in the same millisecond with draws below
    [1 - 2^-40] receive identical request ids. *)
Theorem requestId_suffix now k this :
  IdReq.requestId this = None →
  0 ≤ k < 2 ^ 53 →
  IdReq.requestId (RequestId.generate now k this)
  = Some ("IDR-" +:+ slice_last 8 (toString now)
          +:+ (if k <? 2 ^ 53 - 2 ^ 13 then "10000" else "10001"))
  ∧ ∀ k' this',
      IdReq.requestId this' = None →
      0 ≤ k' < 2 ^ 53 - 2 ^ 13 → k < 2 ^ 53 - 2 ^ 13 →
      IdReq.requestId (RequestId.generate now k' this')
      = IdReq.requestId (RequestId.generate now k this).
Proof.
  intros Hnew Hk. split.
  - rewrite generate_new, random_component_value by done.
    by destruct (k <? 2 ^ 53 - 2 ^ 13).
  - intros k' this' Hnew' Hk' Hlt.
    rewrite !generate_new, !random_component_value by (done || lia).
    assert ((k <? 2 ^ 53 - 2 ^ 13) = true) as -> by by apply Z.ltb_lt.
    assert ((k' <? 2 ^ 53 - 2 ^ 13) = true) as -> by (apply Z.ltb_lt; lia).
    done.
Qed.

(** A request created at 1700000000123 ms with the draw 5 / 2^53. *)
Lemma requestId_suffix_witness :
  IdReq.requestId
    (RequestId.generate 1700000000123 5
       (IdReq.set_requestId None Sample.request))
  = Some "IDR-0000012310000".
Proof.
  destruct (requestId_suffix 1700000000123 5
              (IdReq.set_requestId None Sample.request)) as [H _].
  - reflexivity.
  - lia.
  - exact H.
Defined.

(** C10 as stated fails at the top of the range of [Math.random()]: for the
    draw [1 - 2^-52 = 0.9999999999999998] the sum is 10001 in binary64, the
    random component is 10001, and two requests created in the same
    millisecond, one with this draw and one with the draw 0, receive
    different request ids. *)
Lemma random_component_is_not_constant :
  let top := 2 ^ 53 - 2 in
  let this := IdReq.set_requestId None Sample.request in
  SFadd 53 1024 (RequestId.random_double top) RequestId.ten_thousand
  = S754_finite false (10001 * 2 ^ 39) (-39)
  ∧ RequestId.random_component top = 10001
  ∧ IdReq.requestId (RequestId.generate 1700000000123 top this)
    = Some "IDR-0000012310001"
  ∧ IdReq.requestId (RequestId.generate 1700000000123 0 this)
    = Some "IDR-0000012310000"
  ∧ IdReq.requestId (RequestId.generate 1700000000123 top this)
    ≠ IdReq.requestId (RequestId.generate 1700000000123 0 this).
Proof. vm_compute. repeat split. discriminate. Qed.

(** The request id is declared unique.  Farmer 2 asks twice in the same
    millisecond: the first request is stored, and the second, whose
    generated id is the same, is refused by the unique index with a
    duplicate-key error and changes nothing. *)
Lemma second_request_in_the_same_millisecond_is_refused :
  let identify :=
    Identify 1700000000123 5 (IdentificationController.mkCreateReq 2 true) in
  let first := serve CattleCreate.current_schema identify Sample.db in
  let second := serve CattleCreate.current_schema identify first.1 in
  first.2
  = mkResponse 201
      "Identification request submitted successfully. Processing may take up to 24 hours."
  ∧ (IdReq.requestId <$> idreqs first.1 !! 0%nat) = Some (Some "IDR-0000012310000")
  ∧ second
    = (first.1,
       mkResponse 400 "requestId already exists. Please use a different requestId.").
Proof. by vm_compute. Qed.

(** ** Settling a transfer request *)

Lemma find_pending_party id party user db t :
  transfers db !! id = Some t → party t ≠ user →
  TransferFlow.find_pending id party user db = None.
Proof.
  intros Ht Hp. unfold TransferFlow.find_pending. rewrite Ht.
  apply Nat.eqb_neq in Hp. by rewrite Hp.
Qed.

Lemma find_pending_settled id party user db t :
  transfers db !! id = Some t → Transfer.status t ≠ "pending" →
  TransferFlow.find_pending id party user db = None.
Proof.
  intros Ht Hs. unfold TransferFlow.find_pending. rewrite Ht.
  apply String.eqb_neq in Hs. by rewrite Hs, andb_false_r.
Qed.

(** X1. Only the parties settle a transfer request: accept and reject by
    anyone but the receiver, and cancel by anyone but the sender, are answered
    404 and change nothing. *)
Theorem only_the_parties_settle_a_transfer now req db t :
  transfers db !! TransferFlow.t_params_id req = Some t →
  (Transfer.toOwner t ≠ TransferFlow.t_user_id req →
   (∀ fault, run (TransferFlow.acceptTransferRequest fault now req) db
             = (db, mkResponse 404 "Transfer request not found or already processed"))
   ∧ run (TransferFlow.rejectTransferRequest now req) db
     = (db, mkResponse 404 "Transfer request not found or already processed"))
  ∧ (Transfer.fromOwner t ≠ TransferFlow.t_user_id req →
     run (TransferFlow.cancelTransferRequest now req) db
     = (db, mkResponse 404 "Transfer request not found or already processed")).
Proof.
  intros Ht. split.
  - intros Hp. split; [intros fault|];
      unfold TransferFlow.acceptTransferRequest, TransferFlow.rejectTransferRequest, run;
      rewrite bind_read, (find_pending_party _ _ _ _ _ Ht Hp); reflexivity.
  - intros Hp. unfold TransferFlow.cancelTransferRequest, run.
    rewrite bind_read, (find_pending_party _ _ _ _ _ Ht Hp). reflexivity.
Qed.

Lemma expire_settled now t :
  Transfer.status t ≠ "pending" → TransferFlow.expire now t = t.
Proof.
  intros Hs%String.eqb_neq. unfold TransferFlow.expire, Transfer.isExpired.
  by rewrite Hs.
Qed.

(** X2. A transfer to oneself is never stored: [initiateCattleTransfer]
    with the caller as recipient leaves the database as it is and answers 404,
    400 or 500.  No test of the controller looks at it: when all of them pass,
    it is the [pre('save')] hook of the schema that refuses the request, and
    the answer is 500. *)
Theorem self_transfer_is_refused now req db :
  TransferFlow.i_toOwnerId req = TransferFlow.i_user_id req →
  (∃ r, run (TransferFlow.initiateCattleTransfer now req) db = (db, r)
        ∧ (code r = 404 ∨ code r = 400 ∨ code r = 500))
  ∧ (∀ c u,
       Cattle_findOne
         (with_status "active"
            (with_owner (TransferFlow.i_user_id req) (by_id (TransferFlow.i_params_id req))))
         db = Some c →
       users db !! TransferFlow.i_toOwnerId req = Some u →
       TransferFlow.pending_for (TransferFlow.i_params_id req) db = [] →
       TransferFlow.validate_transfer (TransferFlow.new_transfer now req) = None →
       run (TransferFlow.initiateCattleTransfer now req) db
       = (db, mkResponse 500 "Cannot transfer cattle to the same owner")).
Proof.
  intros Hself. split.
  - unfold_handlers. unfold Transfer.pre_save, TransferFlow.new_transfer. simpl.
    rewrite Hself, Nat.eqb_refl.
    repeat (case_match; simplify_eq/=); eexists; (split; [reflexivity|]); simpl; auto.
  - intros c u Hc Hu Hp Hv. unfold_handlers. rewrite Hc, Hu, Hp, Hv.
    unfold Transfer.pre_save, TransferFlow.new_transfer. simpl.
    by rewrite Hself, Nat.eqb_refl.
Qed.

Lemma only_the_parties_settle_a_transfer_witness :
  run (TransferFlow.rejectTransferRequest 1700000500000
         (TransferFlow.mkTransferReq 1 500 None)) Sample.db_with_transfer
  = (Sample.db_with_transfer,
     mkResponse 404 "Transfer request not found or already processed").
Proof.
  destruct (only_the_parties_settle_a_transfer 1700000500000
              (TransferFlow.mkTransferReq 1 500 None) Sample.db_with_transfer
              Sample.transfer) as [H _]; [reflexivity|].
  apply H. simpl. lia.
Defined.

Lemma self_transfer_is_refused_witness :
  run (TransferFlow.initiateCattleTransfer 1700000300000 Examples.self_transfer)
    Sample.db
  = (Sample.db, mkResponse 500 "Cannot transfer cattle to the same owner").
Proof.
  destruct (self_transfer_is_refused 1700000300000 Examples.self_transfer Sample.db)
    as [_ H]; [reflexivity|].
  eapply H; vm_compute; reflexivity.
Defined.

(** ** The parties of a stored transfer request *)

Lemma expire_parties now t :
  Transfer.fromOwner (TransferFlow.expire now t) = Transfer.fromOwner t
  ∧ Transfer.toOwner (TransferFlow.expire now t) = Transfer.toOwner t.
Proof. unfold TransferFlow.expire. by destruct (Transfer.isExpired now t). Qed.

Lemma pre_save_None t :
  Transfer.pre_save t = None → Transfer.fromOwner t ≠ Transfer.toOwner t.
Proof.
  unfold Transfer.pre_save.
  destruct (Nat.eqb (Transfer.fromOwner t) (Transfer.toOwner t)) eqn:E; [done|].
  intros _. by apply Nat.eqb_neq.
Qed.

Lemma distinct_parties_insert db db' id t :
  distinct_parties db → Transfer.fromOwner t ≠ Transfer.toOwner t →
  transfers db' = <[id := t]> (transfers db) → distinct_parties db'.
Proof.
  intros Hinv Ht E j u. rewrite E. destruct (decide (id = j)) as [->|Hne].
  - rewrite lookup_insert_eq. by intros [= <-].
  - rewrite lookup_insert_ne by done. apply Hinv.
Qed.

Lemma distinct_parties_same db db' :
  distinct_parties db → transfers db' = transfers db → distinct_parties db'.
Proof. intros Hinv E j u. rewrite E. apply Hinv. Qed.

Lemma distinct_parties_serve schema r db :
  distinct_parties db → distinct_parties (serve schema r db).1.
Proof.
  intros Hinv. destruct r; simpl.
  - exec; rewrite_frames; by eapply distinct_parties_same.
  - destruct op; exec; rewrite_frames; by eapply distinct_parties_same.
  - exec; rewrite_frames; by eapply distinct_parties_same.
  - exec; rewrite_frames; by eapply distinct_parties_same.
  - exec; rewrite_frames; by eapply distinct_parties_same.
  - exec; rewrite_frames; try (by eapply distinct_parties_same).
    eapply distinct_parties_insert; [done| |reflexivity]. by apply pre_save_None.
  - exec; rewrite_frames; try (by eapply distinct_parties_same).
    all: eapply distinct_parties_insert; [done| |reflexivity]; by apply pre_save_None.
  - exec; rewrite_frames; try (by eapply distinct_parties_same).
    all: eapply distinct_parties_insert; [done| |reflexivity]; by apply pre_save_None.
  - exec; rewrite_frames; try (by eapply distinct_parties_same).
    all: eapply distinct_parties_insert; [done| |reflexivity]; by apply pre_save_None.
  - intros j u. unfold TransferFlow.cleanupExpired. simpl. rewrite lookup_fmap.
    destruct (transfers db !! j) as [t|] eqn:E; [|done]. simpl. intros [= <-].
    destruct (expire_parties now t) as [-> ->]. by eapply Hinv.
  - exec; rewrite_frames; by eapply distinct_parties_same.
  - exec; rewrite_frames; by eapply distinct_parties_same.
  - exec; rewrite_frames; by eapply distinct_parties_same.
  - exec; rewrite_frames; by eapply distinct_parties_same.
  - exec; rewrite_frames; by eapply distinct_parties_same.
  - by eapply distinct_parties_same.
Qed.

(** X3. Sender and receiver of every stored transfer request differ, and
    every sequence of requests keeps it so. *)
Theorem stored_transfers_have_distinct_parties schema rs db :
  distinct_parties db → distinct_parties (serve_all schema rs db).
Proof.
  revert db. induction rs as [|r rs IH]; intros db Hinv; [done|].
  simpl. apply IH. by apply distinct_parties_serve.
Qed.

Lemma sample_distinct_parties : distinct_parties Sample.db_with_transfer.
Proof.
  intros id t Ht. unfold Sample.db_with_transfer in Ht. simpl in Ht.
  apply lookup_insert_Some in Ht as [[_ <-]|[_ Ht]]; [simpl; lia|].
  by rewrite lookup_empty in Ht.
Qed.

(** Farmer 2 rejects the request; farmer 1 then asks again. *)
Lemma stored_transfers_have_distinct_parties_witness :
  distinct_parties
    (serve_all CattleCreate.current_schema
       [RejectTransfer 1700000500000 (TransferFlow.mkTransferReq 2 500 None);
        Initiate 1700000600000 Sample.initiate]
       Sample.db_with_transfer).
Proof.
  apply stored_transfers_have_distinct_parties, sample_distinct_parties.
Defined.

(** ** A settled transfer request is final *)

Lemma settle_not_found s now req db :
  TransferFlow.find_pending (TransferFlow.t_params_id req)
    (match s with SettleCancel => Transfer.fromOwner | _ => Transfer.toOwner end)
    (TransferFlow.t_user_id req) db = None →
  ∀ schema, serve schema (settle s now req) db
  = (db, mkResponse 404 "Transfer request not found or already processed").
Proof.
  intros Hq schema. destruct s; simpl;
    unfold TransferFlow.acceptTransferRequest, TransferFlow.rejectTransferRequest,
      TransferFlow.cancelTransferRequest, run;
    rewrite bind_read, Hq; reflexivity.
Qed.

Lemma settle_success schema s now req db :
  code (serve schema (settle s now req) db).2 = 200 →
  ∃ t, transfers (serve schema (settle s now req) db).1 !! TransferFlow.t_params_id req
       = Some t
       ∧ Transfer.status t ≠ "pending".
Proof.
  destruct s; simpl; exec; intros Hcode; try discriminate Hcode.
  all: rewrite_frames; eexists; split; [apply lookup_insert_eq|]; done.
Qed.

Ltac settled_request Hs :=
  exec; rewrite_frames; try done;
  repeat match goal with
    | H : TransferFlow.find_pending _ _ _ _ = Some _ |- _ =>
        unfold TransferFlow.find_pending in H;
        repeat (case_match; simplify_eq/=)
    | |- <[?k := _]> _ !! ?id = _ =>
        let E := fresh in
        destruct (decide (k = id)) as [E|];
          [exfalso; rewrite E in *; simplify_eq;
           match goal with
           | H : _ && (_ === "pending") = true |- _ =>
               apply andb_true_iff in H as [_ H]; apply String.eqb_eq in H; by destruct Hs
           end
          | rewrite lookup_insert_ne by done]
    end; try done.

(** A settled transfer request is left as it is by every request. *)
Lemma settled_transfer_step schema r db id t :
  transfers db !! id = Some t →
  Transfer.status t ≠ "pending" →
  transfers (serve schema r db).1 !! id = Some t.
Proof.
  intros Ht Hs. destruct r.
  all: try (exec; rewrite_frames; try done; fail).
  - exec; rewrite_frames; try done.
    all: rewrite lookup_insert_ne; [done|];
      intros <-; by rewrite fresh_transfer_id in Ht.
  - settled_request Hs.
  - settled_request Hs.
  - settled_request Hs.
  - simpl. unfold TransferFlow.cleanupExpired. simpl. rewrite lookup_fmap, Ht. simpl.
    by rewrite expire_settled.
Qed.

Lemma settled_transfer_run schema rs db id t :
  transfers db !! id = Some t →
  Transfer.status t ≠ "pending" →
  transfers (serve_all schema rs db) !! id = Some t.
Proof.
  intros Ht Hs. revert db Ht. unfold serve_all.
  induction rs as [|r rs IH]; intros db Ht; [done|].
  simpl. apply IH. by apply settled_transfer_step.
Qed.

(** X4. Once accept, reject or cancel has answered 200 for a transfer
    request, the request is final: whatever requests are served afterwards
    - registrations, verifications, transfers of this or another cattle,
    settlements of this or another request, identifications, the expiry
    sweeps - the stored request stays exactly as the settlement left it, no
    longer pending, and every later accept, reject or cancel of it, by
    whichever user, is answered 404 and changes nothing. *)
Theorem settled_transfer_is_final schema s now req db rs :
  code (serve schema (settle s now req) db).2 = 200 →
  let settled := (serve schema (settle s now req) db).1 in
  let later := serve_all schema rs settled in
  (∃ t, transfers settled !! TransferFlow.t_params_id req = Some t
        ∧ Transfer.status t ≠ "pending"
        ∧ transfers later !! TransferFlow.t_params_id req = Some t)
  ∧ ∀ s' now' req',
      TransferFlow.t_params_id req' = TransferFlow.t_params_id req →
      serve schema (settle s' now' req') later
      = (later, mkResponse 404 "Transfer request not found or already processed").
Proof.
  intros Hok settled later.
  destruct (settle_success _ _ _ _ _ Hok) as (t & Ht & Hs).
  fold settled in Ht.
  pose proof (settled_transfer_run schema rs settled _ t Ht Hs) as Hl.
  fold later in Hl.
  split; [by exists t|].
  intros s' now' req' Hid.
  apply settle_not_found. rewrite Hid. by eapply find_pending_settled.
Qed.

(** Farmer 2 rejects the transfer of cattle 13; after the sweep, another
    request of farmer 1 for the same cattle and an acceptance by farmer 2
    of the rejected request, the sender's cancellation finds nothing to
    cancel. *)
Lemma settled_transfer_is_final_witness :
  serve CattleCreate.current_schema
    (settle SettleCancel 1700000900000 (TransferFlow.mkTransferReq 1 500 None))
    (serve_all CattleCreate.current_schema
       [ExpireTransfers 1800000000000;
        Initiate 1700000700000 Sample.initiate;
        Accept None 1700000800000 (TransferFlow.mkTransferReq 2 500 None)]
       (serve CattleCreate.current_schema
          (settle SettleReject 1700000500000
             (TransferFlow.mkTransferReq 2 500 (Some "no")))
          Sample.db_with_transfer).1)
  = (serve_all CattleCreate.current_schema
       [ExpireTransfers 1800000000000;
        Initiate 1700000700000 Sample.initiate;
        Accept None 1700000800000 (TransferFlow.mkTransferReq 2 500 None)]
       (serve CattleCreate.current_schema
          (settle SettleReject 1700000500000
             (TransferFlow.mkTransferReq 2 500 (Some "no")))
          Sample.db_with_transfer).1,
     mkResponse 404 "Transfer request not found or already processed").
Proof.
  apply (settled_transfer_is_final CattleCreate.current_schema SettleReject
           1700000500000 (TransferFlow.mkTransferReq 2 500 (Some "no"))
           Sample.db_with_transfer
           [ExpireTransfers 1800000000000;
            Initiate 1700000700000 Sample.initiate;
            Accept None 1700000800000 (TransferFlow.mkTransferReq 2 500 None)]);
    [vm_compute; reflexivity | reflexivity].
Defined.

(** ** The expiry sweep of the transfer requests *)

Lemma NoDup_fst_filter {A} (p : nat * A → bool) (l : list (nat * A)) :
  NoDup l.*1 → NoDup (List.filter p l).*1.
Proof.
  induction l as [|x l IH]; simpl; [done|].
  intros [Hx Hl]%NoDup_cons. destruct (p x); simpl; [|by apply IH].
  apply NoDup_cons. split; [|by apply IH].
  intros (y & Ey & Hy)%list_elem_of_fmap. apply Hx.
  apply list_elem_of_fmap. exists y. split; [done|].
  apply list_elem_of_In in Hy. apply filter_In in Hy as [Hy _].
  by apply list_elem_of_In.
Qed.

Lemma elem_of_expired now db i t :
  (i, t) ∈ TransferSweep.expired now db
  ↔ transfers db !! i = Some t ∧ Transfer.isExpired now t = true.
Proof.
  unfold TransferSweep.expired. rewrite list_elem_of_In, filter_In.
  rewrite <- list_elem_of_In, elem_of_map_to_list. done.
Qed.

Lemma sweep_loop (l : list (nat * Transfer.t)) db :
  (∀ x, x ∈ l → Transfer.fromOwner x.2 ≠ Transfer.toOwner x.2) →
  for_each l TransferSweep.expire_request db
  = (set_transfers
       (foldl (λ m x, <[x.1 := TransferSweep.cancelled_as_expired x.2]> m) (transfers db) l) db,
     inr tt).
Proof.
  revert db. induction l as [|x l IH]; intros db Hd.
  - simpl. by destruct db.
  - simpl. unfold mbind at 1, handler_bind at 1.
    unfold TransferSweep.expire_request at 1, TransferFlow.Transfer_save,
      Transfer.pre_save.
    simpl.
    assert (Nat.eqb (Transfer.fromOwner x.2) (Transfer.toOwner x.2) = false) as ->.
    { apply Nat.eqb_neq, Hd. by left. }
    unfold write. rewrite IH; [done|]. intros y Hy. apply Hd. by right.
Qed.

Lemma foldl_insert_lookup {A} (f : A → A) (l : list (nat * A)) (m : gmap nat A) i :
  NoDup l.*1 →
  foldl (λ m x, <[x.1 := f x.2]> m) m l !! i
  = match list_find (λ x, x.1 = i) l with
    | Some (_, x) => Some (f x.2)
    | None => m !! i
    end.
Proof.
  revert m. induction l as [|x l IH]; intros m Hnd; [done|].
  apply NoDup_cons in Hnd as [Hx Hl]. simpl. rewrite IH by done.
  destruct (decide (x.1 = i)) as [E|E]; simpl.
  - destruct (list_find (λ x0, x0.1 = i) l) as [[k y]|] eqn:Hf; simpl.
    + apply list_find_Some in Hf as (Hk & Ey & _). destruct Hx.
      apply list_elem_of_fmap. exists y. split; [congruence|].
      by eapply list_elem_of_lookup_2.
    + by rewrite E, lookup_insert_eq.
  - destruct (list_find (λ x0, x0.1 = i) l) as [[k y]|] eqn:Hf; simpl; [done|].
    by rewrite lookup_insert_ne.
Qed.

Lemma sweep_transfers now db :
  foldl (λ m x, <[x.1 := TransferSweep.cancelled_as_expired x.2]> m) (transfers db)
    (TransferSweep.expired now db)
  = TransferFlow.expire now <$> transfers db.
Proof.
  apply map_eq. intros i.
  rewrite foldl_insert_lookup
    by (apply NoDup_fst_filter, NoDup_fst_map_to_list).
  rewrite lookup_fmap.
  destruct (list_find _ _) as [[k [j t]]|] eqn:Hf.
  - apply list_find_Some in Hf as (Hk & Ej & _). simpl in Ej. subst j.
    apply list_elem_of_lookup_2, elem_of_expired in Hk as [Ht He].
    rewrite Ht. simpl. unfold TransferFlow.expire. by rewrite He.
  - destruct (transfers db !! i) as [t|] eqn:Ht; simpl; [|done].
    unfold TransferFlow.expire.
    destruct (Transfer.isExpired now t) eqn:He; [|done].
    eapply list_find_None, Forall_forall in Hf;
      [|apply elem_of_expired; split; [exact Ht|exact He]].
    by destruct Hf.
Qed.

Lemma expire_not_expired now t :
  Transfer.isExpired now (TransferFlow.expire now t) = false.
Proof.
  unfold TransferFlow.expire.
  destruct (Transfer.isExpired now t) eqn:E; [done|exact E].
Qed.

Lemma expired_swept now db :
  TransferSweep.expired now (TransferFlow.cleanupExpired now db) = [].
Proof.
  destruct (TransferSweep.expired now _) as [|[i t] l] eqn:E; [done|].
  assert ((i, t) ∈ TransferSweep.expired now (TransferFlow.cleanupExpired now db)) as Hin
    by (rewrite E; by left).
  apply elem_of_expired in Hin as [Ht He].
  unfold TransferFlow.cleanupExpired in Ht. simpl in Ht. rewrite lookup_fmap in Ht.
  destruct (transfers db !! i) as [t0|]; [|done]. simpl in Ht. injection Ht as <-.
  by rewrite expire_not_expired in He.
Qed.

(** X5. On a store whose transfer requests have two distinct parties, the
    expiry sweep, which saves the expired requests one by one, answers the
    number of pending requests past their expiry and stores each of them as
    cancelled with the reason 'Expired', leaving every other request as it
    is; afterwards no request is expired, and a second sweep at the same
    time finds nothing and changes nothing. *)
Theorem sweep_cancels_every_expired_transfer now db :
  distinct_parties db →
  TransferSweep.cleanupExpired now db
  = (TransferFlow.cleanupExpired now db, inr (length (TransferSweep.expired now db)))
  ∧ (∀ id t, transfers db !! id = Some t →
       transfers (TransferFlow.cleanupExpired now db) !! id
       = Some (if Transfer.isExpired now t
               then TransferSweep.cancelled_as_expired t else t))
  ∧ (∀ id t, transfers (TransferFlow.cleanupExpired now db) !! id = Some t →
       Transfer.isExpired now t = false)
  ∧ TransferSweep.cleanupExpired now (TransferFlow.cleanupExpired now db)
    = (TransferFlow.cleanupExpired now db, inr 0%nat).
Proof.
  intros Hinv. repeat split.
  - unfold TransferSweep.cleanupExpired. rewrite bind_read.
    erewrite bind_ok; [reflexivity|].
    rewrite sweep_loop.
    + by rewrite sweep_transfers.
    + intros [i t] [Ht _]%elem_of_expired. by eapply Hinv.
  - intros id t Ht. unfold TransferFlow.cleanupExpired. simpl.
    by rewrite lookup_fmap, Ht.
  - intros id t. unfold TransferFlow.cleanupExpired. simpl. rewrite lookup_fmap.
    destruct (transfers db !! id) as [t0|]; [|done]. simpl. intros [= <-].
    apply expire_not_expired.
  - unfold TransferSweep.cleanupExpired. rewrite bind_read, expired_swept.
    simpl. by destruct (TransferFlow.cleanupExpired now db).
Qed.

(** The sweep on the sample store, one month after the request of farmer 1
    has expired. *)
Lemma sweep_cancels_every_expired_transfer_witness :
  TransferSweep.cleanupExpired 1705000000000 Sample.db_with_transfer
  = (TransferFlow.cleanupExpired 1705000000000 Sample.db_with_transfer,
     inr (length (TransferSweep.expired 1705000000000 Sample.db_with_transfer))).
Proof.
  apply (sweep_cancels_every_expired_transfer 1705000000000 Sample.db_with_transfer).
  intros id t Ht.
  destruct (decide (id = 500%nat)) as [->|Hne].
  - vm_compute in Ht. injection Ht as <-. vm_compute. discriminate.
  - unfold Sample.db_with_transfer in Ht. simpl in Ht.
    rewrite lookup_insert_ne in Ht by done. by rewrite lookup_empty in Ht.
Defined.

(** ** Holdings and ownership *)

Lemma owner_kept_refl m : owner_kept m m.
Proof. intros id c H. eauto. Qed.

Lemma owner_kept_insert m id c c' :
  m !! id = Some c → Cattle.owner c' = Cattle.owner c → owner_kept m (<[id := c']> m).
Proof.
  intros Hc Ho j d Hj. destruct (decide (id = j)) as [->|Hne].
  - rewrite lookup_insert_eq. exists c'. split; [done|]. congruence.
  - rewrite lookup_insert_ne by done. eauto.
Qed.

Lemma holdings_sound_frame db db' :
  users db' = users db → owner_kept (cattles db) (cattles db') →
  holdings_sound db → holdings_sound db'.
Proof.
  intros Hu Hk Hinv uid u Hlook. rewrite Hu in Hlook.
  destruct (Hinv uid u Hlook) as [Hnd Hel]. split; [done|].
  intros id Hid. destruct (Hel id Hid) as (c & Hc & Ho).
  destruct (Hk id c Hc) as (c' & Hc' & Ho'). exists c'. split; [done|]. congruence.
Qed.

Ltac sound_frame :=
  match goal with
  | Hinv : holdings_sound ?db |- holdings_sound ?db' =>
      apply (holdings_sound_frame db db');
        [ simpl; rewrite_frames; done | simpl; rewrite_frames | exact Hinv ]
  end.

Lemma verify_holdings_sound op now req db :
  holdings_sound db → holdings_sound (run (AdminController.handler op now req) db).1.
Proof.
  intros Hinv. destruct op; exec; rewrite_frames.
  all: try done.
  all: sound_frame.
  all: try apply owner_kept_refl.
  all: match goal with H : Cattle_findOne _ _ = Some _ |- _ =>
         apply scoped_query_Some in H as [Hc Hs] end.
  all: by eapply owner_kept_insert.
Qed.

Lemma pull_NoDup id u : NoDup (User.cattle u) → NoDup (User.cattle (User.pull id u)).
Proof.
  unfold User.pull. simpl. induction (User.cattle u) as [|x l IH]; simpl; [done|].
  intros [Hx Hl]%NoDup_cons. destruct (negb (Nat.eqb x id)); [|by apply IH].
  apply NoDup_cons. split; [|by apply IH].
  intros Hin%list_elem_of_In%filter_In. destruct Hin as [Hin _].
  by apply Hx, list_elem_of_In.
Qed.

Lemma elem_of_pull id j u :
  j ∈ User.cattle (User.pull id u) ↔ j ∈ User.cattle u ∧ j ≠ id.
Proof.
  unfold User.pull. simpl. rewrite list_elem_of_In, filter_In, <- list_elem_of_In.
  rewrite negb_true_iff, Nat.eqb_neq. done.
Qed.

Lemma addToSet_NoDup id u :
  NoDup (User.cattle u) → NoDup (User.cattle (User.addToSet id u)).
Proof.
  intros Hnd. unfold User.addToSet.
  destruct (existsb (Nat.eqb id) (User.cattle u)) eqn:E; simpl; [done|].
  apply NoDup_app. split; [done|]. split; [|apply NoDup_singleton].
  intros x Hx ->%list_elem_of_singleton.
  assert (existsb (Nat.eqb id) (User.cattle u) = true) as E'; [|congruence].
  apply existsb_exists. exists id. split; [by apply list_elem_of_In|apply Nat.eqb_refl].
Qed.

Lemma elem_of_addToSet id j u :
  j ∈ User.cattle (User.addToSet id u) ↔ j ∈ User.cattle u ∨ j = id.
Proof.
  unfold User.addToSet.
  destruct (existsb (Nat.eqb id) (User.cattle u)) eqn:E; simpl.
  - split; [by left|]. intros [H| ->]; [done|].
    apply existsb_exists in E as (x & Hin & ->%Nat.eqb_eq). by apply list_elem_of_In.
  - rewrite elem_of_app, list_elem_of_singleton. done.
Qed.

Lemma owner_query_owner uid id db c :
  Cattle_findOne (with_owner uid (by_id id)) db = Some c →
  cattles db !! id = Some c ∧ Cattle.owner c = uid.
Proof.
  intros [Hc Hm]%Cattle_findOne_Some. split; [done|].
  unfold matches in Hm. simpl in Hm. rewrite !andb_true_r in Hm.
  by apply Nat.eqb_eq.
Qed.

Lemma delete_holdings_sound req db :
  holdings_sound db → holdings_sound (run (CattleController.deleteCattle req) db).1.
Proof.
  intros Hinv. exec; try done.
  match goal with H : Cattle_findOne _ _ = Some _ |- _ =>
    apply owner_query_owner in H as [Hc Ho] end.
  intros uid u. simpl.
  destruct (decide (CattleController.o_user_id req = uid)) as [<-|Hne].
  - rewrite lookup_alter_eq.
    destruct (users db !! CattleController.o_user_id req) as [u0|] eqn:Hu; [|done].
    simpl. intros [= <-]. destruct (Hinv _ _ Hu) as [Hnd Hel].
    split; [by apply pull_NoDup|].
    intros id [Hid Hneq]%elem_of_pull. destruct (Hel id Hid) as (c & Hc' & Ho').
    exists c. by rewrite lookup_delete_ne.
  - rewrite lookup_alter_ne by done. intros Hu.
    destruct (Hinv _ _ Hu) as [Hnd Hel]. split; [done|].
    intros id Hid. destruct (Hel id Hid) as (c & Hc' & Ho').
    exists c. split; [|done]. rewrite lookup_delete_ne; [done|].
    intros <-. congruence.
Qed.

Lemma accept_state_sound db db' cid c c' :
  holdings_sound db → cattles db !! cid = Some c →
  cattles db' = <[cid := c']> (cattles db) →
  users db'
  = alter (User.addToSet cid) (Cattle.owner c')
      (alter (User.pull cid) (Cattle.owner c) (users db)) →
  holdings_sound db'.
Proof.
  intros Hinv Hc Ec Eu uid u'. rewrite Eu, Ec. clear Eu Ec.
  set (m1 := alter (User.pull cid) (Cattle.owner c) (users db)).
  assert (∀ u1, m1 !! uid = Some u1 →
            NoDup (User.cattle u1)
            ∧ ∀ id, id ∈ User.cattle u1 →
                id ≠ cid ∧ ∃ d, cattles db !! id = Some d ∧ Cattle.owner d = uid) as H1.
  { intros u1. unfold m1. destruct (decide (Cattle.owner c = uid)) as [E|E].
    - rewrite E, lookup_alter_eq.
      destruct (users db !! uid) as [u|] eqn:Hu; [|done]. simpl. intros [= <-].
      destruct (Hinv _ _ Hu) as [Hnd Hel]. split; [by apply pull_NoDup|].
      intros id [Hid Hne]%elem_of_pull. split; [done|]. by apply Hel.
    - rewrite lookup_alter_ne by done. intros Hu.
      destruct (Hinv _ _ Hu) as [Hnd Hel]. split; [done|].
      intros id Hid. destruct (Hel id Hid) as (d & Hd & Ho). split; [|eauto].
      intros ->. congruence. }
  destruct (decide (Cattle.owner c' = uid)) as [E|E].
  - rewrite E, lookup_alter_eq.
    destruct (m1 !! uid) as [u1|] eqn:Hu1; [|done]. simpl. intros [= <-].
    destruct (H1 u1 eq_refl) as [Hnd Hel]. split; [by apply addToSet_NoDup|].
    intros id [Hid| ->]%elem_of_addToSet.
    + destruct (Hel id Hid) as (Hne & d & Hd & Ho). exists d.
      by rewrite lookup_insert_ne.
    + exists c'. by rewrite lookup_insert_eq.
  - rewrite lookup_alter_ne by done. intros Hu1.
    destruct (H1 u' Hu1) as [Hnd Hel]. split; [done|].
    intros id Hid. destruct (Hel id Hid) as (Hne & d & Hd & Ho). exists d.
    by rewrite lookup_insert_ne.
Qed.

Lemma accept_holdings_sound now req db :
  holdings_sound db →
  holdings_sound (run (TransferFlow.acceptTransferRequest None now req) db).1.
Proof.
  intros Hinv. exec; try done.
  all: by eapply (accept_state_sound db); [exact Hinv|eassumption|reflexivity|reflexivity].
Qed.

Lemma create_doc_owner parsed now random now' req f u :
  Cattle.owner
    (CattleCreate.set_deadline parsed
       (CattleCreate.generate_id now random (CattleController.new_cattle now' req f u)))
  = CattleController.r_user_id req.
Proof.
  unfold CattleCreate.set_deadline, CattleCreate.generate_id. simpl.
  repeat (case_match; simpl); done.
Qed.

Lemma register_state_sound db db' uid u doc :
  holdings_sound db → users db !! uid = Some u → Cattle.owner doc = uid →
  cattles db' = <[fresh (dom (cattles db)) := doc]> (cattles db) →
  users db'
  = <[uid := User.set_cattle (User.cattle u ++ [fresh (dom (cattles db))]) u]> (users db) →
  holdings_sound db'.
Proof.
  intros Hinv Hu Ho Ec Eu uid' u'. rewrite Eu, Ec. clear Eu Ec.
  assert (∀ w x id, users db !! w = Some x → id ∈ User.cattle x →
            id ≠ fresh (dom (cattles db))) as Hfresh.
  { intros w x id Hw Hid ->. destruct (Hinv _ _ Hw) as [_ Hel].
    destruct (Hel _ Hid) as (d & Hd & _). by rewrite fresh_cattle_id in Hd. }
  destruct (decide (uid = uid')) as [<-|Hne].
  - rewrite lookup_insert_eq. intros [= <-]. simpl.
    destruct (Hinv _ _ Hu) as [Hnd Hel]. split.
    + apply NoDup_app. split; [done|]. split; [|apply NoDup_singleton].
      intros x Hx ->%list_elem_of_singleton. by eapply Hfresh.
    + intros id [Hid| ->%list_elem_of_singleton]%elem_of_app.
      * destruct (Hel id Hid) as (d & Hd & Hod). exists d.
        rewrite lookup_insert_ne; [done|]. intros E. by eapply Hfresh.
      * exists doc. by rewrite lookup_insert_eq.
  - rewrite lookup_insert_ne by done. intros Hu'.
    destruct (Hinv _ _ Hu') as [Hnd Hel]. split; [done|].
    intros id Hid. destruct (Hel id Hid) as (d & Hd & Hod). exists d.
    rewrite lookup_insert_ne; [done|]. intros E. by eapply Hfresh.
Qed.

Lemma register_holdings_sound schema env req db :
  holdings_sound db →
  holdings_sound (run (CattleController.register_route schema env req) db).1.
Proof.
  intros Hinv. exec; try done.
  all: by eapply register_state_sound;
         [exact Hinv|eassumption|apply create_doc_owner|eassumption|eassumption].
Qed.

Ltac sound_step :=
  exec; rewrite_frames; try done;
  try (sound_frame; try apply owner_kept_refl).

Lemma holdings_sound_serve schema r db :
  faultless r → holdings_sound db → holdings_sound (serve schema r db).1.
Proof.
  intros Hr Hinv. destruct r; simpl in *.
  - by apply register_holdings_sound.
  - by apply verify_holdings_sound.
  - sound_step. eapply owner_kept_insert; [by eapply owner_query_Some|done].
  - sound_step. eapply owner_kept_insert; [by eapply owner_query_Some|].
    unfold Cattle.restore. by case_match.
  - by apply delete_holdings_sound.
  - sound_step.
  - destruct fault; [done|]. by apply accept_holdings_sound.
  - sound_step.
  - sound_step.
  - sound_frame. apply owner_kept_refl.
  - sound_step.
  - sound_step.
  - sound_step. all: by eapply owner_kept_insert.
  - sound_step.
  - sound_step.
  - sound_frame. apply owner_kept_refl.
Qed.

(** X6. The holdings of the users stay sound: if no user's [cattle] array
    repeats an entry and every entry names a stored cattle owned by that
    user, then so it is after any sequence of requests in which no accept is
    interrupted. *)
Theorem holdings_name_cattle_of_their_owner schema rs db :
  Forall faultless rs → holdings_sound db → holdings_sound (serve_all schema rs db).
Proof.
  revert db. induction rs as [|r rs IH]; intros db Hrs Hinv; [done|].
  apply Forall_cons in Hrs as [Hr Hrs]. simpl. apply IH; [done|].
  by apply holdings_sound_serve.
Qed.

Lemma sample_holdings_sound : holdings_sound Sample.db_with_transfer.
Proof.
  intros uid u Hu.
  destruct (decide (uid = 1%nat)) as [->|H1]; [|destruct (decide (uid = 2%nat)) as [->|H2]].
  - vm_compute in Hu. injection Hu as <-. split.
    + simpl. apply NoDup_ListNoDup. repeat constructor; simpl; intuition discriminate.
    + intros id Hid. simpl in Hid.
      repeat (apply elem_of_cons in Hid as [->|Hid]); [..|by apply elem_of_nil in Hid];
        eexists; split; (vm_compute; reflexivity).
  - vm_compute in Hu. injection Hu as <-. split.
    + simpl. apply NoDup_ListNoDup. repeat constructor; simpl; intuition discriminate.
    + intros id Hid. simpl in Hid.
      repeat (apply elem_of_cons in Hid as [->|Hid]); [..|by apply elem_of_nil in Hid];
        eexists; split; (vm_compute; reflexivity).
  - unfold Sample.db_with_transfer, Sample.db in Hu. simpl in Hu.
    rewrite !lookup_insert_ne in Hu by done. by rewrite lookup_empty in Hu.
Qed.

(** Farmer 2 accepts the transfer of cattle 13, then archives and deletes
    it. *)
Lemma holdings_name_cattle_of_their_owner_witness :
  holdings_sound
    (serve_all CattleCreate.current_schema
       [Accept None 1700000500000 (TransferFlow.mkTransferReq 2 500 None);
        Archive 1700000600000 (CattleController.mkOwnerReq 2 13);
        Delete (CattleController.mkOwnerReq 2 13)]
       Sample.db_with_transfer).
Proof.
  apply holdings_name_cattle_of_their_owner.
  - repeat constructor.
  - apply sample_holdings_sound.
Defined.

(** ** The guards of the routes *)

Section Guards.
Import RoleMiddleware.

Lemma userType_is_true s req : userType_is s req = true ↔ userType req = Some s.
Proof.
  unfold userType_is. destruct (userType req) as [t|]; [|done].
  rewrite String.eqb_eq. split; [by intros ->|by intros [= ->]].
Qed.

Ltac guard_cases req :=
  unfold passes, userOnly, adminOnly, regionalAdminOnly, superAdminOnly, the_user,
    throw, respond, mret, handler_ret, mbind, handler_bind;
  let E := fresh "E" in
  match goal with
  | |- context [userType_is ?s req] =>
      destruct (userType_is s req) eqn:E;
        [apply userType_is_true in E
        |assert (userType req ≠ Some s)
           by (intros ?%userType_is_true; congruence)]
  end;
  simpl; destruct (user req) as [?u|]; simpl.

Ltac eqb_prop :=
  repeat match goal with
  | H : (_ === _) = true |- _ => apply String.eqb_eq in H
  | H : (_ === _) = false |- _ => apply String.eqb_neq in H
  end.

Ltac guard_iff :=
  split;
    [first [discriminate | intros _; repeat split; eauto 10]
    |first [reflexivity
           |intros (? & ? & ? & ?); simplify_eq/=; intuition congruence]].

Lemma userOnly_passes req db :
  passes (userOnly req) db
  ↔ userType req = Some "user" ∧ ∃ u, user req = Some u ∧ p_role u = "user".
Proof.
  guard_cases req; try guard_iff.
  destruct (p_role u === "user") eqn:Er; simpl; eqb_prop; guard_iff.
Qed.

Lemma adminOnly_passes req db :
  passes (adminOnly req) db
  ↔ userType req = Some "admin"
    ∧ ∃ u, user req = Some u
           ∧ (p_role u = "regional_admin" ∨ p_role u = "super_admin").
Proof.
  guard_cases req; try guard_iff.
  destruct (p_role u === "regional_admin") eqn:Er;
    destruct (p_role u === "super_admin") eqn:Es; simpl; eqb_prop; guard_iff.
Qed.

Lemma regionalAdminOnly_passes req db :
  passes (regionalAdminOnly req) db
  ↔ userType req = Some "admin"
    ∧ ∃ u, user req = Some u ∧ p_role u = "regional_admin" ∧ p_isApproved u = true.
Proof.
  guard_cases req; try guard_iff.
  destruct (p_role u === "regional_admin") eqn:Er; simpl; eqb_prop; [|guard_iff].
  destruct (p_isApproved u) eqn:Ea; simpl; guard_iff.
Qed.

Lemma superAdminOnly_passes req db :
  passes (superAdminOnly req) db
  ↔ userType req = Some "admin" ∧ ∃ u, user req = Some u ∧ p_role u = "super_admin".
Proof.
  guard_cases req; try guard_iff.
  destruct (p_role u === "super_admin") eqn:Er; simpl; eqb_prop; guard_iff.
Qed.

(** X7. The role guards: whoever passes [regionalAdminOnly] or
    [superAdminOnly] passes [adminOnly]; nobody passes both
    [regionalAdminOnly] and [superAdminOnly], nor both [userOnly] and
    [adminOnly]; and a principal of role 'm_admin' passes none of the four. *)
Theorem role_guards_nest req db :
  (passes (regionalAdminOnly req) db → passes (adminOnly req) db)
  ∧ (passes (superAdminOnly req) db → passes (adminOnly req) db)
  ∧ ¬ (passes (regionalAdminOnly req) db ∧ passes (superAdminOnly req) db)
  ∧ ¬ (passes (userOnly req) db ∧ passes (adminOnly req) db)
  ∧ (∀ u, user req = Some u → p_role u = "m_admin" →
       ¬ passes (adminOnly req) db ∧ ¬ passes (regionalAdminOnly req) db
       ∧ ¬ passes (superAdminOnly req) db ∧ ¬ passes (userOnly req) db).
Proof.
  rewrite userOnly_passes, adminOnly_passes, regionalAdminOnly_passes,
    superAdminOnly_passes.
  unfold not. split; [|split; [|split; [|split]]].
  - intros (Ht & u & Hu & Hr & _). eauto 10.
  - intros (Ht & u & Hu & Hr). eauto 10.
  - intros [(_ & u & Hu & Hr & _) (_ & u' & Hu' & Hr')]. congruence.
  - intros [(Ht & _) (Ht' & _)]. congruence.
  - intros u Hu Hr. unfold not. split; [|split; [|split]].
    + intros (_ & u' & Hu' & [Hr'|Hr'])%adminOnly_passes; congruence.
    + intros (_ & u' & Hu' & Hr' & _)%regionalAdminOnly_passes; congruence.
    + intros (_ & u' & Hu' & Hr')%superAdminOnly_passes; congruence.
    + intros (_ & u' & Hu' & Hr')%userOnly_passes; congruence.
Qed.

End Guards.

(** An approved regional reviewer passes the administrators' guard. *)
Lemma role_guards_nest_witness :
  RoleMiddleware.passes (RoleMiddleware.adminOnly Examples.reviewer_request) Sample.db.
Proof.
  destruct (role_guards_nest Examples.reviewer_request Sample.db) as [H _].
  apply H. reflexivity.
Defined.

(** ** The routes of the owner of a cattle *)

Section OwnerRoutes.
Import RoleMiddleware CattleRoutes.

Lemma owner_query_found uid id db c :
  cattles db !! id = Some c → Cattle.owner c = uid →
  Cattle_findOne (with_owner uid (by_id id)) db = Some c.
Proof.
  intros Hc Ho. unfold Cattle_findOne, matches. simpl.
  by rewrite Hc, Ho, Nat.eqb_refl.
Qed.

Lemma owner_route_guarded op id req db :
  (∃ r, run (owner_route op id req) db = (db, r)
        ∧ (code r = 403 ∨ code r = 404 ∨ code r = 500))
  ∨ (∃ u c, userType req = Some "user" ∧ user req = Some u ∧ p_role u = "user"
            ∧ cattles db !! id = Some c ∧ Cattle.owner c = p_id u
            ∧ run (owner_route op id req) db
              = run (controller op (CattleController.mkOwnerReq (p_id u) id)) db).
Proof.
  unfold owner_route, bind_id, userOnly, checkOwnership, the_user, or_id.
  cbn [userType user params_id params_cattleId].
  destruct (userType_is "user" _) eqn:Et; simpl.
  2:{ left. eexists. split; [reflexivity|]. simpl. auto. }
  assert (userType req = Some "user") as Ht.
  { unfold userType_is in Et. simpl in Et.
    destruct (userType req) as [t|]; [|done]. by apply String.eqb_eq in Et as ->. }
  assert (userType_is "admin" (mkReq (userType req) (user req) (Some id)
            (params_cattleId req) (params_userId req) (body_cattleId req)
            (body_userId req) (body_state req) (params_state req) (query_state req))
          = false) as ->.
  { unfold userType_is. simpl. by rewrite Ht. }
  destruct (user req) as [u|] eqn:Hu; simpl.
  2:{ left. eexists. split; [reflexivity|]. simpl. auto. }
  unfold run, mbind, handler_bind, mret, handler_ret, respond, read. simpl.
  destruct (p_role u === "user") eqn:Er; simpl.
  2:{ left. eexists. split; [reflexivity|]. simpl. auto. }
  apply String.eqb_eq in Er.
  destruct (cattles db !! id) as [c|] eqn:Hc; simpl.
  2:{ left. eexists. split; [reflexivity|]. simpl. auto. }
  destruct (Nat.eqb (Cattle.owner c) (p_id u)) eqn:Eo; simpl.
  2:{ left. eexists. split; [reflexivity|]. simpl. auto. }
  apply Nat.eqb_eq in Eo. right. exists u, c. done.
Qed.

Lemma owner_route_eq op id req db u c :
  userType req = Some "user" → user req = Some u → p_role u = "user" →
  cattles db !! id = Some c →
  run (owner_route op id req) db
  = if Nat.eqb (Cattle.owner c) (p_id u)
    then run (controller op (CattleController.mkOwnerReq (p_id u) id)) db
    else (db, mkResponse 403 "You do not have permission to access this cattle").
Proof.
  intros Ht Hu Hr Hc.
  unfold owner_route, bind_id, userOnly, checkOwnership, the_user, or_id, userType_is.
  cbn [userType user params_id params_cattleId]. rewrite Ht, Hu.
  cbn beta iota. rewrite String.eqb_refl.
  change ("user" === "admin") with false. change ("cattle" === "cattle") with true.
  cbn [negb].
  unfold run, mbind, handler_bind, mret, handler_ret, respond, read.
  cbn beta iota. rewrite Hr, String.eqb_refl. cbn [negb]. cbn beta iota.
  rewrite Hc. cbn beta iota.
  destruct (Nat.eqb (Cattle.owner c) (p_id u)); reflexivity.
Qed.

Lemma owner_controller_not_404 op uid id db c :
  cattles db !! id = Some c → Cattle.owner c = uid →
  code (run (controller op (CattleController.mkOwnerReq uid id)) db).2 ≠ 404.
Proof.
  intros Hc Ho. pose proof (owner_query_found uid id db c Hc Ho) as Hq.
  destruct op; simpl; unfold_handlers; simpl; rewrite Hq;
    repeat (case_match; simplify_eq/=); discriminate.
Qed.

(** X8. The archive, restore and delete routes of a cattle write only for
    the farmer who owns it: whenever one of them changes the database, the
    request is of type 'user' with role 'user' and the cattle is stored with
    that user as owner.  A farmer asking for a stored cattle of someone else
    is answered 403 by the ownership guard and nothing changes; for the
    owner the route answers what the controller answers, which is then
    never 404. *)
Theorem owner_routes_serve_only_the_owner op id req db :
  ((run (owner_route op id req) db).1 ≠ db →
   ∃ u c, userType req = Some "user" ∧ user req = Some u ∧ p_role u = "user"
          ∧ cattles db !! id = Some c ∧ Cattle.owner c = p_id u)
  ∧ (∀ u c, userType req = Some "user" → user req = Some u → p_role u = "user" →
       cattles db !! id = Some c →
       (Cattle.owner c ≠ p_id u →
        run (owner_route op id req) db
        = (db, mkResponse 403 "You do not have permission to access this cattle"))
       ∧ (Cattle.owner c = p_id u →
          run (owner_route op id req) db
          = run (controller op (CattleController.mkOwnerReq (p_id u) id)) db
          ∧ code (run (owner_route op id req) db).2 ≠ 404)).
Proof.
  split.
  - intros Hch. destruct (owner_route_guarded op id req db)
      as [(r & Hr & _)|(u & c & ? & ? & ? & ? & ? & _)].
    + rewrite Hr in Hch. by destruct Hch.
    + eauto 10.
  - intros u c Ht Hu Hr Hc.
    rewrite (owner_route_eq op id req db u c Ht Hu Hr Hc). split.
    + intros Ho%Nat.eqb_neq. by rewrite Ho.
    + intros Ho. rewrite Ho, Nat.eqb_refl. split; [done|].
      rewrite <- Ho. by eapply owner_controller_not_404.
Qed.

End OwnerRoutes.

(** Farmer 2 asks to archive cattle 13 of farmer 1. *)
Lemma owner_routes_serve_only_the_owner_witness :
  run (CattleRoutes.owner_route (CattleRoutes.ArchiveOp 1700000600000) 13
         Examples.farmer_two_request) Sample.db
  = (Sample.db, mkResponse 403 "You do not have permission to access this cattle").
Proof.
  destruct (owner_routes_serve_only_the_owner (CattleRoutes.ArchiveOp 1700000600000)
              13 Examples.farmer_two_request Sample.db) as [_ H].
  destruct (H Examples.farmer_two (Sample.cattle 1 "Texas" "active" "approved"))
    as [H403 _]; [reflexivity..|].
  apply H403. simpl. lia.
Defined.

(** ** The error middleware *)

Section Errors.
Import ErrorMiddleware.

(** X9. The error handler never answers 200: the status is 404, 400 or 401
    for the errors it recognises and otherwise the status set before, with
    500 in place of 200.  It throws itself only on a duplicate-key error
    without [keyPattern] and on a ValidationError without [errors].  The
    error of [notFound] is answered 404, and a thrown [Error] or
    ValidationError is answered as [throw] and [throw_validation] say. *)
Theorem error_handler_answers size_text :
  (∀ err statusCode,
     match errorHandler size_text err statusCode with
     | Some r =>
         code r ≠ 200
         ∧ (code r = 404 ∨ code r = 400 ∨ code r = 401
            ∨ code r = (if statusCode =? 200 then 500 else statusCode))
     | None =>
         (e_code err = Some (NumCode 11000) ∧ e_keyPattern err = None)
         ∨ (e_name err = "ValidationError" ∧ e_errors err = None)
     end)
  ∧ (∀ url, errorHandler size_text (notFound url).1 (notFound url).2
            = Some (mkResponse 404 ("Not Found - " +:+ url)))
  ∧ (∀ msg db, errorHandler size_text (plain msg) 200
               = Some (run (throw msg) db).2)
  ∧ (∀ msg db, errorHandler size_text (validation msg) 200
               = Some (run (throw_validation msg) db).2).
Proof.
  split; [|split; [|split]].
  - intros err statusCode. unfold errorHandler.
    destruct (is_num 11000 (e_code err)) eqn:Ec.
    + assert (e_code err = Some (NumCode 11000)) as Ec'.
      { unfold is_num in Ec. destruct (e_code err) as [[n|s]|]; try done.
        by apply Z.eqb_eq in Ec as ->. }
      destruct (e_keyPattern err) as [keys|] eqn:Ek; simpl; [|by left].
      destruct (e_name err === "ValidationError") eqn:Ev; simpl.
      * apply String.eqb_eq in Ev. destruct (e_errors err); simpl; [|by right].
        repeat case_match; simpl; (split; [discriminate|auto]).
      * repeat case_match; simpl; (split; [discriminate|auto]).
    + simpl. destruct (e_name err === "ValidationError") eqn:Ev; simpl.
      * apply String.eqb_eq in Ev. destruct (e_errors err); simpl; [|by right].
        repeat case_match; simpl; (split; [discriminate|auto]).
      * repeat case_match; simpl;
          (split; [try discriminate|auto]).
        all: match goal with
             | H : (_ =? 200) = false |- _ => apply Z.eqb_neq in H; exact H
             end.
  - intros url. reflexivity.
  - intros msg db. reflexivity.
  - intros msg db. reflexivity.
Qed.

End Errors.

(** ** The administrator accounts *)

Section Admins.
Import AdminManagement.

Lemma find_active_inactive role state db id a :
  admins db !! id = Some a → Admin.isActive a = false →
  id ∉ (Admin_find_active role state db).*1.
Proof.
  intros Ha Hact (x & -> & Hx)%list_elem_of_fmap.
  unfold Admin_find_active in Hx.
  apply list_elem_of_In, filter_In in Hx as [Hin Hp].
  destruct x as [j b]. simpl in *.
  apply list_elem_of_In, elem_of_map_to_list in Hin.
  assert (b = a) as -> by congruence.
  rewrite Hact in Hp. by rewrite andb_false_r in Hp.
Qed.

Lemma deactivate_run req db a :
  admins db !! params_id req = Some a →
  code (run (deactivateAdmin req) db).2 = 200 →
  (Admin.role a === "super_admin") = false
  ∧ run (deactivateAdmin req) db
    = (set_notifications
         (notifications db
          ++ [Notification.mk (params_id req) "Admin" "account_deactivated"
                None None "urgent"])
         (set_admins
            (<[params_id req := set_flags false (Admin.isApproved a) a]> (admins db)) db),
       mkResponse 200 "Admin account deactivated successfully").
Proof.
  intros Ha. unfold deactivateAdmin, run. rewrite bind_read, Ha.
  destruct (Admin.role a === "super_admin") eqn:Er; [discriminate|].
  unfold save, Admin_save. destruct (Admin.pre_save _) eqn:Ep; [discriminate|]. intros _.
  split; reflexivity.
Qed.

(** X10. After [deactivateAdmin] has answered 200 the administrator is
    stored inactive with the approval flag as it was, is found by no search
    for active administrators, whatever the role and the state, and - when
    approved before - is not made active again by [approveAdmin], which
    answers 400. *)
Theorem deactivated_admin_stays_out req db a :
  admins db !! params_id req = Some a →
  code (run (deactivateAdmin req) db).2 = 200 →
  admins (run (deactivateAdmin req) db).1 !! params_id req
  = Some (set_flags false (Admin.isApproved a) a)
  ∧ (Admin.isApproved a = true →
     ∀ req', params_id req' = params_id req →
       run (approveAdmin req') (run (deactivateAdmin req) db).1
       = ((run (deactivateAdmin req) db).1, mkResponse 400 "Admin is already approved"))
  ∧ (∀ role state,
       params_id req ∉ (Admin_find_active role state (run (deactivateAdmin req) db).1).*1).
Proof.
  intros Ha Hok. destruct (deactivate_run req db a Ha Hok) as [Er ->].
  cbn [fst].
  assert (admins (set_notifications
         (notifications db
          ++ [Notification.mk (params_id req) "Admin" "account_deactivated"
                None None "urgent"])
         (set_admins
            (<[params_id req := set_flags false (Admin.isApproved a) a]> (admins db)) db))
          !! params_id req = Some (set_flags false (Admin.isApproved a) a)) as Hl
    by (cbn; apply lookup_insert_eq).
  split; [exact Hl|]. split.
  - intros Happ req' Hid. unfold approveAdmin, run. rewrite bind_read, Hid, Hl.
    cbn [set_flags Admin.role Admin.isApproved]. by rewrite Er, Happ.
  - intros role state. by eapply find_active_inactive.
Qed.

End Admins.

(** The super admin 102 deactivates the Texas reviewer 100. *)
Lemma deactivated_admin_stays_out_witness :
  admins (run (AdminManagement.deactivateAdmin (AdminManagement.mkReq 102 100))
            Sample.db).1 !! 100%nat
  = Some (AdminManagement.set_flags false true Sample.texas_reviewer).
Proof.
  apply (deactivated_admin_stays_out (AdminManagement.mkReq 102 100) Sample.db
           Sample.texas_reviewer); vm_compute; reflexivity.
Defined.

(** ** Pagination *)

Section Pagination.
Import Listing.

Lemma take_take_drop_app {A} (l : list A) n m :
  take n l ++ take m (drop n l) = take (n + m) l.
Proof.
  revert l. induction n as [|n IH]; intros l; simpl; [done|].
  destruct l as [|x l]; simpl; [by rewrite take_nil|]. by rewrite IH.
Qed.

Lemma pages_concat {A} (L : nat) (l : list A) (n : nat) :
  mjoin (map (λ k, take L (drop (k * L) l)) (seq 0 n)) = take (n * L) l.
Proof.
  induction n as [|n IH]; [done|].
  rewrite seq_S, map_app, join_app, IH. simpl. rewrite app_nil_r.
  rewrite take_take_drop_app. f_equal. lia.
Qed.

Lemma nth_page_eq {A} (n : Z) (k : nat) (l : list A) :
  0 < n →
  nth_page n (S k) l = take (Z.to_nat n) (drop (k * Z.to_nat n) l).
Proof.
  intros Hn. unfold nth_page, window.
  assert (skip (mkPaging (Some (plain (Z.of_nat (S k)))) (Some (plain n)))
          = Z.of_nat k * n) as ->
    by (unfold skip, page, limit; simpl; lia).
  change (as_int (limit (mkPaging (Some (plain (Z.of_nat (S k)))) (Some (plain n)))))
    with n.
  destruct (Z.of_nat k * n <? 0) eqn:E; [apply Z.ltb_lt in E; nia|].
  destruct (n =? 0) eqn:E0; [apply Z.eqb_eq in E0; lia|]. simpl.
  rewrite Z.abs_eq by lia. do 2 f_equal. nia.
Qed.

(** X11. Pagination over one sorted result [l], for a page and a limit
    given as plain decimal integers (which [parseInt] and the numeric
    coercion read alike): with a positive limit [n] the pages 1 to [m], [m]
    being the number of pages reported, hold at most [n] documents each,
    are not empty, and one after the other give [l] exactly; every page
    after [m] is empty. *)
Theorem pages_partition_the_result {A} (n : Z) (l : list A) :
  0 < n →
  ∃ m : nat,
    pages (length l) (mkPaging None (Some (plain n))) = Some (Z.of_nat m)
    ∧ mjoin (map (λ k, nth_page n (S k) l) (seq 0 m)) = l
    ∧ (∀ k, Z.of_nat (length (nth_page n (S k) l)) ≤ n)
    ∧ (∀ k, (m ≤ k)%nat → nth_page n (S k) l = [])
    ∧ (∀ k, (k < m)%nat → nth_page n (S k) l ≠ []).
Proof.
  intros Hn. set (L := Z.to_nat n).
  assert (0 < L)%nat as HL by (unfold L; lia).
  set (q := - (- Z.of_nat (length l) / n)).
  assert (Z.of_nat (length l) ≤ q * n ∧ (q - 1) * n < Z.of_nat (length l)) as [Hq1 Hq2].
  { unfold q. pose proof (Z.div_mod (- Z.of_nat (length l)) n ltac:(lia)) as Hd.
    pose proof (Z.mod_pos_bound (- Z.of_nat (length l)) n Hn). nia. }
  assert (0 ≤ q) as Hq0 by nia.
  exists (Z.to_nat q). split; [|split; [|split; [|split]]].
  - unfold pages, limit. simpl. destruct (n =? 0) eqn:E0; [apply Z.eqb_eq in E0; lia|].
    by rewrite Z2Nat.id.
  - erewrite map_ext by (intros k; apply nth_page_eq; exact Hn).
    fold L. rewrite pages_concat. apply take_ge. unfold L. nia.
  - intros k. rewrite nth_page_eq by done. rewrite length_take. lia.
  - intros k Hk. rewrite nth_page_eq by done. fold L.
    rewrite drop_ge; [by rewrite take_nil|]. unfold L. nia.
  - intros k Hk. rewrite nth_page_eq by done. fold L.
    intros E. apply (f_equal length) in E. rewrite length_take, length_drop in E.
    simpl in E. unfold L in *. nia.
Qed.

(** Outside the plain integers the two readings part: the limit [1e1] is
    10 for the skip and the page count and 1 for the store.  Of twelve
    documents two pages are reported, the first holds the first document
    and the second the eleventh. *)
Lemma exponent_limit_skips_documents :
  let limit := mkParam 10 1 in
  let l := [1; 2; 3; 4; 5; 6; 7; 8; 9; 10; 11; 12]%nat in
  paginate (mkPaging (Some (plain 1)) (Some limit)) l
  = inr (mkPage [1%nat] 12 1 (Some 2) 1)
  ∧ paginate (mkPaging (Some (plain 2)) (Some limit)) l
    = inr (mkPage [11%nat] 12 2 (Some 2) 1).
Proof. by vm_compute. Qed.

End Pagination.

(** Five documents, two a page: three pages. *)
Lemma pages_partition_the_result_witness :
  ∃ m : nat,
    Listing.pages 5 (Listing.mkPaging None (Some (Listing.plain 2))) = Some (Z.of_nat m)
    ∧ mjoin (map (λ k, Listing.nth_page 2 (S k) [10; 11; 12; 13; 14]%nat) (seq 0 m))
      = [10; 11; 12; 13; 14]%nat.
Proof.
  destruct (pages_partition_the_result 2 [10; 11; 12; 13; 14]%nat) as (m & H1 & H2 & _);
    [lia|].
  exists m. split; [exact H1|exact H2].
Defined.

(** ** What a reviewer is shown and what a reviewer can act on *)

Section Review.
Context (regex_i : string → string → bool) (tagNo : ObjectId → option string).
Import AdminController.

Lemma scoped_findOne rs role req db :
  Views.findOne regex_i tagNo (params_id req)
    (Views.scope [role] (user req) (Views.set_verification_status rs Views.any)) db
  = Cattle_findOne (scoped_query rs role req) db.
Proof.
  unfold Views.findOne, Cattle_findOne. rewrite scoped_query_id.
  destruct (cattles db !! params_id req) as [c|]; [|done].
  unfold Views.scope, scoped_query. simpl. rewrite orb_false_r.
  destruct (Admin.role (user req) === role); unfold Views.selects, matches; simpl;
    by rewrite ?andb_true_r.
Qed.

Lemma handler_found_not_404 op now req db c :
  (needs_reason op = true → falsy (body_reason req) = false) →
  Cattle_findOne (scoped_query (required_status op) (scoped_role op) req) db = Some c →
  code (run (handler op now req) db).2 ≠ 404.
Proof.
  intros Hreason Hq.
  destruct (handler_found op now req db c Hreason Hq) as [_ Hcode].
  simpl in Hcode. lia.
Qed.

(** X12. What a reviewer is shown is what the reviewer can act on:
    [getCattleForRegionalReview] answers a cattle exactly when forward and
    deny, given a reason where one is required, do not answer 404, and
    [getCattleForMAdminVerification] exactly when approve and reject do
    not. *)
Theorem shown_for_review_iff_actionable now now' req db :
  (∀ op, (op = Forward ∨ op = Deny) →
     (needs_reason op = true → falsy (body_reason req) = false) →
     ((∃ d, Views.getCattleForRegionalReview regex_i tagNo now req db = inr d)
      ↔ code (run (handler op now' req) db).2 ≠ 404))
  ∧ (∀ op, (op = Approve ∨ op = Reject) →
       (needs_reason op = true → falsy (body_reason req) = false) →
       ((∃ d, Views.getCattleForMAdminVerification regex_i tagNo req db = inr d)
        ↔ code (run (handler op now' req) db).2 ≠ 404)).
Proof.
  split; intros op Hop Hreason.
  - unfold Views.getCattleForRegionalReview. cbv zeta.
    rewrite (scoped_findOne "pending_regional_review" "regional_admin").
    assert (required_status op = "pending_regional_review"
            ∧ scoped_role op = "regional_admin") as [Es Er]
      by (destruct Hop as [-> | ->]; done).
    destruct (Cattle_findOne _ db) as [c|] eqn:Hq.
    + split; [intros _|eauto].
      eapply handler_found_not_404; [done|]. by rewrite Es, Er.
    + split; [by intros [d Hd]|]. intros Hcode. destruct Hcode.
      rewrite (handler_not_found op now' req db Hreason) by (by rewrite Es, Er).
      by destruct Hop as [-> | ->].
  - unfold Views.getCattleForMAdminVerification. cbv zeta.
    rewrite (scoped_findOne "forwarded_to_m_admin" "m_admin").
    assert (required_status op = "forwarded_to_m_admin"
            ∧ scoped_role op = "m_admin") as [Es Er]
      by (destruct Hop as [-> | ->]; done).
    destruct (Cattle_findOne _ db) as [c|] eqn:Hq.
    + split; [intros _|eauto].
      eapply handler_found_not_404; [done|]. by rewrite Es, Er.
    + split; [by intros [d Hd]|]. intros Hcode. destruct Hcode.
      rewrite (handler_not_found op now' req db Hreason) by (by rewrite Es, Er).
      by destruct Hop as [-> | ->].
Qed.

End Review.

(** The Ohio reviewer is shown cattle 10, which they can forward. *)
Lemma shown_for_review_iff_actionable_witness :
  ∃ d, Views.getCattleForRegionalReview Examples.contains Examples.no_tag
         1700000100000 (AdminController.mkReq 103 Sample.ohio_reviewer 10 None)
         Sample.db = inr d.
Proof.
  destruct (shown_for_review_iff_actionable Examples.contains Examples.no_tag
              1700000100000 1700000200000
              (AdminController.mkReq 103 Sample.ohio_reviewer 10 None) Sample.db)
    as [H _].
  apply (H AdminController.Forward); [by left|discriminate|].
  vm_compute. discriminate.
Defined.

(** ** The listings *)

Section Listings.
Context (sort : ∀ A : Type, string → Z → list A → list A).
Context (regex_i : string → string → bool) (tagNo : ObjectId → option string).
Hypothesis sort_perm : ∀ A field direction (l : list A), sort A field direction l ≡ₚ l.

Lemma window_sublist {A} p (l xs : list A) x :
  Listing.window p l = Some xs → x ∈ xs → x ∈ l.
Proof.
  unfold Listing.window. destruct (Listing.skip p <? 0); [done|].
  intros [= <-] Hx.
  destruct (Listing.as_int (Listing.limit p) =? 0).
  - eapply elem_of_sublist; [exact Hx|apply sublist_drop].
  - eapply elem_of_sublist; [|apply sublist_drop].
    eapply elem_of_sublist; [exact Hx|apply sublist_take].
Qed.

Lemma listing_items {A} field direction p (found : list A) page :
  Views.listing sort field direction p found = inr page →
  (∀ x, x ∈ Listing.items page → x ∈ found)
  ∧ Listing.total page = length found.
Proof.
  unfold Views.listing, Listing.paginate.
  destruct (Listing.window p _) as [xs|] eqn:Hw; [|done]. intros [= <-]. simpl.
  split.
  - intros x Hx. eapply window_sublist in Hx; [|exact Hw]. by rewrite sort_perm in Hx.
  - by rewrite sort_perm.
Qed.

Lemma elem_of_find f db id c :
  (id, c) ∈ Views.find regex_i tagNo f db
  ↔ cattles db !! id = Some c ∧ Views.selects regex_i tagNo f (id, c) = true.
Proof.
  unfold Views.find. rewrite list_elem_of_In, filter_In, <- list_elem_of_In.
  by rewrite elem_of_map_to_list.
Qed.


Lemma scope_state roles user f :
  Views.f_state (Views.scope roles user f)
  = if List.existsb (String.eqb (Admin.role user)) roles
    then Some (Admin.assignedRegion_state user) else Views.f_state f.
Proof. unfold Views.scope. by destruct (existsb _ _). Qed.

(** The overdue filter of the query is the overdue test of the document,
    on the documents awaiting regional review. *)
Lemma overdue_selects now (req req' : Views.AdminListReq) x :
  Views.al_user req = Views.al_user req' →
  Views.al_overdue req = Some "true" → Views.al_overdue req' = None →
  Views.selects regex_i tagNo (Views.pendingRegionalReview_query now req) x
  = Views.selects regex_i tagNo (Views.pendingRegionalReview_query now req') x
    && Cattle.isVerificationOverdue now x.2.
Proof.
  intros Hu Ho Ho'. unfold Views.pendingRegionalReview_query. rewrite Ho, Ho', Hu.
  cbv zeta. unfold Views.scope. simpl. rewrite orb_false_r.
  unfold Cattle.isVerificationOverdue.
  destruct (Admin.role (Views.al_user req') === "regional_admin");
    unfold Views.selects; simpl;
    destruct (Cattle.status x.2 === "transit");
    destruct (Cattle.v_status (Cattle.verification x.2) === "pending_regional_review");
    destruct (Cattle.turnaroundDeadline (Cattle.verification x.2)) as [d|]; simpl;
    rewrite ?andb_true_r, ?andb_false_r; try done;
    repeat case_match; simpl; rewrite ?andb_true_r, ?andb_false_r; done.
Qed.

(** X13. The list of cattle awaiting regional review: every document of a
    page is a stored cattle in transit that awaits regional review, of the
    caller's region when the caller is a regional admin; its [isOverdue] flag
    is the overdue test of the model, and is true on every document when the
    list was asked with [overdue=true], whose total is then the number of
    overdue documents of the list asked without. *)
Theorem overdue_flag_agrees_with_overdue_filter now req db page :
  Views.getPendingRegionalReview sort regex_i tagNo now req db = inr page →
  (∀ id c flag, (id, c, flag) ∈ Listing.items page →
     cattles db !! id = Some c
     ∧ Cattle.status c = "transit"
     ∧ Cattle.v_status (Cattle.verification c) = "pending_regional_review"
     ∧ flag = Cattle.isVerificationOverdue now c
     ∧ (Views.al_overdue req = Some "true" → flag = true)
     ∧ (Admin.role (Views.al_user req) = "regional_admin" →
        Admin.assignedRegion_state (Views.al_user req)
        = Some (Cattle.state (Cattle.location c))))
  ∧ (Views.al_overdue req = Some "true" →
     ∀ req', Views.al_user req' = Views.al_user req → Views.al_overdue req' = None →
       Listing.total page
       = length (List.filter (λ x, Cattle.isVerificationOverdue now x.2)
                   (Views.find regex_i tagNo
                      (Views.pendingRegionalReview_query now req') db))).
Proof.
  unfold Views.getPendingRegionalReview.
  destruct (Views.listing _ _ _ _ _) as [r|cattle] eqn:Hl; [done|].
  intros [= <-]. apply listing_items in Hl as [Hitems Htotal]. split.
  - intros id c flag Hin. simpl in Hin.
    apply list_elem_of_fmap in Hin as ([id' c'] & [= -> -> ->] & Hin).
    apply Hitems, elem_of_find in Hin as [Hc Hsel]. split; [done|].
    assert (Views.selects regex_i tagNo
              (Views.scope ["regional_admin"] (Views.al_user req)
                 (Views.set_verification_status "pending_regional_review"
                    (Views.set_status "transit" Views.any))) (id', c') = true
            ∧ (Views.al_overdue req = Some "true" →
               Cattle.isVerificationOverdue now c' = true)) as [Hbase Hover].
    { destruct (decide (Views.al_overdue req = Some "true")) as [Ho|Ho].
      - rewrite (overdue_selects now req
                   (Views.mkAdminListReq (Views.al_user req) (Views.al_paging req)
                      None None None None None None None)) in Hsel by done.
        apply andb_true_iff in Hsel as [H1 H2]. split; [|done].
        revert H1. unfold Views.pendingRegionalReview_query. done.
      - split; [|done]. revert Hsel. unfold Views.pendingRegionalReview_query.
        cbv zeta. destruct (Views.al_overdue req) as [o|]; [|done].
        destruct (decide (o = "true")) as [->|Hne]; [done|].
        destruct o as [|a o]; [done|].
        repeat (case_match; try done). }
    revert Hbase. unfold Views.scope. simpl. rewrite orb_false_r.
    destruct (Admin.role (Views.al_user req) === "regional_admin") eqn:Er;
      unfold Views.selects; simpl; rewrite ?andb_true_r; intros Hbase.
    + destruct (Admin.assignedRegion_state (Views.al_user req)) as [s|] eqn:Es;
        [|by rewrite andb_false_r in Hbase].
      apply andb_true_iff in Hbase as [Hbase ?%String.eqb_eq].
      apply andb_true_iff in Hbase as [?%String.eqb_eq ?%String.eqb_eq].
      repeat split; try done. intros _. congruence.
    + apply andb_true_iff in Hbase as [?%String.eqb_eq ?%String.eqb_eq].
      repeat split; try done. intros Hr. apply String.eqb_neq in Er. done.
  - intros Ho req' Hu Ho'. simpl. rewrite Htotal. unfold Views.find.
    rewrite <- (List.filter_ext _ _ (λ x, eq_sym (overdue_selects now req req' x
                   (eq_sym Hu) Ho Ho'))).
    induction (map_to_list (cattles db)) as [|x l IH]; [done|]. simpl.
    destruct (Views.selects regex_i tagNo _ x); simpl; [|exact IH].
    destruct (Cattle.isVerificationOverdue now x.2); simpl; by rewrite IH.
Qed.


Lemma when_state p assign f :
  (∀ x g, Views.f_state (assign x g) = Views.f_state g) →
  Views.f_state (Views.when p assign f) = Views.f_state f.
Proof. intros H. unfold Views.when. destruct (falsy p); [done|apply H]. Qed.

Lemma when_owner p assign f :
  (∀ x g, Views.f_owner (assign x g) = Views.f_owner g) →
  Views.f_owner (Views.when p assign f) = Views.f_owner f.
Proof. intros H. unfold Views.when. destruct (falsy p); [done|apply H]. Qed.

Lemma apply_filters_state st vs br state di se f :
  Views.f_state (Views.apply_filters st vs br state di se f)
  = if falsy state then Views.f_state f else Some state.
Proof.
  unfold Views.apply_filters. cbv zeta.
  rewrite when_state by done. rewrite when_state by done.
  unfold Views.when at 1. destruct (falsy state) eqn:E.
  - by rewrite !when_state by done.
  - simpl. destruct state as [s|]; [|done]. done.
Qed.

Lemma apply_filters_owner st vs br state di se f :
  Views.f_owner (Views.apply_filters st vs br state di se f) = Views.f_owner f.
Proof. unfold Views.apply_filters. cbv zeta. by rewrite !when_owner by done. Qed.

Lemma selects_owner f x o :
  Views.f_owner f = Some o → Views.selects regex_i tagNo f x = true →
  Cattle.owner x.2 = o.
Proof.
  intros Ho. unfold Views.selects. rewrite Ho. intros H.
  repeat (apply andb_true_iff in H as [H _]). by apply Nat.eqb_eq.
Qed.

Lemma selects_state f x s :
  Views.f_state f = Some s → Views.selects regex_i tagNo f x = true →
  s = Some (Cattle.state (Cattle.location x.2)).
Proof.
  intros Hs. unfold Views.selects. rewrite Hs. intros H.
  repeat (apply andb_true_iff in H as [H ?]).
  destruct s as [s|]; [|done]. f_equal. symmetry. by apply String.eqb_eq.
Qed.

(** X14. In the administrators' list of all cattle a [state] parameter
    replaces the region of the caller: without it a regional admin or M_Admin
    is shown cattle of the assigned state only; with it the answer does not
    depend on the caller, and every cattle shown is of the requested
    state. *)
Theorem state_parameter_replaces_the_region (req : Views.AdminListReq) db :
  (falsy (Views.al_state req) = true →
   Admin.role (Views.al_user req) = "regional_admin"
   ∨ Admin.role (Views.al_user req) = "m_admin" →
   ∀ page, Views.adminGetAllCattle sort regex_i tagNo req db = inr page →
     ∀ id c, (id, c) ∈ Listing.items page →
       Admin.assignedRegion_state (Views.al_user req)
       = Some (Cattle.state (Cattle.location c)))
  ∧ (falsy (Views.al_state req) = false →
     (∀ user',
        Views.adminGetAllCattle sort regex_i tagNo req db
        = Views.adminGetAllCattle sort regex_i tagNo
            (Views.mkAdminListReq user' (Views.al_paging req) (Views.al_overdue req)
               (Views.al_status req) (Views.al_verificationStatus req)
               (Views.al_breed req) (Views.al_state req) (Views.al_district req)
               (Views.al_search req)) db)
     ∧ ∀ page, Views.adminGetAllCattle sort regex_i tagNo req db = inr page →
         ∀ id c, (id, c) ∈ Listing.items page →
           Views.al_state req = Some (Cattle.state (Cattle.location c))).
Proof.
  split.
  - intros Hf Hrole page Hl id c Hin.
    apply listing_items in Hl as [Hitems _].
    apply Hitems, elem_of_find in Hin as [Hc Hsel].
    eapply (selects_state _ (id, c)) in Hsel; [exact Hsel|].
    unfold Views.adminAllCattle_query. rewrite apply_filters_state, Hf, scope_state.
    simpl. destruct Hrole as [-> | ->]; done.
  - intros Hf. split.
    + intros user'. unfold Views.adminGetAllCattle. f_equal.
      unfold Views.find. apply List.filter_ext. intros x.
      unfold Views.adminAllCattle_query. simpl.
      unfold Views.apply_filters. cbv zeta.
      assert (∀ u, Views.when (Views.al_state req) (λ s, Views.set_state (Some s))
                (Views.when (Views.al_breed req) Views.set_breed
                   (Views.when (Views.al_verificationStatus req)
                      Views.set_verification_status
                      (Views.when (Views.al_status req) Views.set_status
                         (Views.scope ["regional_admin"; "m_admin"] u Views.any))))
              = Views.when (Views.al_state req) (λ s, Views.set_state (Some s))
                  (Views.when (Views.al_breed req) Views.set_breed
                     (Views.when (Views.al_verificationStatus req)
                        Views.set_verification_status
                        (Views.when (Views.al_status req) Views.set_status
                           Views.any)))) as E.
      { intros u. unfold Views.when, Views.scope. rewrite Hf.
        destruct (existsb _ _); repeat case_match; reflexivity. }
      by rewrite !E.
    + intros page Hl id c Hin.
      apply listing_items in Hl as [Hitems _].
      apply Hitems, elem_of_find in Hin as [Hc Hsel].
      eapply (selects_state _ (id, c)) in Hsel; [exact Hsel|].
      unfold Views.adminAllCattle_query. by rewrite apply_filters_state, Hf.
Qed.

(** X15. A farmer is shown own cattle only: every document of
    [getAllCattle] is stored with the caller as owner, and [getCattleById]
    and [getCattleTransferHistory] answer a stored cattle of the caller and
    404 for a cattle of someone else. *)
Theorem farmer_is_shown_only_own_cattle (req : Views.CattleReq) db :
  Views.c_userType req = Some "user" →
  (∀ page, Views.getAllCattle sort regex_i tagNo req db = inr page →
     ∀ id c, (id, c) ∈ Listing.items page →
       cattles db !! id = Some c
       ∧ Cattle.owner c = RoleMiddleware.p_id (Views.c_user req))
  ∧ (∀ c, cattles db !! Views.c_params_id req = Some c →
       if Nat.eqb (Cattle.owner c) (RoleMiddleware.p_id (Views.c_user req))
       then Views.getCattleById regex_i tagNo req db
            = inr (c, ImageHelper.formatCattleImages (Cattle.images c))
            ∧ Views.getCattleTransferHistory regex_i tagNo req db
              = inr (Cattle.cattleId c, Cattle.owner c, Cattle.transferHistory c)
       else Views.getCattleById regex_i tagNo req db
            = inl (mkResponse 404
                     "Cattle not found or you do not have permission to view it")
            ∧ Views.getCattleTransferHistory regex_i tagNo req db
              = inl (mkResponse 404 "Cattle not found")).
Proof.
  intros Ht.
  assert (Views.userType_is "user" req = true) as Hu
    by (unfold Views.userType_is; by rewrite Ht).
  split.
  - intros page Hl id c Hin.
    apply listing_items in Hl as [Hitems _].
    apply Hitems, elem_of_find in Hin as [Hc Hsel]. split; [done|].
    eapply (selects_owner _ (id, c)) in Hsel; [exact Hsel|].
    unfold Views.allCattle_query. rewrite apply_filters_owner.
    unfold Views.allCattle_scope. by rewrite Hu.
  - intros c Hc.
    unfold Views.getCattleById, Views.getCattleTransferHistory, Views.findOne,
      Views.one_scope.
    rewrite Hu, Hc. unfold Views.selects. simpl. rewrite !andb_true_r.
    by destruct (Nat.eqb (Cattle.owner c) _).
Qed.

End Listings.

Lemma store_order_perm A field direction (l : list A) :
  Examples.store_order A field direction l ≡ₚ l.
Proof. reflexivity. Qed.

(** Cattle 10 awaits the Ohio reviewer and is past its deadline. *)
Lemma overdue_flag_agrees_with_overdue_filter_witness :
  cattles Sample.db !! 10%nat
  = Some (Sample.cattle 1 "Ohio" "transit" "pending_regional_review")
  ∧ true = Cattle.isVerificationOverdue 1700200000000
             (Sample.cattle 1 "Ohio" "transit" "pending_regional_review").
Proof.
  edestruct (overdue_flag_agrees_with_overdue_filter Examples.store_order
               Examples.contains Examples.no_tag store_order_perm 1700200000000
               Examples.ohio_list Sample.db) as [H _]; [vm_compute; reflexivity|].
  destruct (H 10%nat (Sample.cattle 1 "Ohio" "transit" "pending_regional_review") true)
    as (H1 & _ & _ & H2 & _); [apply list_elem_of_here|].
  split; [exact H1|exact H2].
Defined.

(** The Ohio reviewer who asks for Texas is shown what the super admin is
    shown. *)
Lemma state_parameter_replaces_the_region_witness :
  Views.adminGetAllCattle Examples.store_order Examples.contains Examples.no_tag
    Examples.ohio_asks_texas Sample.db
  = Views.adminGetAllCattle Examples.store_order Examples.contains Examples.no_tag
      (Views.mkAdminListReq Sample.global_admin Examples.first_page None None None
         None (Some "Texas") None None) Sample.db.
Proof.
  destruct (state_parameter_replaces_the_region Examples.store_order
              Examples.contains Examples.no_tag store_order_perm
              Examples.ohio_asks_texas Sample.db) as [_ H].
  destruct H as [H _]; [reflexivity|]. apply (H Sample.global_admin).
Defined.

(** Farmer 1 is refused cattle 12, which belongs to farmer 2. *)
Lemma farmer_is_shown_only_own_cattle_witness :
  Views.getCattleById Examples.contains Examples.no_tag Examples.farmer_list Sample.db
  = inl (mkResponse 404 "Cattle not found or you do not have permission to view it").
Proof.
  destruct (farmer_is_shown_only_own_cattle Examples.store_order Examples.contains
              Examples.no_tag store_order_perm Examples.farmer_list Sample.db)
    as [_ H]; [reflexivity|].
  specialize (H (Sample.cattle 2 "Ohio" "transit" "forwarded_to_m_admin")).
  destruct H as [H _]; [vm_compute; reflexivity|]. exact H.
Defined.

(** ** The listing of the transfer requests *)

Section MoreListings.
Context (sort : ∀ A : Type, string → Z → list A → list A).
Hypothesis sort_perm : ∀ A field direction (l : list A), sort A field direction l ≡ₚ l.

(** X16. [getTransferRequests] succeeds only with an empty page: an
    answer that is not an error has no request in any of its three lists, and
    every error is a 500.  A user who is party to a stored request and asks
    for the first page without filters is answered 500. *)
Theorem transfer_listing_fails_on_any_request (req : Views.TransferListReq) db :
  match Views.getTransferRequests sort req db with
  | inr list =>
      Listing.items (Views.tl_all list) = []
      ∧ Views.tl_sent list = [] ∧ Views.tl_received list = []
  | inl r => code r = 500
  end
  ∧ (∀ id t,
       transfers db !! id = Some t →
       Transfer.fromOwner t = Views.t_user_id req
       ∨ Transfer.toOwner t = Views.t_user_id req →
       Views.t_status req = None → Views.t_type req = None →
       Views.t_paging req = Listing.mkPaging None None →
       ∃ r, Views.getTransferRequests sort req db = inl r ∧ code r = 500).
Proof.
  split.
  - unfold Views.getTransferRequests, Views.listing, Listing.paginate.
    destruct (Listing.window _ _) as [xs|]; [|done]. simpl.
    destruct xs as [|x xs]; [done|].
    by destruct (users db !! _).
  - intros id t Ht Hparty Hs Hty Hp.
    unfold Views.getTransferRequests, Views.listing, Listing.paginate.
    rewrite Hp. unfold Listing.window. simpl.
    set (found := List.filter (Views.transfer_selects req) (map_to_list (transfers db))).
    assert ((id, t) ∈ found) as Hin.
    { unfold found. apply list_elem_of_In, filter_In.
      split; [by apply list_elem_of_In, elem_of_map_to_list|].
      unfold Views.transfer_selects. rewrite Hs, Hty. simpl.
      rewrite !andb_true_r. apply orb_true_iff.
      destruct Hparty as [<-|<-]; [left|right]; apply Nat.eqb_refl. }
    rewrite <- (sort_perm _ "createdAt" (-1) found) in Hin.
    destruct (sort _ "createdAt" (-1) found) as [|x xs] eqn:Es;
      [by apply elem_of_nil in Hin|].
    simpl. destruct (users db !! _); eexists; split; reflexivity.
Qed.

End MoreListings.

(** Farmer 1, who has sent one request, is answered 500. *)
Lemma transfer_listing_fails_on_any_request_witness :
  ∃ r, Views.getTransferRequests Examples.store_order Examples.transfer_list
         Sample.db_with_transfer = inl r
       ∧ code r = 500.
Proof.
  destruct (transfer_listing_fails_on_any_request Examples.store_order
              store_order_perm Examples.transfer_list Sample.db_with_transfer)
    as [_ H].
  apply (H 500%nat Sample.transfer); [reflexivity|by left|reflexivity..].
Defined.

(** ** Statistics *)

Section Statistics.

Lemma group_count_lookup {A} (key : A → string) (l : list A) k :
  Views.group_count key l !! k
  = match length (List.filter (λ x, key x === k) l) with
    | O => None
    | n => Some n
    end.
Proof.
  induction l as [|x l IH]; [done|]. simpl.
  destruct (decide (key x = k)) as [E|E].
  - rewrite E, String.eqb_refl, lookup_insert_eq. simpl. rewrite IH.
    by destruct (length _).
  - apply String.eqb_neq in E as E'. rewrite E'. by rewrite lookup_insert_ne.
Qed.

Lemma group_count_sum {A} (key : A → string) (l : list A) :
  sum_list_with snd (map_to_list (Views.group_count key l)) = length l.
Proof.
  induction l as [|x l IH]; [done|]. simpl.
  set (m := Views.group_count key l) in *.
  destruct (m !! key x) as [n|] eqn:E; simpl.
  - rewrite <- (insert_delete_eq m).
    rewrite map_to_list_insert by apply lookup_delete_eq.
    rewrite <- IH, <- (map_to_list_delete m (key x) n E). done.
  - rewrite map_to_list_insert by done. simpl. by rewrite IH.
Qed.

Lemma tally_other wt (l : list (string * nat)) obj k :
  k ∉ l.*1 → (k ≠ "total" ∨ wt = false) →
  foldl (Views.tally_step wt) obj l !! k = obj !! k.
Proof.
  revert obj. induction l as [|[j n] l IH]; intros obj Hk Hwt; [done|].
  simpl in *. apply not_elem_of_cons in Hk as [Hj Hk]. rewrite IH by done.
  unfold Views.tally_step. simpl. destruct wt.
  - destruct Hwt as [Hwt|]; [|done].
    rewrite lookup_insert_ne by done. by rewrite lookup_insert_ne.
  - by rewrite lookup_insert_ne.
Qed.

Lemma tally_key wt (l : list (string * nat)) obj k n :
  NoDup l.*1 → (k, n) ∈ l → (k ≠ "total" ∨ wt = false) →
  foldl (Views.tally_step wt) obj l !! k = Some n.
Proof.
  revert obj. induction l as [|[j m] l IH]; intros obj Hnd Hin Hwt;
    [by apply elem_of_nil in Hin|].
  simpl in *. apply NoDup_cons in Hnd as [Hj Hnd].
  apply elem_of_cons in Hin as [[= -> ->]|Hin].
  - rewrite tally_other by done. unfold Views.tally_step. simpl. destruct wt.
    + destruct Hwt as [Hwt|]; [|done].
      rewrite lookup_insert_ne by done. by rewrite lookup_insert_eq.
    + by rewrite lookup_insert_eq.
  - by apply IH.
Qed.

Lemma tally_total (l : list (string * nat)) obj :
  "total" ∉ l.*1 →
  foldl (Views.tally_step true) obj l !! "total"
  = match l with
    | [] => obj !! "total"
    | _ => Some (default 0%nat (obj !! "total") + sum_list_with snd l)%nat
    end.
Proof.
  revert obj. induction l as [|[j m] l IH]; intros obj Hk; [done|].
  rewrite fmap_cons in Hk. apply not_elem_of_cons in Hk as [Hj Hk].
  cbn [foldl]. rewrite (IH _ Hk).
  assert (Views.tally_step true obj (j, m) !! "total"
          = Some (default 0%nat (obj !! "total") + m)%nat) as E.
  { unfold Views.tally_step. cbn [fst snd]. rewrite lookup_insert_eq.
    by rewrite lookup_insert_ne. }
  rewrite E. destruct l as [|y l]; simpl; f_equal; lia.
Qed.

Lemma tally_counts {A} wt (key : A → string) (l : list A) obj k :
  (k ≠ "total" ∨ wt = false) → obj !! k = Some 0%nat →
  Views.tally wt obj (Views.group_count key l) !! k
  = Some (length (List.filter (λ x, key x === k) l)).
Proof.
  intros Hwt Hobj. unfold Views.tally.
  pose proof (group_count_lookup key l k) as Hg.
  destruct (length (List.filter (λ x, key x === k) l)) as [|n] eqn:En.
  - rewrite tally_other; [done| |done].
    intros ([j m] & Hj & Hin)%list_elem_of_fmap. simpl in Hj. subst j.
    apply elem_of_map_to_list in Hin. simpl in *. congruence.
  - eapply tally_key; [apply NoDup_fst_map_to_list| |done].
    by apply elem_of_map_to_list.
Qed.

Lemma tally_sum {A} (key : A → string) (l : list A) obj :
  (∀ x, x ∈ l → key x ≠ "total") → obj !! "total" = Some 0%nat →
  Views.tally true obj (Views.group_count key l) !! "total" = Some (length l).
Proof.
  intros Hkey Hobj. unfold Views.tally. rewrite tally_total.
  - pose proof (group_count_sum key l) as Hsum.
    destruct (map_to_list _) as [|y ys]; rewrite Hobj; simpl in *; by rewrite Hsum.
  - intros ([j m] & Hj & Hin)%list_elem_of_fmap. simpl in Hj. subst j.
    apply elem_of_map_to_list in Hin. rewrite group_count_lookup in Hin. simpl in Hin.
    destruct (List.filter _ l) as [|x xs] eqn:Ef; [done|].
    assert (In x (List.filter (λ x, key x === "total") l)) as Hx
      by (rewrite Ef; by left).
    apply filter_In in Hx as [Hx Hk]. apply String.eqb_eq in Hk.
    by eapply Hkey; [apply list_elem_of_In|].
Qed.

Lemma three_way_partition {A} (key : A → string) (l : list A) a b c :
  a ≠ b → a ≠ c → b ≠ c →
  (∀ x, x ∈ l → key x = a ∨ key x = b ∨ key x = c) →
  length l
  = (length (List.filter (λ x, key x === a) l)
     + length (List.filter (λ x, key x === b) l)
     + length (List.filter (λ x, key x === c) l))%nat.
Proof.
  intros Hab Hac Hbc. induction l as [|x l IH]; intros Hall; [done|].
  simpl. rewrite IH by (intros y Hy; apply Hall; by right).
  destruct (Hall x) as [E|[E|E]]; [by left|..]; rewrite E, String.eqb_refl.
  - apply String.eqb_neq in Hab as ->. apply String.eqb_neq in Hac as ->.
    simpl. lia.
  - assert ((b === a) = false) as -> by (apply String.eqb_neq; congruence).
    apply String.eqb_neq in Hbc as ->. simpl. lia.
  - assert ((c === a) = false) as -> by (apply String.eqb_neq; congruence).
    assert ((c === b) = false) as -> by (apply String.eqb_neq; congruence).
    simpl. lia.
Qed.

Lemma elem_of_owned uid db id c :
  (id, c) ∈ Views.owned uid db ↔ cattles db !! id = Some c ∧ Cattle.owner c = uid.
Proof.
  unfold Views.owned. rewrite list_elem_of_In, filter_In, <- list_elem_of_In.
  rewrite elem_of_map_to_list. simpl. by rewrite Nat.eqb_eq.
Qed.

(** X17. The statistics of a user whose cattle carry the three lifecycle
    statuses of the schema: [cattle.total] is the number of cattle the user
    owns, the counters [active], [archive] and [transit] are the numbers of
    cattle in each status and add up to the total; and as 'pending' is no
    verification status of the current schema, [verification.pending] is
    0. *)
Theorem user_statistics_count_the_holdings uid db :
  (∀ id c, cattles db !! id = Some c → Cattle.owner c = uid →
     Cattle.status c = "active" ∨ Cattle.status c = "archive"
     ∨ Cattle.status c = "transit") →
  let count s :=
    length (List.filter (λ x : nat * Cattle.t, Cattle.status x.2 === s)
              (Views.owned uid db)) in
  Views.us_cattle (Views.getUserStatistics uid db) !! "total"
  = Some (length (Views.owned uid db))
  ∧ (∀ s, s = "active" ∨ s = "archive" ∨ s = "transit" →
       Views.us_cattle (Views.getUserStatistics uid db) !! s = Some (count s))
  ∧ length (Views.owned uid db) = (count "active" + count "archive" + count "transit")%nat
  ∧ ((∀ id c, cattles db !! id = Some c → Cattle.owner c = uid →
        In (Cattle.v_status (Cattle.verification c)) Cattle.verification_status_enum) →
     Views.us_verification (Views.getUserStatistics uid db) !! "pending" = Some 0%nat).
Proof.
  intros Henum count. split; [|split; [|split]].
  - unfold Views.getUserStatistics. cbn [Views.us_cattle].
    apply tally_sum; [|done].
    intros [id c] [Hc Ho]%elem_of_owned. simpl.
    destruct (Henum id c Hc Ho) as [->|[->| ->]]; done.
  - intros s Hs. unfold Views.getUserStatistics. cbn [Views.us_cattle].
    apply tally_counts; destruct Hs as [->|[->| ->]]; by try left.
  - apply (three_way_partition (λ x : nat * Cattle.t, Cattle.status x.2)); try done.
    intros [id c] [Hc Ho]%elem_of_owned. by apply (Henum id c).
  - intros Hv. unfold Views.getUserStatistics. cbn [Views.us_verification].
    rewrite tally_counts by (by try left).
    destruct (List.filter _ _) as [|[id c] xs] eqn:Ef; [done|].
    assert (In (id, c) (List.filter
              (λ x : nat * Cattle.t,
                 Cattle.v_status (Cattle.verification x.2) === "pending")
              (Views.owned uid db))) as Hx by (rewrite Ef; by left).
    apply filter_In in Hx as [Hx Hk]. apply String.eqb_eq in Hk. simpl in Hk.
    apply list_elem_of_In, elem_of_owned in Hx as [Hc Ho].
    specialize (Hv id c Hc Ho). rewrite Hk in Hv. simpl in Hv.
    intuition discriminate.
Qed.

End Statistics.

Lemma sample_cattle_statuses id c :
  cattles Sample.db !! id = Some c →
  (Cattle.status c = "active" ∨ Cattle.status c = "archive"
   ∨ Cattle.status c = "transit")
  ∧ In (Cattle.v_status (Cattle.verification c)) Cattle.verification_status_enum.
Proof.
  unfold Sample.db. simpl. intros H.
  repeat (apply lookup_insert_Some in H as [[_ <-]|[_ H]]; [simpl; tauto|]).
  by rewrite lookup_empty in H.
Qed.

(** Farmer 1 owns three cattle. *)
Lemma user_statistics_count_the_holdings_witness :
  Views.us_cattle (Views.getUserStatistics 1 Sample.db) !! "total"
  = Some (length (Views.owned 1 Sample.db)).
Proof.
  apply (user_statistics_count_the_holdings 1 Sample.db).
  intros id c Hc _. by apply (sample_cattle_statuses id c).
Defined.

(** ** Identification requests *)

Section Identification.
Import IdentificationController.

Lemma fresh_idreq_id db : idreqs db !! fresh (dom (idreqs db)) = None.
Proof. apply not_elem_of_dom, is_fresh. Qed.

Lemma expire_closed now q :
  IdReq.status q = "completed" ∨ IdReq.status q = "cancelled" → expire now q = q.
Proof.
  intros Hs. unfold expire, IdReq.isExpired. by destruct Hs as [-> | ->].
Qed.

Ltac closed_request Hq Hs :=
  exec; rewrite_frames; try done;
  repeat match goal with
    | |- <[?k := _]> _ !! ?id = _ =>
        let E := fresh in
        destruct (decide (k = id)) as [E|];
          [exfalso; rewrite E in *; simplify_eq;
           destruct Hs as [Hs|Hs]; rewrite Hs in *; discriminate
          | rewrite lookup_insert_ne by done]
    end; try done.

Lemma closed_request_step schema r db id q :
  idreqs db !! id = Some q →
  IdReq.status q = "completed" ∨ IdReq.status q = "cancelled" →
  idreqs (serve schema r db).1 !! id = Some q.
Proof.
  intros Hq Hs. destruct r.
  all: try (exec; rewrite_frames; try done; fail).
  - exec; rewrite_frames; try done.
    all: rewrite lookup_insert_ne; [done|];
      intros <-; by rewrite fresh_idreq_id in Hq.
  - closed_request Hq Hs.
  - closed_request Hq Hs.
  - closed_request Hq Hs.
  - closed_request Hq Hs.
  - simpl. unfold cleanupExpired. simpl. rewrite lookup_fmap, Hq. simpl.
    by rewrite expire_closed.
Qed.

(** X18. A completed or cancelled identification request is final: whatever
    requests are served afterwards - registrations, verifications,
    transfers, the five identification operations on this or another
    request, the expiry sweeps - the stored request stays exactly as it
    is. *)
Theorem closed_identification_request_is_final schema rs db id q :
  idreqs db !! id = Some q →
  IdReq.status q = "completed" ∨ IdReq.status q = "cancelled" →
  idreqs (serve_all schema rs db) !! id = Some q.
Proof.
  intros Hq Hs. revert db Hq. unfold serve_all.
  induction rs as [|r rs IH]; intros db Hq; [done|].
  simpl. apply IH. by apply closed_request_step.
Qed.

(** X19. Cancelling one's own identification request: it answers 200
    exactly for a pending or processing request, which is then stored as
    cancelled by the caller; 400 exactly for a completed or cancelled one;
    and 500 for a failed one, which passes the controller's test and is
    refused by the model method's throw.  Unless it answers 200 the store is
    unchanged. *)
Theorem cancelling_a_failed_request_is_an_error now req db q :
  idreqs db !! x_params_id req = Some q →
  IdReq.user q = x_user_id req →
  In (IdReq.status q) IdReq.status_enum →
  let out := run (cancelIdentificationRequest now req) db in
  (code out.2 = 200 ↔ IdReq.status q = "pending" ∨ IdReq.status q = "processing")
  ∧ (code out.2 = 400 ↔ IdReq.status q = "completed" ∨ IdReq.status q = "cancelled")
  ∧ (code out.2 = 500 ↔ IdReq.status q = "failed")
  ∧ (code out.2 ≠ 200 → out.1 = db)
  ∧ (code out.2 = 200 →
     ∃ q', idreqs out.1 !! x_params_id req = Some q'
           ∧ IdReq.status q' = "cancelled"
           ∧ IdReq.cancelledBy q' = Some (x_user_id req)
           ∧ IdReq.cancelledAt q' = Some now).
Proof.
  intros Hq Hu Hs out. subst out.
  unfold cancelIdentificationRequest, run. rewrite bind_read, Hq, Hu, Nat.eqb_refl.
  cbn [negb]. unfold IdReq.cancel.
  simpl in Hs. destruct Hs as [E|[E|[E|[E|[E|[]]]]]]; rewrite <- E; simpl.
  all: rewrite ?lookup_insert_eq.
  all: split; [|split; [|split; [|split]]].
  all: try (split; [intros ?|intros [?|?]]; done).
  all: try (split; intros ?; done).
  all: try (split; [intros ?|intros [?|?]]; (done || (by left) || (by right))).
  all: try done.
  all: intros _; eexists; split; [done|]; done.
Qed.

(** Farmer 1 cancels the pending request 700. *)
Lemma cancelling_a_failed_request_is_an_error_witness :
  code (run (cancelIdentificationRequest 1700000900000 (mkCancelReq 1 700 None))
          Sample.db_with_request).2 = 200.
Proof.
  destruct (cancelling_a_failed_request_is_an_error 1700000900000
              (mkCancelReq 1 700 None) Sample.db_with_request Sample.request)
    as (H200 & _).
  - reflexivity.
  - reflexivity.
  - simpl; tauto.
  - apply H200. by left.
Defined.

End Identification.

(** The identifier marks the cancelled request 700 as failed, the farmer
    cancels it again and the sweep runs after its expiry. *)
Lemma closed_identification_request_is_final_witness :
  idreqs
    (serve_all CattleCreate.current_schema
       [FailIdentification 1700001000000
          (IdentificationController.mkAdminReq 101 700 None None (Some "blurred")
             None None None);
        CancelIdentification 1700001100000
          (IdentificationController.mkCancelReq 1 700 None);
        ExpireIdentifications 1800000000000]
       Examples.db_with_cancelled) !! 700%nat
  = Some Examples.cancelled_request.
Proof.
  apply closed_identification_request_is_final; [reflexivity|by right].
Defined.

(** ** Identification listings and statistics *)

Section IdentificationViews.
Context (sort : ∀ A : Type, string → Z → list A → list A).
Hypothesis sort_perm : ∀ A field direction (l : list A), sort A field direction l ≡ₚ l.

Lemma elem_of_users_of_state st db uid :
  uid ∈ Views.users_of_state st db
  ↔ ∃ u, users db !! uid = Some u ∧ st = Some (User.state (User.address u)).
Proof.
  unfold Views.users_of_state. rewrite list_elem_of_fmap. split.
  - intros ([i u] & -> & Hin). apply list_elem_of_In, filter_In in Hin as [Hin Hst].
    apply list_elem_of_In, elem_of_map_to_list in Hin. simpl in *.
    exists u. split; [done|]. destruct st as [s|]; [|done].
    apply String.eqb_eq in Hst. by rewrite Hst.
  - intros (u & Hu & ->). exists (uid, u). split; [done|].
    apply list_elem_of_In, filter_In. split.
    + by apply list_elem_of_In, elem_of_map_to_list.
    + simpl. apply String.eqb_refl.
Qed.

(** X20. The pending list of an identifier (m_admin) holds stored requests
    that are pending or processing.  When the identifier's region has
    farmers, each listed request belongs to one of them; when it has none,
    the user filter is dropped and the list counts the open requests of
    every region. *)
Theorem identifier_without_farmers_is_shown_every_region req db page :
  Admin.role (Views.il_user req) = "m_admin" →
  Views.getPendingIdentificationRequests sort req db = inr page →
  let region := Admin.assignedRegion_state (Views.il_user req) in
  (∀ id q, (id, q) ∈ Listing.items page →
     idreqs db !! id = Some q
     ∧ (IdReq.status q = "pending" ∨ IdReq.status q = "processing")
     ∧ (Views.users_of_state region db ≠ [] →
        ∃ u, users db !! IdReq.user q = Some u
             ∧ region = Some (User.state (User.address u))))
  ∧ (Views.users_of_state region db = [] →
     Listing.total page
     = length (List.filter
                 (λ x : nat * IdReq.t,
                    (IdReq.status x.2 === "pending")
                    || (IdReq.status x.2 === "processing"))
                 (map_to_list (idreqs db)))).
Proof.
  intros Hrole Hpage region. unfold Views.getPendingIdentificationRequests in Hpage.
  rewrite Hrole in Hpage. change ("m_admin" === "m_admin") with true in Hpage.
  cbv iota in Hpage. fold region in Hpage.
  apply (listing_items sort sort_perm) in Hpage as [Hitems Htotal]. split.
  - intros id q Hin. apply Hitems in Hin.
    apply list_elem_of_In, filter_In in Hin as [Hin Hsel].
    apply list_elem_of_In, elem_of_map_to_list in Hin.
    unfold Views.pending_selects in Hsel. simpl in Hsel.
    apply andb_true_iff in Hsel as [Hst Hu]. split; [done|]. split.
    + apply orb_true_iff in Hst as [Hst|Hst]; apply String.eqb_eq in Hst; auto.
    + intros Hne. destruct (Views.users_of_state region db) as [|i l] eqn:El; [done|].
      apply existsb_exists in Hu as (uid & Huid & Heq). apply Nat.eqb_eq in Heq.
      rewrite Heq. apply (elem_of_users_of_state region db uid).
      rewrite El. by apply list_elem_of_In.
  - intros Hnil. rewrite Htotal, Hnil. f_equal. apply filter_ext.
    intros x. unfold Views.pending_selects. by rewrite andb_true_r.
Qed.

Lemma sum_without (g : string → nat) k0 ks :
  k0 ∉ ks →
  sum_list_with (λ k, if k0 === k then S (g k) else g k) ks = sum_list_with g ks.
Proof.
  induction ks as [|k ks IH]; intros Hk; [done|]. simpl.
  apply not_elem_of_cons in Hk as [Hk Hks].
  apply String.eqb_neq in Hk as ->. by rewrite IH.
Qed.

Lemma sum_with (g : string → nat) k0 ks :
  NoDup ks → k0 ∈ ks →
  sum_list_with (λ k, if k0 === k then S (g k) else g k) ks = S (sum_list_with g ks).
Proof.
  induction ks as [|k ks IH]; intros Hnd Hk; [by apply elem_of_nil in Hk|]. simpl.
  apply NoDup_cons in Hnd as [Hnk Hnd].
  destruct (k0 === k) eqn:Ek.
  - apply String.eqb_eq in Ek as ->. by rewrite sum_without.
  - apply elem_of_cons in Hk as [->|Hk]; [by rewrite String.eqb_refl in Ek|].
    rewrite IH by done. lia.
Qed.

Lemma filter_by_key {A} (sel : A → bool) (key : A → string) ks (l : list A) :
  NoDup ks → (∀ x, x ∈ l → key x ∈ ks) →
  length (List.filter (λ x, sel x && true) l)
  = sum_list_with (λ k, length (List.filter (λ x, sel x && (key x === k)) l)) ks.
Proof.
  intros Hnd. induction l as [|x l IH]; intros Hall.
  - simpl. clear Hnd Hall. induction ks as [|k ks IHk]; [done|]. simpl. exact IHk.
  - assert (∀ x, x ∈ l → key x ∈ ks) as Hl by (intros y Hy; apply Hall; by right).
    specialize (IH Hl). simpl. rewrite andb_true_r. destruct (sel x); simpl.
    + rewrite IH.
      rewrite <- (sum_with _ (key x) ks Hnd (Hall x (list_elem_of_here _ _))).
      clear. induction ks as [|k ks IHk]; [done|]. simpl.
      rewrite IHk. by destruct (key x === k).
    + exact IH.
Qed.

Lemma filter_weaker {A} (p q : A → bool) (l : list A) :
  (∀ x, p x = true → q x = true) →
  (length (List.filter p l) <= length (List.filter q l))%nat.
Proof.
  intros Hpq. induction l as [|x l IH]; [done|]. simpl.
  destruct (p x) eqn:Ep.
  - rewrite (Hpq x Ep). simpl. lia.
  - destruct (q x); simpl; lia.
Qed.

End IdentificationViews.

Section IdentificationStatistics.

(** X21. The identification statistics add up: as every stored request
    carries one of the five statuses of the schema, the total is the sum of
    the five status counters, whoever asks; and the not-found counter never
    exceeds the completed one. *)
Theorem identification_statistics_add_up req db :
  (∀ id q, idreqs db !! id = Some q → In (IdReq.status q) IdReq.status_enum) →
  let s := Views.getIdentificationStatistics req db in
  Views.s_total s
  = (Views.s_pending s + Views.s_processing s + Views.s_completed s
     + Views.s_failed s + Views.s_cancelled s)%nat
  ∧ (Views.s_notFound s <= Views.s_completed s)%nat.
Proof.
  intros Henum s. subst s. unfold Views.getIdentificationStatistics.
  cbn [Views.s_total Views.s_pending Views.s_processing Views.s_completed
       Views.s_failed Views.s_cancelled Views.s_notFound].
  match goal with |- context [Views.count_where ?q _ db] => generalize q end.
  intros f. unfold Views.count_where. split.
  - rewrite (filter_by_key (λ x : nat * IdReq.t, Views.user_selects f x.2)
               (λ x, IdReq.status x.2) IdReq.status_enum).
    + simpl. lia.
    + apply NoDup_ListNoDup. repeat constructor; simpl; intuition discriminate.
    + intros [id q] Hx. apply elem_of_map_to_list in Hx.
      apply list_elem_of_In. by apply (Henum id q).
  - apply filter_weaker. intros x. simpl.
    rewrite !andb_true_iff. tauto.
Qed.

End IdentificationStatistics.

(** The Texas identifier is shown the request of farmer 1, of Texas. *)
Lemma identifier_without_farmers_is_shown_every_region_witness :
  idreqs Sample.db_with_request !! 700%nat = Some Sample.request
  ∧ (IdReq.status Sample.request = "pending"
     ∨ IdReq.status Sample.request = "processing").
Proof.
  edestruct (identifier_without_farmers_is_shown_every_region Examples.store_order
               store_order_perm Examples.identifier_list Sample.db_with_request)
    as [H _]; [reflexivity|vm_compute; reflexivity|].
  destruct (H 700%nat Sample.request) as (H1 & H2 & _); [apply list_elem_of_here|].
  split; [exact H1|exact H2].
Defined.

Lemma sample_request_statuses id q :
  idreqs Sample.db_with_request !! id = Some q → In (IdReq.status q) IdReq.status_enum.
Proof.
  unfold Sample.db_with_request. simpl. intros H.
  apply lookup_insert_Some in H as [[_ <-]|[_ H]]; [simpl; tauto|].
  by rewrite lookup_empty in H.
Qed.

(** The statistics of farmer 1, who has one pending request. *)
Lemma identification_statistics_add_up_witness :
  Views.s_total
    (Views.getIdentificationStatistics Examples.farmer_statistics
       Sample.db_with_request)
  = 1%nat
  ∧ (Views.s_notFound
       (Views.getIdentificationStatistics Examples.farmer_statistics
          Sample.db_with_request)
     <= Views.s_completed
          (Views.getIdentificationStatistics Examples.farmer_statistics
             Sample.db_with_request))%nat.
Proof.
  split; [vm_compute; reflexivity|].
  apply (identification_statistics_add_up Examples.farmer_statistics
           Sample.db_with_request).
  apply sample_request_statuses.
Defined.

(** ** The upload guard of the registration route *)

Section UploadGuard.
Import CattleController.




End UploadGuard.


(** ** Image links *)

Section ImageLinks.
Import ImageHelper.

Lemma substring_all s : String.substring 0 (String.length s) s = s.
Proof. induction s as [|c s IH]; [done|]. simpl. by rewrite IH. Qed.

Lemma substring_from_0 s : substring_from 0 s = s.
Proof. unfold substring_from. rewrite Nat.sub_0_r. apply substring_all. Qed.

Lemma substring_from_S i c s :
  substring_from (S i) (String c s) = substring_from i s.
Proof. reflexivity. Qed.

Lemma prefix_app s1 s2 : String.prefix s1 s2 = true → ∃ r, s2 = (s1 ++ r)%string.
Proof.
  revert s2. induction s1 as [|c s1 IH]; intros s2 H; [by exists s2|].
  destruct s2 as [|d s2]; [done|]. simpl in H.
  destruct (ascii_dec c d) as [->|]; [|done].
  destruct (IH s2 H) as [r ->]. by exists r.
Qed.

Lemma found_at_prefix s1 s i :
  String.substring i (String.length s1) s = s1 →
  String.prefix s1 (substring_from i s) = true.
Proof.
  revert i. induction s as [|c s IH]; intros i H.
  - destruct s1 as [|d s1]; [by destruct i|]. by destruct i.
  - destruct i as [|i].
    + rewrite substring_from_0. by apply String.prefix_correct.
    + rewrite substring_from_S. apply IH. exact H.
Qed.

Lemma slashes_idemp s : slashes (slashes s) = slashes s.
Proof.
  induction s as [|c s IH]; [done|]. simpl. rewrite IH. f_equal.
  destruct (Ascii.eqb c "\"%char) eqn:E; [done|]. by rewrite E.
Qed.

Lemma no_backslash s : String.index 0 "\" (slashes s) = None.
Proof.
  induction s as [|c s IH]; [done|].
  cbn [slashes]. destruct (Ascii.eqb c "\"%char) eqn:E.
  - cbn -[slashes]. by rewrite IH.
  - cbn -[slashes ascii_dec]. destruct (ascii_dec "\"%char c) as [<-|]; [done|]. by rewrite IH.
Qed.

Lemma prefix_nil s : String.prefix "" s = true.
Proof. by destruct s. Qed.

Lemma index_here s1 s2 : String.prefix s1 s2 = true → String.index 0 s1 s2 = Some 0%nat.
Proof.
  destruct s2 as [|c s2]; [by destruct s1|]. intros H.
  change (String.index 0 s1 (String c s2))
    with (if String.prefix s1 (String c s2) then Some 0%nat
          else match String.index 0 s1 s2 with
               | Some n => Some (S n)
               | None => None
               end).
  by rewrite H.
Qed.

Lemma index_next c s1 s2 :
  String.prefix s1 (String c s2) = false → String.prefix s1 s2 = true →
  String.index 0 s1 (String c s2) = Some 1%nat.
Proof.
  intros H0 H1. apply index_here in H1.
  change (String.index 0 s1 (String c s2))
    with (if String.prefix s1 (String c s2) then Some 0%nat
          else match String.index 0 s1 s2 with
               | Some n => Some (S n)
               | None => None
               end).
  by rewrite H0, H1.
Qed.

Lemma getImageURL_at p i :
  String.index 0 "uploads" p = Some i →
  getImageURL (Some p) = Some ("/" +:+ slashes (substring_from i p)).
Proof.
  intros Hi. unfold getImageURL.
  assert (falsy (Some p) = false) as -> by (by destruct p).
  simpl. by rewrite Hi.
Qed.

Lemma getImageURL_found p i :
  String.index 0 "uploads" p = Some i →
  ∃ r, getImageURL (Some p) = Some ("/uploads" +:+ slashes r).
Proof.
  intros Hi. rewrite (getImageURL_at p i Hi).
  apply String.index_correct1, found_at_prefix, prefix_app in Hi as [r ->].
  by exists r.
Qed.

Lemma getImageURL_link r :
  getImageURL (Some ("/uploads" +:+ slashes r)) = Some ("/uploads" +:+ slashes r).
Proof.
  change ("/uploads" +:+ slashes r)
    with (String "/" ("uploads" +:+ slashes r)).
  rewrite (getImageURL_at _ 1).
  - rewrite substring_from_S, substring_from_0.
    change (slashes ("uploads" +:+ slashes r))
      with ("uploads" +:+ slashes (slashes r)).
    by rewrite slashes_idemp.
  - apply index_next; [done|]. cbv [String.append]. cbn -[slashes String.prefix].
    cbn [String.prefix]. 
    repeat (destruct (ascii_dec _ _); [|done]). apply prefix_nil.
Qed.

(** X23. Image links: [getImageURL] applied to its own result gives it
    back; for a path that contains 'uploads' the link is '/uploads' followed
    by the rest of the path, with no backslash left in it. *)
Theorem image_link_is_stable (filePath : option string) :
  getImageURL (getImageURL filePath) = getImageURL filePath
  ∧ (∀ p i, filePath = Some p → String.index 0 "uploads" p = Some i →
       ∃ rest, getImageURL filePath = Some ("/uploads" +:+ rest)
               ∧ String.index 0 "\" rest = None).
Proof.
  split.
  - destruct filePath as [p|]; [|done].
    destruct (String.index 0 "uploads" p) as [i|] eqn:Hi.
    + destruct (getImageURL_found p i Hi) as [r ->]. apply getImageURL_link.
    + unfold getImageURL at 2 3. destruct (falsy (Some p)) eqn:Ef; [done|].
      simpl. rewrite Hi. unfold getImageURL. rewrite Ef. simpl. by rewrite Hi.
  - intros p i -> Hi. destruct (getImageURL_found p i Hi) as [r ->].
    exists (slashes r). split; [done|]. apply no_backslash.
Qed.

End ImageLinks.

(** A path as Windows stores it. *)
Lemma image_link_is_stable_witness :
  ∃ rest,
    ImageHelper.getImageURL (Some "C:\srv\uploads\cattle\m1.jpg")
    = Some ("/uploads" +:+ rest)
    ∧ String.index 0 "\" rest = None.
Proof.
  apply (proj2 (image_link_is_stable (Some "C:\srv\uploads\cattle\m1.jpg"))
           "C:\srv\uploads\cattle\m1.jpg" 7%nat); reflexivity.
Defined.

(** ** The region guards *)

Section RegionGuards.
Import RoleMiddleware.

(** X24. The region guards constrain regional admins only.  A regional
    admin passes [canManageCattle] for a named cattle exactly when the cattle
    is stored and lies in the assigned state (404 when it is not stored, 403
    when it lies elsewhere), and passes [checkRegionalAccess] with a
    requested state exactly when it is the assigned one.  A principal of any
    role but 'regional_admin' passes [canManageCattle], [canManageUser] and
    [checkRegionalAccess] whatever is asked.  None of the three writes. *)
Theorem region_guards_constrain_regional_admins_only req db u :
  user req = Some u →
  (p_role u = "regional_admin" →
   (∀ id, or_id (params_cattleId req) (body_cattleId req) = Some id →
      match cattles db !! id with
      | None => canManageCattle req db = (db, inl (mkResponse 404 "Cattle not found"))
      | Some c =>
          if bool_decide (Some (Cattle.state (Cattle.location c)) = p_region_state u)
          then passes (canManageCattle req) db
          else canManageCattle req db
               = (db, inl (mkResponse 403
                             "You can only manage cattle from your assigned region"))
      end)
   ∧ (∀ s, falsy (p_region_state u) = false →
        or_else (or_else (body_state req) (params_state req)) (query_state req)
        = Some s →
        s ≠ "" →
        (passes (checkRegionalAccess req) db ↔ p_region_state u = Some s)))
  ∧ (p_role u ≠ "regional_admin" →
     passes (canManageCattle req) db ∧ passes (canManageUser req) db
     ∧ passes (checkRegionalAccess req) db)
  ∧ (canManageCattle req db).1 = db ∧ (canManageUser req db).1 = db
  ∧ (checkRegionalAccess req db).1 = db.
Proof.
  intros Hu. split; [|split; [|split; [|split]]].
  - intros Hr. split.
    + intros id Hid. unfold canManageCattle, passes. rewrite Hu, Hr, Hid.
      change ("regional_admin" === "super_admin") with false.
      change ("regional_admin" === "regional_admin") with true. cbv iota.
      rewrite bind_read. destruct (cattles db !! id) as [c|]; [|done].
      by destruct (bool_decide _).
    + intros s Hf Hs Hne. unfold checkRegionalAccess, passes, the_user.
      rewrite Hu, bind_ret, Hr, Hf, Hs.
      change ("regional_admin" === "super_admin") with false.
      change ("regional_admin" === "regional_admin") with true. cbv iota.
      assert (falsy (Some s) = false) as ->
        by (simpl; by apply String.eqb_neq).
      simpl. destruct (bool_decide (Some s = p_region_state u)) eqn:E; simpl.
      * apply bool_decide_eq_true in E. split; [done|done].
      * apply bool_decide_eq_false in E. split; [done|]. intros E'. by destruct E.
  - intros Hr%String.eqb_neq.
    unfold canManageCattle, canManageUser, checkRegionalAccess, passes, the_user.
    rewrite Hu, ?bind_ret, Hr. by destruct (p_role u === "super_admin").
  - unfold canManageCattle. rewrite Hu. repeat (case_match; try done).
    all: rewrite bind_read; repeat (case_match; try done).
  - unfold canManageUser. rewrite Hu. repeat (case_match; try done).
    all: rewrite bind_read; repeat (case_match; try done).
  - unfold checkRegionalAccess, the_user. rewrite Hu, bind_ret.
    repeat (case_match; try done).
Qed.

End RegionGuards.

(** The Texas reviewer asks for cattle 10, which lies in Ohio. *)
Lemma region_guards_constrain_regional_admins_only_witness :
  RoleMiddleware.canManageCattle Examples.reviewer_asks_cattle Sample.db
  = (Sample.db,
     inl (mkResponse 403 "You can only manage cattle from your assigned region")).
Proof.
  destruct (region_guards_constrain_regional_admins_only Examples.reviewer_asks_cattle
              Sample.db Examples.texas_reviewer) as [H _]; [reflexivity|].
  destruct H as [H _]; [reflexivity|]. apply (H 10%nat). reflexivity.
Defined.

(** ** The one-time password *)

Section OneTimePassword.
Import Otp.

Lemma verifications_none calls :
  Forall (λ v, success v = false ∧ (message v === "Invalid OTP") = false) (verifications calls None).
Proof. induction calls as [|call calls IH]; simpl; by constructor. Qed.

Lemma verifications_count calls o :
  0 ≤ attempts o →
  (length (List.filter success (verifications calls (Some o))) ≤ 1)%nat
  ∧ Z.of_nat (length (List.filter (λ v, message v === "Invalid OTP")
                        (verifications calls (Some o))))
    ≤ Z.max 0 (3 - attempts o).
Proof.
  revert o. induction calls as [|[now c] calls IH]; intros o Ha; [simpl; lia|].
  cbn [verifications fst snd]. unfold verifyOTP.
  destruct (falsy (code o)); [|destruct (expiresAt o <? now);
    [|destruct (3 <=? attempts o) eqn:E3; [|destruct (same (code o) c)]]];
    cbn [fst snd List.filter success message].
  1-3: destruct (IH o Ha) as [IH1 IH2]; simpl; split; [exact IH1|exact IH2].
  - pose proof (verifications_none calls) as Hn. split.
    + simpl.
      assert (List.filter success (verifications calls None) = []) as ->;
        [|simpl; lia].
      induction Hn as [|v l [Hv _] _ IHn]; [done|]. simpl. by rewrite Hv.
    + simpl.
      assert (List.filter (λ v, message v === "Invalid OTP")
                (verifications calls None) = []) as ->; [|simpl; lia].
      induction Hn as [|v l [_ Hv] _ IHn]; [done|]. simpl. by rewrite Hv.
  - apply Z.leb_gt in E3.
    destruct (IH (mk (code o) (expiresAt o) (attempts o + 1))) as [IH1 IH2];
      [simpl; lia|]. simpl in *. split; [exact IH1|]. lia.
Qed.

(** X25. A one-time password is used once and guessed at most three times:
    of the verifications that follow its generation, whatever their times
    and candidates, at most one succeeds and at most three are answered
    'Invalid OTP'.  A verification succeeds only with the stored code, before
    the expiry and after fewer than three wrong candidates; it clears the
    password, so that every later verification fails; and from the third
    wrong candidate on the password stays as it is and every verification
    fails, the right code included. *)
Theorem one_time_password_is_used_once calls o :
  attempts o = 0 →
  (length (List.filter success (verifications calls (Some o))) ≤ 1)%nat
  ∧ (length (List.filter (λ v, message v === "Invalid OTP")
               (verifications calls (Some o))) ≤ 3)%nat
  ∧ (∀ now c otp,
       success (verifyOTP now c otp).2 = true →
       (verifyOTP now c otp).1 = None
       ∧ (∃ o', otp = Some o' ∧ code o' = c ∧ ¬ expiresAt o' < now ∧ attempts o' < 3)
       ∧ ∀ now' c', success (verifyOTP now' c' (verifyOTP now c otp).1).2 = false)
  ∧ (∀ now c o', 3 ≤ attempts o' →
       (verifyOTP now c (Some o')).1 = Some o'
       ∧ success (verifyOTP now c (Some o')).2 = false).
Proof.
  intros Ha. destruct (verifications_count calls o) as [H1 H2]; [lia|].
  split; [exact H1|]. split; [rewrite Ha in H2; lia|]. split.
  - intros now c otp. unfold verifyOTP. destruct otp as [o'|]; [|done].
    destruct (falsy (code o')) eqn:Ef; [done|].
    destruct (expiresAt o' <? now) eqn:Ee; [done|].
    destruct (3 <=? attempts o') eqn:E3; [done|].
    destruct (same (code o') c) eqn:Es; [|done]. intros _. simpl.
    split; [done|]. split; [|done]. exists o'.
    apply Z.ltb_ge in Ee. apply Z.leb_gt in E3.
    split; [done|]. split; [|lia].
    unfold same in Es. destruct (code o') as [k|], c as [k'|]; try done.
    by apply String.eqb_eq in Es as ->.
  - intros now c o' H3. unfold verifyOTP.
    destruct (falsy (code o')); [done|]. destruct (expiresAt o' <? now); [done|].
    apply Z.leb_le in H3. by rewrite H3.
Qed.

End OneTimePassword.

(** Three wrong candidates, then the right one. *)
Lemma one_time_password_is_used_once_witness :
  (length (List.filter Otp.success
             (Otp.verifications Examples.guesses (Some Examples.password))) ≤ 1)%nat.
Proof.
  apply (one_time_password_is_used_once Examples.guesses Examples.password).
  reflexivity.
Defined.
